(** * manotorch: the MANO hand layer ([manotorch/manolayer.py])

    A shallow embedding of [ManoLayer] (construction, the two rotation
    resolvers, [skinning_layer] and [forward]) and the properties of the
    kinematic chain, of the blend shapes and of the post-processing that
    the specification states.

    Modelling conventions.
    - A tensor entry is an element of a commutative ring ([Scalar]); the
      rounding of floating-point arithmetic is not modelled, so "exactly"
      means: as an identity of exact arithmetic.
    - The batch dimension of a tensor is a list, one entry per batch item;
      a dimension whose size is not fixed by the code (vertices, joints,
      coefficients) is a list as well; the fixed 3- and 4-entry dimensions
      are the records [xyz] and [xyzw].
    - A matrix is the list of its rows and is taken to be rectangular: its
      column count is that of its first row.  The shape checks that torch
      makes on the batch and on the coefficient dimensions are explicit
      guards, in the order in which the source reaches them.
    - A Python exception is the [Err] case of [Result].
    - [lietorch.SO3.exp] and the two functions of [utils/quatutils.py]
      are parameters ([RotOps]). *)

From Stdlib Require Import List ZArith Lia Bool Ring Arith Permutation.
From Stdlib Require String Ascii.
Import ListNotations String.StringSyntax.

Local Open Scope string_scope.
Local Open Scope list_scope.

Set Implicit Arguments.

(** ** Exceptions and the error monad *)

Inductive Error : Type :=
| NotImplementedError (msg : String.string)   (* raised by [__init__] *)
| RuntimeError                          (* torch: incompatible tensor shapes *)
| IndexError                            (* torch: index out of range *)
| ValueError                            (* torch: an index that overflows 64 bits *)
| AttributeError                        (* a buffer that was never registered *)
| OSError (msg : String.string).               (* the asset file could not be read *)

Inductive Result (A : Type) : Type :=
| Ok (a : A)
| Err (e : Error).

Arguments Ok {A} a.
Arguments Err {A} e.

Definition bind {A B} (r : Result A) (k : A -> Result B) : Result B :=
  match r with
  | Ok a => k a
  | Err e => Err e
  end.

Notation "x <- e ;; k" := (bind e (fun x => k))
  (at level 61, e at next level, right associativity).
Notation "e ;;; k" := (bind e (fun _ => k))
  (at level 61, right associativity).

Definition guard (b : bool) (e : Error) : Result unit :=
  if b then Ok tt else Err e.

Fixpoint mapM {A B} (f : A -> Result B) (l : list A) : Result (list B) :=
  match l with
  | [] => Ok []
  | a :: l' => b <- f a ;; bs <- mapM f l' ;; Ok (b :: bs)
  end.

Definition is_ok {A} (r : Result A) : bool :=
  match r with Ok _ => true | Err _ => false end.

(** ** Indexing *)

(** [t[i]] for a literal, non-negative index. *)
Definition index {A} (l : list A) (i : nat) : Result A :=
  match nth_error l i with
  | Some a => Ok a
  | None => Err IndexError
  end.

(** [t[:, idxs]]: index selection by a list of literal indices. *)
Definition gather {A} (l : list A) (idxs : list nat) : Result (list A) :=
  mapM (index l) idxs.

(** The range of the 64-bit integer that torch unpacks a Python index
    into. *)
Definition int64_min : Z := (- 2 ^ 63)%Z.
Definition int64_max : Z := (2 ^ 63 - 1)%Z.
Definition fits_int64 (i : Z) : bool :=
  (int64_min <=? i)%Z && (i <=? int64_max)%Z.

(** A Python integer used as an index into a dimension of size [n]:
    an integer that does not fit 64 bits raises [ValueError] (overflow
    when unpacking), [-n .. -1] count from the end, anything else
    outside [-n .. n-1] raises [IndexError]. *)
Definition py_index (n : nat) (i : Z) : Result nat :=
  if negb (fits_int64 i) then Err ValueError
  else if (0 <=? i)%Z && (i <? Z.of_nat n)%Z then Ok (Z.to_nat i)
  else if (- Z.of_nat n <=? i)%Z && (i <? 0)%Z then Ok (Z.to_nat (Z.of_nat n + i))
  else Err IndexError.

Fixpoint map2 {A B C} (f : A -> B -> C) (xs : list A) (ys : list B) : list C :=
  match xs, ys with
  | x :: xs', y :: ys' => f x y :: map2 f xs' ys'
  | _, _ => []
  end.

(** Broadcasting of the batch dimension in an elementwise operation:
    equal sizes pair up, a size of 1 is repeated, anything else raises. *)
Definition broadcast2 {A B C} (f : A -> B -> C) (xs : list A) (ys : list B)
  : Result (list C) :=
  if length xs =? length ys then Ok (map2 f xs ys)
  else match xs, ys with
       | [x], _ => Ok (map (f x) ys)
       | _, [y] => Ok (map (fun x => f x y) xs)
       | _, _ => Err RuntimeError
       end.

(** ** Scalars *)

Class Scalar : Type := {
  scalar : Type;
  s0 : scalar;
  s1 : scalar;
  sadd : scalar -> scalar -> scalar;
  smul : scalar -> scalar -> scalar;
  ssub : scalar -> scalar -> scalar;
  sopp : scalar -> scalar;
  scalar_ring : ring_theory s0 s1 sadd smul ssub sopp eq
}.

#[export] Instance Z_Scalar : Scalar := {
  scalar := Z;
  s0 := 0%Z;
  s1 := 1%Z;
  sadd := Z.add;
  smul := Z.mul;
  ssub := Z.sub;
  sopp := Z.opp;
  scalar_ring := Zth
}.

(** ** Small vectors and matrices *)

Record xyz (A : Type) : Type := XYZ { c0 : A; c1 : A; c2 : A }.
Record xyzw (A : Type) : Type := XYZW { d0 : A; d1 : A; d2 : A; d3 : A }.

Section Tensors.
Context {S : Scalar}.

Definition vec3 : Type := xyz scalar.
Definition vec4 : Type := xyzw scalar.
Definition mat3 : Type := xyz vec3.          (* three rows *)
Definition mat34 : Type := xyz vec4.         (* three rows of four *)
Definition mat4 : Type := xyzw vec4.         (* four rows *)
Definition quat : Type := xyzw scalar.

Definition zero3 : vec3 := XYZ s0 s0 s0.
Definition vadd (a b : vec3) : vec3 :=
  XYZ (sadd (c0 a) (c0 b)) (sadd (c1 a) (c1 b)) (sadd (c2 a) (c2 b)).
Definition vsub (a b : vec3) : vec3 :=
  XYZ (ssub (c0 a) (c0 b)) (ssub (c1 a) (c1 b)) (ssub (c2 a) (c2 b)).

(** [torch.eye(3)] *)
Definition eye3 : mat3 :=
  XYZ (XYZ s1 s0 s0) (XYZ s0 s1 s0) (XYZ s0 s0 s1).
Definition eye4 : mat4 :=
  XYZW (XYZW s1 s0 s0 s0) (XYZW s0 s1 s0 s0)
       (XYZW s0 s0 s1 s0) (XYZW s0 s0 s0 s1).

Definition msub3 (a b : mat3) : mat3 :=
  XYZ (vsub (c0 a) (c0 b)) (vsub (c1 a) (c1 b)) (vsub (c2 a) (c2 b)).

(** Row-major flattening of a 3x3 matrix, as [reshape] does. *)
Definition flatten3 (m : mat3) : list scalar :=
  [c0 (c0 m); c1 (c0 m); c2 (c0 m);
   c0 (c1 m); c1 (c1 m); c2 (c1 m);
   c0 (c2 m); c1 (c2 m); c2 (c2 m)].

(** [torch.cat([rot, tsl], -1)] of a 3x3 block and a 3x1 column. *)
Definition cat_rt (r : mat3) (t : vec3) : mat34 :=
  XYZ (XYZW (c0 (c0 r)) (c1 (c0 r)) (c2 (c0 r)) (c0 t))
      (XYZW (c0 (c1 r)) (c1 (c1 r)) (c2 (c1 r)) (c1 t))
      (XYZW (c0 (c2 r)) (c1 (c2 r)) (c2 (c2 r)) (c2 t)).

(** [th_with_zeros], on one batch item: the row [0 0 0 1] is appended
    below a 3x4 matrix. *)
Definition th_with_zeros (m : mat34) : mat4 :=
  XYZW (c0 m) (c1 m) (c2 m) (XYZW s0 s0 s0 s1).

(** [m[:3, :3]], [m[:3, 3]] and [m[3, :]]. *)
Definition rot_of (m : mat4) : mat3 :=
  XYZ (XYZ (d0 (d0 m)) (d1 (d0 m)) (d2 (d0 m)))
      (XYZ (d0 (d1 m)) (d1 (d1 m)) (d2 (d1 m)))
      (XYZ (d0 (d2 m)) (d1 (d2 m)) (d2 (d2 m))).
Definition tsl_of (m : mat4) : vec3 :=
  XYZ (d3 (d0 m)) (d3 (d1 m)) (d3 (d2 m)).
Definition bottom_of (m : mat4) : vec4 := d3 m.

Definition dot4 (a b : vec4) : scalar :=
  sadd (sadd (sadd (smul (d0 a) (d0 b)) (smul (d1 a) (d1 b)))
             (smul (d2 a) (d2 b)))
       (smul (d3 a) (d3 b)).

Definition col4 (m : mat4) (p : vec4 -> scalar) : vec4 :=
  XYZW (p (d0 m)) (p (d1 m)) (p (d2 m)) (p (d3 m)).

(** [torch.matmul] of a 4x4 matrix and a 4-vector, and of two 4x4
    matrices. *)
Definition mat4_vec (m : mat4) (v : vec4) : vec4 :=
  XYZW (dot4 (d0 m) v) (dot4 (d1 m) v) (dot4 (d2 m) v) (dot4 (d3 m) v).

Definition row_mat4 (r : vec4) (b : mat4) : vec4 :=
  XYZW (dot4 r (col4 b (@d0 _))) (dot4 r (col4 b (@d1 _)))
       (dot4 r (col4 b (@d2 _))) (dot4 r (col4 b (@d3 _))).

Definition mat4_mul (a b : mat4) : mat4 :=
  XYZW (row_mat4 (d0 a) b) (row_mat4 (d1 a) b)
       (row_mat4 (d2 a) b) (row_mat4 (d3 a) b).

Definition v4add (a b : vec4) : vec4 :=
  XYZW (sadd (d0 a) (d0 b)) (sadd (d1 a) (d1 b))
       (sadd (d2 a) (d2 b)) (sadd (d3 a) (d3 b)).
Definition v4sub (a b : vec4) : vec4 :=
  XYZW (ssub (d0 a) (d0 b)) (ssub (d1 a) (d1 b))
       (ssub (d2 a) (d2 b)) (ssub (d3 a) (d3 b)).
Definition v4scale_r (a : vec4) (w : scalar) : vec4 :=
  XYZW (smul (d0 a) w) (smul (d1 a) w) (smul (d2 a) w) (smul (d3 a) w).

Definition zero4 : vec4 := XYZW s0 s0 s0 s0.
Definition mzero4 : mat4 := XYZW zero4 zero4 zero4 zero4.
Definition m4add (a b : mat4) : mat4 :=
  XYZW (v4add (d0 a) (d0 b)) (v4add (d1 a) (d1 b))
       (v4add (d2 a) (d2 b)) (v4add (d3 a) (d3 b)).
Definition m4sub (a b : mat4) : mat4 :=
  XYZW (v4sub (d0 a) (d0 b)) (v4sub (d1 a) (d1 b))
       (v4sub (d2 a) (d2 b)) (v4sub (d3 a) (d3 b)).
Definition m4scale_r (a : mat4) (w : scalar) : mat4 :=
  XYZW (v4scale_r (d0 a) w) (v4scale_r (d1 a) w)
       (v4scale_r (d2 a) w) (v4scale_r (d3 a) w).

(** The sum over the contracted dimension of a [matmul]. *)
Fixpoint dot (xs ys : list scalar) : scalar :=
  match xs, ys with
  | x :: xs', y :: ys' => sadd (smul x y) (dot xs' ys')
  | _, _ => s0
  end.

Fixpoint sum (xs : list scalar) : scalar :=
  match xs with
  | [] => s0
  | x :: xs' => sadd x (sum xs')
  end.

End Tensors.

(** ** Strings and paths used by the constructor *)

(** [str.upper], on the ASCII letters. *)
Definition upper_ascii (c : Ascii.ascii) : Ascii.ascii :=
  let n := Ascii.nat_of_ascii c in
  if (97 <=? n) && (n <=? 122) then Ascii.ascii_of_nat (n - 32) else c.

Fixpoint upper (s : String.string) : String.string :=
  match s with
  | String.EmptyString => String.EmptyString
  | String.String c s' => String.String (upper_ascii c) (upper s')
  end.

Fixpoint ends_with_slash (s : String.string) : bool :=
  match s with
  | String.EmptyString => false
  | String.String c String.EmptyString => Ascii.eqb c (Ascii.ascii_of_nat 47)
  | String.String _ s' => ends_with_slash s'
  end.

(** [os.path.join] of a directory and a relative file name. *)
Definition path_join (root name : String.string) : String.string :=
  match root with
  | String.EmptyString => name
  | _ => if ends_with_slash root then String.append root name
         else String.append root (String.append "/" name)
  end.

(** The external rotation conversions: [lietorch.SO3.exp(..).matrix()]
    restricted to its 3x3 block, and the two functions imported from
    [utils/quatutils.py], which act on each quaternion of a tensor. *)
Class RotOps {S : Scalar} : Type := {
  so3_exp : vec3 -> mat3;
  quaternion_to_rotation_matrix : quat -> mat3;
  quaternion_to_angle_axis : quat -> vec3
}.

(** ** The model *)

Inductive RotationLayer : Type :=
| by_axisang       (* [self.rotation_by_axisang] *)
| by_quaternion.   (* [self.rotation_by_quaternion] *)

(** The arguments of [ManoLayer.__init__]. *)
Record InitArgs : Type := {
  arg_rot_mode : String.string;
  arg_side : String.string;
  arg_center_idx : option Z;
  arg_mano_assets_root : String.string;
  arg_use_pca : bool;
  arg_flat_hand_mean : bool;
  arg_ncomps : Z
}.

Definition default_args : InitArgs := {|
  arg_rot_mode := "axisang";
  arg_side := "right";
  arg_center_idx := None;
  arg_mano_assets_root := "assets/mano";
  arg_use_pca := false;
  arg_flat_hand_mean := true;
  arg_ncomps := 15
|}.

Definition quat_warning : String.string :=
  "Quat mode doesn't support PCA pose or flat_hand_mean !".

Definition unrecognized_mode (rot_mode : String.string) : String.string :=
  String.append
    "Unrecognized rotation mode, expect [pca|axisang|quat], got " rot_mode.

(** The arguments with one of them replaced. *)
Definition set_center_idx (a : InitArgs) (c : option Z) : InitArgs := {|
  arg_rot_mode := arg_rot_mode a;
  arg_side := arg_side a;
  arg_center_idx := c;
  arg_mano_assets_root := arg_mano_assets_root a;
  arg_use_pca := arg_use_pca a;
  arg_flat_hand_mean := arg_flat_hand_mean a;
  arg_ncomps := arg_ncomps a
|}.

Definition set_pca_config (a : InitArgs) (pca flat : bool) : InitArgs := {|
  arg_rot_mode := arg_rot_mode a;
  arg_side := arg_side a;
  arg_center_idx := arg_center_idx a;
  arg_mano_assets_root := arg_mano_assets_root a;
  arg_use_pca := pca;
  arg_flat_hand_mean := flat;
  arg_ncomps := arg_ncomps a
|}.

Definition set_rot_mode (a : InitArgs) (m : String.string) : InitArgs := {|
  arg_rot_mode := m;
  arg_side := arg_side a;
  arg_center_idx := arg_center_idx a;
  arg_mano_assets_root := arg_mano_assets_root a;
  arg_use_pca := arg_use_pca a;
  arg_flat_hand_mean := arg_flat_hand_mean a;
  arg_ncomps := arg_ncomps a
|}.

Definition set_side (a : InitArgs) (sd : String.string) : InitArgs := {|
  arg_rot_mode := arg_rot_mode a;
  arg_side := sd;
  arg_center_idx := arg_center_idx a;
  arg_mano_assets_root := arg_mano_assets_root a;
  arg_use_pca := arg_use_pca a;
  arg_flat_hand_mean := arg_flat_hand_mean a;
  arg_ncomps := arg_ncomps a
|}.

Definition set_ncomps (a : InitArgs) (n : Z) : InitArgs := {|
  arg_rot_mode := arg_rot_mode a;
  arg_side := arg_side a;
  arg_center_idx := arg_center_idx a;
  arg_mano_assets_root := arg_mano_assets_root a;
  arg_use_pca := arg_use_pca a;
  arg_flat_hand_mean := arg_flat_hand_mean a;
  arg_ncomps := n
|}.

(** The path of the asset file that [__init__] asks the provider for. *)
Definition asset_path (a : InitArgs) : String.string :=
  path_join (arg_mano_assets_root a)
    (String.append "MANO_" (String.append (upper (arg_side a)) ".pkl")).

(** The two hard-coded index tables of [skinning_layer]. *)
Definition lev1_idxs : list nat := [1; 4; 7; 10; 13].
Definition lev2_idxs : list nat := [2; 5; 8; 11; 14].
Definition lev3_idxs : list nat := [3; 6; 9; 12; 15].
Definition reorder_idxs : list nat :=
  [0; 1; 6; 11; 2; 7; 12; 3; 8; 13; 4; 9; 14; 5; 10; 15].

(** The fingertip vertices and the joint order of the output. *)
Definition tip_idxs (side : String.string) : list nat :=
  if String.eqb side "right" then [745; 317; 444; 556; 673]
  else [745; 317; 445; 556; 673].
Definition snap_order : list nat :=
  [0; 13; 14; 15; 16; 1; 2; 3; 17; 4; 5; 6; 18; 10; 11; 12; 19; 7; 8; 9; 20].

(** [a[:n]] for a Python integer [n]. *)
Definition py_prefix {A} (l : list A) (n : Z) : list A :=
  firstn (Z.to_nat (if (n <? 0)%Z then Z.of_nat (length l) + n else n)) l.

(** [len(a[:n])] for a sequence [a] of [len] entries: a negative [n]
    counts from the end, and the slice is clipped to the sequence. *)
Definition py_prefix_len (len : nat) (n : Z) : nat :=
  if (n <? 0)%Z then Z.to_nat (Z.of_nat len + n)
  else Nat.min (Z.to_nat n) len.

(** [m.shape[1]] of a matrix given by its rows. *)
Definition ncols {A} (m : list (list A)) : nat :=
  match m with
  | r :: _ => length r
  | [] => 0
  end.

(** [m.shape[1]] of a matrix that may have no row: its rows do not tell
    the number of columns then, and [d] is that number. *)
Definition ncols_or {A} (d : nat) (m : list (list A)) : nat :=
  match m with
  | r :: _ => length r
  | [] => d
  end.

(** Every row of a batch has [n] entries. *)
Definition cols_are {A} (n : nat) (t : list (list A)) : bool :=
  forallb (fun r => length r =? n) t.

Section Mano.
Context {S : Scalar} {K : RotOps}.

(** What [ready_arguments] returns, as far as the layer reads it. *)
Record SmplData : Type := {
  smpl_betas : list scalar;
  smpl_shapedirs : list (xyz (list scalar));     (* [V, 3, S] *)
  smpl_posedirs : list (xyz (list scalar));      (* [V, 3, P] *)
  smpl_v_template : list vec3;                   (* [V, 3] *)
  smpl_J_regressor : list (list scalar);         (* [J, V] *)
  smpl_weights : list (list scalar);             (* [V, J] *)
  smpl_f : list (xyz Z);
  smpl_kintree_table : list Z * list Z;
  smpl_hands_components : list (list scalar);
  smpl_hands_mean : list scalar
}.

(** The attributes and registered buffers of a [ManoLayer].  A buffer
    that is registered in some modes only is an [option]. *)
Record ManoLayer : Type := {
  center_idx : option Z;
  rot_mode : String.string;
  side : String.string;
  use_pca : bool;
  rotation_layer : RotationLayer;
  rot_dim : nat;
  th_betas : list (list scalar);                 (* [1, S] *)
  th_shapedirs : list (xyz (list scalar));
  th_posedirs : list (xyz (list scalar));
  th_v_template : list vec3;                     (* [1, V, 3] *)
  th_J_regressor : list (list scalar);
  th_weights : list (list scalar);
  th_faces : list (xyz Z);
  kintree_parents : list Z;
  th_hands_mean : option (list scalar);          (* [1, 45] *)
  th_selected_comps : option (list (list scalar));
  (* the number of columns of [th_selected_comps], kept beside its rows:
     a basis of no component is a tensor of shape [0, 45] *)
  selected_comps_cols : nat
}.

(** The attributes that [__init__] sets and the buffers it registers,
    once the model data are read. *)
Definition register_buffers (a : InitArgs) (layer : RotationLayer) (dim : nat)
    (smpl_data : SmplData) : ManoLayer :=
  let hands_components := smpl_hands_components smpl_data in
  let axisang := String.eqb (arg_rot_mode a) "axisang" in
  {|
    center_idx := arg_center_idx a;
    rot_mode := arg_rot_mode a;
    side := arg_side a;
    use_pca := arg_use_pca a;
    rotation_layer := layer;
    rot_dim := dim;
    th_betas := [smpl_betas smpl_data];
    th_shapedirs := smpl_shapedirs smpl_data;
    th_posedirs := smpl_posedirs smpl_data;
    th_v_template := smpl_v_template smpl_data;
    th_J_regressor := smpl_J_regressor smpl_data;
    th_weights := smpl_weights smpl_data;
    th_faces := smpl_f smpl_data;
    kintree_parents := fst (smpl_kintree_table smpl_data);
    th_hands_mean :=
      if axisang
      then Some (if arg_flat_hand_mean a
                 then repeat s0 (ncols hands_components)
                 else smpl_hands_mean smpl_data)
      else None;
    th_selected_comps :=
      if axisang && arg_use_pca a
      then Some (py_prefix hands_components (arg_ncomps a))
      else None;
    selected_comps_cols := ncols hands_components
  |}.

(** The body of [__init__] from "load model according to side flag" on. *)
Definition load_model (a : InitArgs) (layer : RotationLayer) (dim : nat)
    (ready_arguments : String.string -> Result SmplData) : Result ManoLayer :=
  let mano_assets_path :=
    path_join (arg_mano_assets_root a)
      (String.append "MANO_" (String.append (upper (arg_side a)) ".pkl")) in
  smpl_data <- ready_arguments mano_assets_path ;;
  Ok (register_buffers a layer dim smpl_data).

(** [ManoLayer.__init__]: the warnings it emits and the layer, or the
    exception it raises. *)
Definition ManoLayer_init (a : InitArgs)
    (ready_arguments : String.string -> Result SmplData)
  : list String.string * Result ManoLayer :=
  if String.eqb (arg_rot_mode a) "axisang" then
    ([], load_model a by_axisang 3 ready_arguments)
  else if String.eqb (arg_rot_mode a) "quat" then
    (if arg_use_pca a || negb (arg_flat_hand_mean a) then [quat_warning] else [],
     load_model a by_quaternion 4 ready_arguments)
  else ([], Err (NotImplementedError (unrecognized_mode (arg_rot_mode a)))).

(** *** Rotation resolvers *)

Record RotationBlob : Type := {
  full_rots : list (list mat3);        (* [B, 16, 3, 3] *)
  rb_full_poses : list (list scalar)   (* [B, 48] *)
}.

Definition attr {A} (o : option A) : Result A :=
  match o with
  | Some a => Ok a
  | None => Err AttributeError
  end.

(** [x.mm(m)] on one row [x], for a matrix [m] of [cols] columns: entry
    [j] is the sum of [x[i] * m[i][j]]. *)
Definition vecmat (cols : nat) (x : list scalar) (m : list (list scalar))
  : list scalar :=
  map (fun j => dot x (map (fun r => nth j r s0) m)) (seq 0 cols).

(** [view(-1, 3)] and [view(B, 16, 4)] on one row. *)
Fixpoint chunks3 (l : list scalar) : list vec3 :=
  match l with
  | x :: y :: z :: l' => XYZ x y z :: chunks3 l'
  | _ => []
  end.
Fixpoint chunks4 (l : list scalar) : list quat :=
  match l with
  | w :: x :: y :: z :: l' => XYZW w x y z :: chunks4 l'
  | _ => []
  end.
Definition unvec3 (v : vec3) : list scalar := [c0 v; c1 v; c2 v].

Definition rotation_by_axisang (self : ManoLayer)
    (pose_coeffs : list (list scalar)) : Result RotationBlob :=
  let hand_pose_coeffs := map (skipn (rot_dim self)) pose_coeffs in
  let root_pose_coeffs := map (firstn (rot_dim self)) pose_coeffs in
  full_hand_pose <-
    (if use_pca self then
       comps <- attr (th_selected_comps self) ;;
       guard (cols_are (length comps) hand_pose_coeffs) RuntimeError ;;;
       Ok (map (fun x => vecmat (ncols_or (selected_comps_cols self) comps)
                                x comps)
               hand_pose_coeffs)
     else Ok hand_pose_coeffs) ;;
  hands_mean <- attr (th_hands_mean self) ;;
  posed <- mapM (broadcast2 sadd hands_mean) full_hand_pose ;;
  let full_poses := map2 (@app scalar) root_pose_coeffs posed in
  guard (cols_are 48 full_poses) RuntimeError ;;;
  Ok {| full_rots := map (fun p => map so3_exp (chunks3 p)) full_poses;
        rb_full_poses := full_poses |}.

Definition rotation_by_quaternion (self : ManoLayer)
    (pose_coeffs : list (list scalar)) : Result RotationBlob :=
  guard (cols_are 64 pose_coeffs) RuntimeError ;;;
  let full_quat_poses := map chunks4 pose_coeffs in
  Ok {| full_rots := map (map quaternion_to_rotation_matrix) full_quat_poses;
        rb_full_poses :=
          map (fun qs => concat (map (fun q => unvec3 (quaternion_to_angle_axis q)) qs))
              full_quat_poses |}.

(** *** [skinning_layer] *)

(** [self.th_shapedirs.shape[2]] and [self.th_posedirs.shape[1]]. *)
Definition n_shape (self : ManoLayer) : nat :=
  match th_shapedirs self with
  | sd :: _ => length (c0 sd)
  | [] => 0
  end.
Definition n_pose (self : ManoLayer) : nat :=
  match th_posedirs self with
  | pd :: _ => length (c0 pd)
  | [] => 0
  end.

(** [torch.matmul] of a [V, 3, N] basis with one coefficient row. *)
Definition blend (dirs : list (xyz (list scalar))) (coeffs : list scalar)
  : list vec3 :=
  map (fun d => XYZ (dot (c0 d) coeffs) (dot (c1 d) coeffs) (dot (c2 d) coeffs))
      dirs.

(** One row of a matrix times a [V, 3] tensor. *)
Definition lincomb3 (ws : list scalar) (vs : list vec3) : vec3 :=
  XYZ (dot ws (map (@c0 _) vs)) (dot ws (map (@c1 _) vs))
      (dot ws (map (@c2 _) vs)).

(** Line 136, one batch item: [J_regressor] applied to
    [v_template + B_S].  The sums run over the shorter operand: the
    shape error that [torch.matmul] raises when the regressor has not
    one column per vertex is not modelled here, and what is stated of a
    call that returns takes buffers that fit ([data_consistent],
    [buffers_fit]). *)
Definition regress_joints (self : ManoLayer) (B_S : list vec3) : list vec3 :=
  map (fun row => lincomb3 row (map2 vadd (th_v_template self) B_S))
      (th_J_regressor self).

(** Lines 139-143, one batch item. *)
Definition rot_minus_mean_flat (hand_rot : list mat3) : list scalar :=
  concat (map (fun r => flatten3 (msub3 r eye3)) hand_rot).

(** Lines 153-190, one batch item: the absolute transform of each of
    the 16 joints. *)
Definition rel_transform (r : mat3) (t : vec3) : mat4 :=
  th_with_zeros (cat_rt r t).

Definition kinematic_chain (root_rot : mat3) (hand_rot : list mat3)
    (J : list vec3) : Result (list mat4) :=
  root_j <- index J 0 ;;
  let root_transf := th_with_zeros (cat_rt root_rot root_j) in
  lev1_rots <- gather hand_rot (map pred lev1_idxs) ;;
  lev2_rots <- gather hand_rot (map pred lev2_idxs) ;;
  lev3_rots <- gather hand_rot (map pred lev3_idxs) ;;
  lev1_j <- gather J lev1_idxs ;;
  lev2_j <- gather J lev2_idxs ;;
  lev3_j <- gather J lev3_idxs ;;
  (* Get lev1 results *)
  let lev1_j_rel := map (fun j => vsub j root_j) lev1_j in
  let lev1_rel_transform_flt := map2 rel_transform lev1_rots lev1_j_rel in
  let lev1_flt := map (mat4_mul root_transf) lev1_rel_transform_flt in
  (* Get lev2 results *)
  let lev2_j_rel := map2 vsub lev2_j lev1_j in
  let lev2_rel_transform_flt := map2 rel_transform lev2_rots lev2_j_rel in
  let lev2_flt := map2 mat4_mul lev1_flt lev2_rel_transform_flt in
  (* Get lev3 results *)
  let lev3_j_rel := map2 vsub lev3_j lev2_j in
  let lev3_rel_transform_flt := map2 rel_transform lev3_rots lev3_j_rel in
  let lev3_flt := map2 mat4_mul lev2_flt lev3_rel_transform_flt in
  let all_transforms := [root_transf] ++ lev1_flt ++ lev2_flt ++ lev3_flt in
  gather all_transforms reorder_idxs.

(** Lines 194-196, one joint: [G_k] minus the matrix whose last column
    is [G_k] applied to the joint location padded with a zero. *)
Definition homo0 (v : vec3) : vec4 := XYZW (c0 v) (c1 v) (c2 v) s0.
Definition homo1 (v : vec3) : vec4 := XYZW (c0 v) (c1 v) (c2 v) s1.
Definition last_col (t : vec4) : mat4 :=
  XYZW (XYZW s0 s0 s0 (d0 t)) (XYZW s0 s0 s0 (d1 t))
       (XYZW s0 s0 s0 (d2 t)) (XYZW s0 s0 s0 (d3 t)).
Definition G_prime (G : mat4) (j : vec3) : mat4 :=
  let tmp2 := mat4_vec G (homo0 j) in
  m4sub G (last_col tmp2).

(** Line 200, one vertex: the sum over the joints of [G'_k * w_k]. *)
Fixpoint blend_transforms (G_prime_k : list mat4) (w : list scalar) : mat4 :=
  match G_prime_k, w with
  | g :: gs, wk :: ws => m4add (m4scale_r g wk) (blend_transforms gs ws)
  | _, _ => mzero4
  end.

(** Lines 202-211, one vertex. *)
Definition first3 (v : vec4) : vec3 := XYZ (d0 v) (d1 v) (d2 v).
Definition skin_vertex (G_prime_k : list mat4) (w : list scalar) (t_p : vec3)
  : vec3 :=
  first3 (mat4_vec (blend_transforms G_prime_k w) (homo1 t_p)).

(** What lines 153-232 compute for one batch item. *)
Record SkinnedItem : Type := {
  it_verts : list vec3;       (* [778, 3] *)
  it_joints : list vec3;      (* [21, 3], in the output order *)
  it_G_k : list mat4          (* [16, 4, 4] *)
}.

Definition skin_item (self : ManoLayer) (root_rot : mat3)
    (hand_rot : list mat3) (J T_P : list vec3) : Result SkinnedItem :=
  G_k <- kinematic_chain root_rot hand_rot J ;;
  (* joint_js: [J] must have the 16 rows that it is padded with *)
  guard (length J =? 16) RuntimeError ;;;
  let G_prime_k := map2 G_prime G_k J in
  (* matmul with [th_weights.transpose(0, 1)] *)
  guard (ncols (th_weights self) =? 16) RuntimeError ;;;
  let verts := map2 (skin_vertex G_prime_k) (th_weights self) T_P in
  let joints := map tsl_of G_k in
  tips <- gather verts (tip_idxs (side self)) ;;
  joints <- gather (joints ++ tips) snap_order ;;
  Ok {| it_verts := verts; it_joints := joints; it_G_k := G_k |}.

(** Lines 124-232 on the whole batch: the shape checks that torch makes
    on the batch and coefficient dimensions, then [skin_item] on each
    batch item. *)
Definition skinning_core (self : ManoLayer) (full_rots : list (list mat3))
    (betas : list (list scalar)) : Result (list SkinnedItem) :=
  let batch_size := length full_rots in
  root_rot <- mapM (fun r => index r 0) full_rots ;;
  let hand_rot := map (skipn 1) full_rots in
  (* B_S *)
  guard (cols_are (n_shape self) betas) RuntimeError ;;;
  let B_S := map (blend (th_shapedirs self)) betas in
  let J := map (regress_joints self) B_S in
  (* B_P *)
  guard (forallb (fun h => length h * 9 =? n_pose self) hand_rot) RuntimeError ;;;
  let B_P := map (fun h => blend (th_posedirs self) (rot_minus_mean_flat h))
                 hand_rot in
  (* T_P *)
  T_P <- broadcast2 (map2 vadd)
           (map (map2 vadd (th_v_template self)) B_S) B_P ;;
  (* root_j: J[:, 0, :] and its view(batch_size, 3, 1) *)
  guard (0 <? length (th_J_regressor self)) IndexError ;;;
  guard (length J =? batch_size) RuntimeError ;;;
  mapM (fun '(r, h, j, t) => skin_item self r h j t)
       (combine (combine (combine root_rot hand_rot) J) T_P).

Record SkinningBlob : Type := {
  sk_verts : list (list vec3);
  sk_joints : list (list vec3);
  sk_center_joint : list vec3;          (* [B, 1, 3] *)
  sk_transforms_abs : list (list mat4)
}.

(** Lines 243-249, one joint of one batch item. *)
Definition center_transform (center_joint : vec3) (G : mat4) : mat4 :=
  let global_rot := rot_of G in
  let global_tsl := vsub (tsl_of G) center_joint in
  th_with_zeros (cat_rt global_rot global_tsl).

(** Lines 234-257. *)
Definition center_shift (self : ManoLayer) (items : list SkinnedItem)
  : Result SkinningBlob :=
  center_joint <-
    match center_idx self with
    | Some c =>
        i <- py_index 21 c ;;
        Ok (map (fun it => nth i (it_joints it) zero3) items)
    | None => Ok (map (fun _ => zero3) items)
    end ;;
  Ok {|
    sk_verts :=
      map2 (fun it cj => map (fun v => vsub v cj) (it_verts it))
           items center_joint;
    sk_joints :=
      map2 (fun it cj => map (fun j => vsub j cj) (it_joints it))
           items center_joint;
    sk_center_joint := center_joint;
    sk_transforms_abs :=
      map2 (fun it cj => map (center_transform cj) (it_G_k it))
           items center_joint
  |}.

Definition skinning_layer (self : ManoLayer) (full_rots : list (list mat3))
    (betas : list (list scalar)) : Result SkinningBlob :=
  items <- skinning_core self full_rots betas ;;
  center_shift self items.

(** *** [forward] *)

Record MANOOutput : Type := {
  verts : list (list vec3);
  joints : list (list vec3);
  out_center_idx : option Z;
  center_joint : list vec3;
  full_poses : list (list scalar);
  betas : list (list scalar);
  transforms_abs : list (list mat4)
}.

Definition run_rotation_layer (self : ManoLayer)
    (pose_coeffs : list (list scalar)) : Result RotationBlob :=
  match rotation_layer self with
  | by_axisang => rotation_by_axisang self pose_coeffs
  | by_quaternion => rotation_by_quaternion self pose_coeffs
  end.

Definition forward (self : ManoLayer) (pose_coeffs betas_in : list (list scalar))
  : Result MANOOutput :=
  rot_blob <- run_rotation_layer self pose_coeffs ;;
  skinning_blob <- skinning_layer self (full_rots rot_blob) betas_in ;;
  Ok {|
    verts := sk_verts skinning_blob;
    joints := sk_joints skinning_blob;
    out_center_idx := center_idx self;
    center_joint := sk_center_joint skinning_blob;
    full_poses := rb_full_poses rot_blob;
    betas := betas_in;
    transforms_abs := sk_transforms_abs skinning_blob
  |}.

End Mano.

(** ** The kinematic tree of the level tables *)

Fixpoint position (j : nat) (l : list nat) : option nat :=
  match l with
  | [] => None
  | k :: l' => if j =? k then Some 0
               else match position j l' with
                    | Some i => Some (Datatypes.S i)
                    | None => None
                    end
  end.

(** The parent that [skinning_layer] composes joint [j] with: the root
    for a joint of level 1, the joint at the same place of the previous
    level otherwise. *)
Definition parent_of (j : nat) : option nat :=
  match position j lev1_idxs with
  | Some _ => Some 0
  | None =>
      match position j lev2_idxs with
      | Some i => nth_error lev1_idxs i
      | None =>
          match position j lev3_idxs with
          | Some i => nth_error lev2_idxs i
          | None => None
          end
      end
  end.


(** ** Definitions of the properties *)

Section Derived.
Context {S : Scalar} {K : RotOps}.

(** The absolute transform of joint [j], composed along its ancestors:
    [fuel] bounds the number of ancestors that are followed. *)
Fixpoint abs_transform (fuel : nat) (rot : nat -> mat3) (loc : nat -> vec3)
    (j : nat) : mat4 :=
  match fuel, parent_of j with
  | Datatypes.S fuel', Some p =>
      mat4_mul (abs_transform fuel' rot loc p)
               (rel_transform (rot j) (vsub (loc j) (loc p)))
  | _, _ => rel_transform (rot 0) (loc 0)
  end.

(** The default of [nth] on a list of batch items. *)
Definition empty_item : SkinnedItem :=
  {| it_verts := []; it_joints := []; it_G_k := [] |}.

(** The bottom row of a homogeneous transform. *)
Definition e4 : vec4 := XYZW s0 s0 s0 s1.

(** The buffers that the selected rotation resolver reads are
    registered. *)
Definition buffers_registered (self : ManoLayer) : Prop :=
  match rotation_layer self with
  | by_axisang =>
      th_hands_mean self <> None /\
      (use_pca self = true -> th_selected_comps self <> None)
  | by_quaternion => True
  end.

(** The vertices before skinning, [T_P], of one batch item. *)
Definition T_P_item (self : ManoLayer) (rots : list mat3) (beta : list scalar)
  : list vec3 :=
  map2 vadd
    (map2 vadd (th_v_template self) (blend (th_shapedirs self) beta))
    (blend (th_posedirs self) (rot_minus_mean_flat (skipn 1 rots))).

(** The dimensions of the MANO model data (at least 746 vertices, 16
    joints, 135 pose-correction coefficients, 45 hand-pose components),
    and the normalisation of the skinning weights. *)
Definition data_consistent (d : SmplData) : Prop :=
  let V := length (smpl_v_template d) in
  745 < V /\
  length (smpl_shapedirs d) = V /\
  length (smpl_posedirs d) = V /\
  length (smpl_weights d) = V /\
  length (smpl_J_regressor d) = 16 /\
  Forall (fun pd => length (c0 pd) = 135) (smpl_posedirs d) /\
  Forall (fun w => length w = 16 /\ sum w = s1) (smpl_weights d) /\
  smpl_hands_components d <> [] /\
  Forall (fun r => length r = 45) (smpl_hands_components d) /\
  Forall (fun row => length row = V) (smpl_J_regressor d).

(** The joints and transforms of the rest pose, from the regressed
    joint locations [J] and the vertices [T_P]. *)
Definition rest_joints (side : String.string) (J T_P : list vec3) : list vec3 :=
  map (fun i => nth i (J ++ map (fun i => nth i T_P zero3) (tip_idxs side)) zero3)
      snap_order.
Definition rest_transforms (J : list vec3) : list mat4 :=
  map (fun j => rel_transform eye3 (nth j J zero3)) (seq 0 16).

(** What [skin_item] returns at the rest pose. *)
Definition rest_item (self : ManoLayer) : SkinnedItem :=
  let J := map (fun row => lincomb3 row (th_v_template self))
               (th_J_regressor self) in
  {| it_verts := th_v_template self;
     it_joints := rest_joints (side self) J (th_v_template self);
     it_G_k := rest_transforms J |}.

(** [data_consistent], read on the buffers of a layer. *)
Definition layer_consistent (self : ManoLayer) : Prop :=
  let V := length (th_v_template self) in
  745 < V /\
  length (th_shapedirs self) = V /\
  length (th_posedirs self) = V /\
  length (th_weights self) = V /\
  length (th_J_regressor self) = 16 /\
  n_pose self = 135 /\
  Forall (fun w => length w = 16 /\ sum w = s1) (th_weights self).


(** *** One batch item at a time

    What the batched code computes for one row of its inputs: the
    per-row reading of [rotation_by_axisang], of
    [rotation_by_quaternion] and of lines 124-232 of [skinning_layer]. *)

Definition axisang_row (self : ManoLayer) (p : list scalar)
  : Result (list mat3 * list scalar) :=
  let hand := skipn (rot_dim self) p in
  let root := firstn (rot_dim self) p in
  full_hand_pose <-
    (if use_pca self then
       comps <- attr (th_selected_comps self) ;;
       guard (length hand =? length comps) RuntimeError ;;;
       Ok (vecmat (ncols_or (selected_comps_cols self) comps) hand comps)
     else Ok hand) ;;
  hands_mean <- attr (th_hands_mean self) ;;
  posed <- broadcast2 sadd hands_mean full_hand_pose ;;
  let full := root ++ posed in
  guard (length full =? 48) RuntimeError ;;;
  Ok (map so3_exp (chunks3 full), full).

Definition quaternion_row (p : list scalar) : Result (list mat3 * list scalar) :=
  guard (length p =? 64) RuntimeError ;;;
  Ok (map quaternion_to_rotation_matrix (chunks4 p),
      concat (map (fun q => unvec3 (quaternion_to_angle_axis q)) (chunks4 p))).

Definition rotation_row (self : ManoLayer) (p : list scalar)
  : Result (list mat3 * list scalar) :=
  match rotation_layer self with
  | by_axisang => axisang_row self p
  | by_quaternion => quaternion_row p
  end.

Definition blob_of_rows (rows : list (list mat3 * list scalar)) : RotationBlob :=
  {| full_rots := map fst rows; rb_full_poses := map snd rows |}.

Definition skin_row (self : ManoLayer) (rots : list mat3) (beta : list scalar)
  : Result SkinnedItem :=
  root_rot <- index rots 0 ;;
  guard (length beta =? n_shape self) RuntimeError ;;;
  guard (length (skipn 1 rots) * 9 =? n_pose self) RuntimeError ;;;
  skin_item self root_rot (skipn 1 rots)
    (regress_joints self (blend (th_shapedirs self) beta))
    (T_P_item self rots beta).

(** Batch item [b] of an output, as a batch of one. *)
Definition output_item (out : MANOOutput) (b : nat) : MANOOutput :=
  {| verts := [nth b (verts out) []];
     joints := [nth b (joints out) []];
     out_center_idx := out_center_idx out;
     center_joint := [nth b (center_joint out) zero3];
     full_poses := [nth b (full_poses out) []];
     betas := [nth b (betas out) []];
     transforms_abs := [nth b (transforms_abs out) []] |}.


Definition with_side (self : ManoLayer) (sd : String.string) : ManoLayer :=
  {| center_idx := center_idx self;
     rot_mode := rot_mode self;
     side := sd;
     use_pca := use_pca self;
     rotation_layer := rotation_layer self;
     rot_dim := rot_dim self;
     th_betas := th_betas self;
     th_shapedirs := th_shapedirs self;
     th_posedirs := th_posedirs self;
     th_v_template := th_v_template self;
     th_J_regressor := th_J_regressor self;
     th_weights := th_weights self;
     th_faces := th_faces self;
     kintree_parents := kintree_parents self;
     th_hands_mean := th_hands_mean self;
     th_selected_comps := th_selected_comps self;
     selected_comps_cols := selected_comps_cols self |}.


(** The center joint that lines 234-237 select in a batch item, and
    the blob that lines 239-256 build from it. *)
Definition center_of (self : ManoLayer) : Result (SkinnedItem -> vec3) :=
  match center_idx self with
  | Some c => i <- py_index 21 c ;; Ok (fun it => nth i (it_joints it) zero3)
  | None => Ok (fun _ => zero3)
  end.

Definition shift_blob (cj : SkinnedItem -> vec3) (items : list SkinnedItem)
  : SkinningBlob :=
  {| sk_verts := map (fun it => map (fun v => vsub v (cj it)) (it_verts it)) items;
     sk_joints := map (fun it => map (fun j => vsub j (cj it)) (it_joints it)) items;
     sk_center_joint := map cj items;
     sk_transforms_abs :=
       map (fun it => map (center_transform (cj it)) (it_G_k it)) items |}.


(** The center index is none or an index that [joints[:, c]] accepts. *)
Definition center_idx_valid (self : ManoLayer) : Prop :=
  match center_idx self with
  | Some c => (-21 <= c <= 20)%Z
  | None => True
  end.

(** The buffers are tensors of the MANO dimensions that fit each other:
    [layer_consistent], a joint regressor with one column per vertex,
    and shape and pose bases with the same number of coefficients in
    every row. *)
Definition buffers_fit (self : ManoLayer) : Prop :=
  layer_consistent self /\
  Forall (fun row => length row = length (th_v_template self))
         (th_J_regressor self) /\
  Forall (fun sd => length (c0 sd) = n_shape self /\
                    length (c1 sd) = n_shape self /\
                    length (c2 sd) = n_shape self)
         (th_shapedirs self) /\
  Forall (fun pd => length (c0 pd) = n_pose self /\
                    length (c1 pd) = n_pose self /\
                    length (c2 pd) = n_pose self)
         (th_posedirs self).


(** *** Rotations and rigid motions *)









(** A batch item with its fingertips read at the vertices of side
    [sd]. *)
Definition with_tips (sd : String.string) (it : SkinnedItem) : SkinnedItem :=
  {| it_verts := it_verts it;
     it_joints :=
       map (fun i => nth i (map tsl_of (it_G_k it) ++
                            map (fun t => nth t (it_verts it) zero3)
                                (tip_idxs sd)) zero3)
           snap_order;
     it_G_k := it_G_k it |}.


End Derived.

(** ** Tactics for equations between matrices

    A vector or a matrix is opened into its entries, the operations are
    unfolded, and what is left is an equation of the scalar ring. *)


(** ** A model over the integers

    Used to run the definitions on concrete inputs.  The rotation
    conversions are polynomial stand-ins: the first-order term of the
    exponential map, the quaternion-to-matrix formula without
    normalisation, and twice the vector part for the axis-angle. *)

Definition Z_so3_exp (a : @vec3 Z_Scalar) : @mat3 Z_Scalar :=
  (XYZ (XYZ 1 (- c2 a) (c1 a))
       (XYZ (c2 a) 1 (- c0 a))
       (XYZ (- c1 a) (c0 a) 1))%Z.

Definition Z_quaternion_to_rotation_matrix (q : @quat Z_Scalar) : @mat3 Z_Scalar :=
  let w := d0 q in let x := d1 q in let y := d2 q in let z := d3 q in
  (XYZ (XYZ (1 - 2 * (y * y + z * z)) (2 * (x * y - w * z)) (2 * (x * z + w * y)))
       (XYZ (2 * (x * y + w * z)) (1 - 2 * (x * x + z * z)) (2 * (y * z - w * x)))
       (XYZ (2 * (x * z - w * y)) (2 * (y * z + w * x)) (1 - 2 * (x * x + y * y))))%Z.

Definition Z_quaternion_to_angle_axis (q : @quat Z_Scalar) : @vec3 Z_Scalar :=
  (XYZ (2 * d1 q) (2 * d2 q) (2 * d3 q))%Z.

#[export] Instance Z_RotOps : @RotOps Z_Scalar := {
  so3_exp := Z_so3_exp;
  quaternion_to_rotation_matrix := Z_quaternion_to_rotation_matrix;
  quaternion_to_angle_axis := Z_quaternion_to_angle_axis
}.

Definition one_hot (n k : nat) : list Z :=
  map (fun i => if i =? k then 1%Z else 0%Z) (seq 0 n).

(** A hand with 778 vertices and 16 joints: joint [k] is regressed from
    the vertices [k] and [k + 20], vertex [v] follows the joints [v mod 16]
    and [(v + 1) mod 16] with the weights 2 and -1. *)
Definition toy_data : @SmplData Z_Scalar := {|
  smpl_betas := repeat 0%Z 10;
  smpl_shapedirs :=
    map (fun v => let z := Z.of_nat v in
                  XYZ (map (fun s => (z + Z.of_nat s)%Z) (seq 0 10))
                      (repeat (z mod 3)%Z 10)
                      (map (fun s => (Z.of_nat s - 4)%Z) (seq 0 10)))
        (seq 0 778);
  smpl_posedirs :=
    map (fun v => let z := Z.of_nat v in
                  XYZ (repeat (z mod 5)%Z 135)
                      (map (fun p => (Z.of_nat p mod 2)%Z) (seq 0 135))
                      (repeat 1%Z 135))
        (seq 0 778);
  smpl_v_template :=
    map (fun v => let z := Z.of_nat v in XYZ z (2 * z) (3 * z + 1))%Z (seq 0 778);
  smpl_J_regressor :=
    map (fun k => map (fun v => if (v =? k) || (v =? k + 20) then 1%Z else 0%Z)
                      (seq 0 778))
        (seq 0 16);
  smpl_weights :=
    map (fun v => map (fun k => if k =? v mod 16 then 2%Z
                                else if k =? (v + 1) mod 16 then (-1)%Z
                                else 0%Z)
                      (seq 0 16))
        (seq 0 778);
  smpl_f := [XYZ 0 1 2; XYZ 1 2 3]%Z;
  smpl_kintree_table :=
    ([4294967295; 0; 1; 2; 0; 4; 5; 0; 7; 8; 0; 10; 11; 0; 13; 14]%Z,
     map Z.of_nat (seq 0 16));
  smpl_hands_components := map (one_hot 45) (seq 0 45);
  smpl_hands_mean := map (fun i => (Z.of_nat i mod 4 - 1)%Z) (seq 0 45)
|}.

(** A data provider that knows the two asset files. *)
Definition toy_ready_arguments (path : String.string) : Result (@SmplData Z_Scalar) :=
  if String.eqb path "assets/mano/MANO_RIGHT.pkl"
     || String.eqb path "assets/mano/MANO_LEFT.pkl"
  then Ok toy_data
  else Err (OSError path).

(** Layers over the toy data, with no center joint and with the center
    joints 9, 0 and 21. *)
Definition toy_layer_at (c : option Z) : @ManoLayer Z_Scalar :=
  register_buffers (set_center_idx default_args c) by_axisang 3 toy_data.
Definition toy_right : @ManoLayer Z_Scalar := toy_layer_at None.
Definition toy_centered : @ManoLayer Z_Scalar := toy_layer_at (Some 9%Z).
Definition toy_far_centered : @ManoLayer Z_Scalar := toy_layer_at (Some 21%Z).

(** A batch of two poses, and the rotations and joint locations that the
    kinematic chain is run on. *)
Definition toy_pose : list (list Z) :=
  [map (fun i => (Z.of_nat i mod 3 - 1)%Z) (seq 0 48); repeat 0%Z 48].

(** The rest pose: a batch of one zero pose and one zero shape. *)
Definition zero_pose : list (list Z) := [repeat 0%Z 48].
Definition zero_betas : list (list Z) := [repeat 0%Z 10].
Definition rest_rots : list (list (@mat3 Z_Scalar)) := [repeat eye3 16].
Definition rest_rot_blob : @RotationBlob Z_Scalar :=
  {| full_rots := rest_rots; rb_full_poses := [repeat 0%Z 48] |}.

(** What the centering step returns at the rest pose when the center
    joint is slot [i]. *)
Definition rest_blob (self : @ManoLayer Z_Scalar) (i : nat) : @SkinningBlob Z_Scalar :=
  let cj := nth i (it_joints (rest_item self)) zero3 in
  {| sk_verts := [map (fun v => vsub v cj) (it_verts (rest_item self))];
     sk_joints := [map (fun j => vsub j cj) (it_joints (rest_item self))];
     sk_center_joint := [cj];
     sk_transforms_abs := [map (center_transform cj) (it_G_k (rest_item self))] |}.
Definition rest_output (self : @ManoLayer Z_Scalar) (i : nat) : @MANOOutput Z_Scalar :=
  {| verts := sk_verts (rest_blob self i);
     joints := sk_joints (rest_blob self i);
     out_center_idx := center_idx self;
     center_joint := sk_center_joint (rest_blob self i);
     full_poses := [repeat 0%Z 48];
     betas := zero_betas;
     transforms_abs := sk_transforms_abs (rest_blob self i) |}.

Definition quat_pca_args : InitArgs :=
  set_pca_config (set_rot_mode default_args "quat") true true.

(** A layer whose mean pose is the one of the model data, the arguments
    of a layer with the PCA basis and of a layer whose side is written
    in capitals, a batch of two shape rows, and a quarter turn about the
    third axis. *)
Definition toy_posed_mean : @ManoLayer Z_Scalar :=
  register_buffers (set_pca_config default_args false false) by_axisang 3
    toy_data.
Definition pca_args : InitArgs := set_pca_config default_args true true.
Definition capital_side_args : InitArgs := set_side default_args "RIGHT".
Definition toy_betas : list (list Z) := [repeat 1%Z 10; repeat 0%Z 10].


(** ** Lemmas on the error monad and on indexing *)

Lemma bind_ok_inv {A B} (r : Result A) (k : A -> Result B) (b : B) :
  bind r k = Ok b -> exists a, r = Ok a /\ k a = Ok b.
Proof.
  destruct r as [a|e]; simpl; intros H; [eauto | discriminate].
Qed.

Lemma guard_ok_inv (b : bool) (e : Error) (u : unit) :
  guard b e = Ok u -> b = true.
Proof.
  destruct b; simpl; intros H; [reflexivity | discriminate].
Qed.

Lemma index_lt {A} (l : list A) (i : nat) (d : A) :
  i < length l -> index l i = Ok (nth i l d).
Proof.
  intros H. unfold index.
  rewrite (nth_error_nth' l d H). reflexivity.
Qed.

Lemma index_ok_inv {A} (l : list A) (i : nat) (a d : A) :
  index l i = Ok a -> i < length l /\ nth i l d = a.
Proof.
  unfold index. destruct (nth_error l i) as [x|] eqn:E; intros H; [|discriminate].
  injection H as ->. split.
  - apply nth_error_Some. congruence.
  - apply nth_error_nth. exact E.
Qed.

Lemma gather_ok {A} (l : list A) (idxs : list nat) (d : A) :
  Forall (fun i => i < length l) idxs ->
  gather l idxs = Ok (map (fun i => nth i l d) idxs).
Proof.
  unfold gather. induction 1 as [|i idxs Hi _ IH]; simpl.
  - reflexivity.
  - rewrite (index_lt l d Hi). simpl. rewrite IH. reflexivity.
Qed.

Lemma gather_ok_inv {A} (l : list A) (idxs : list nat) (r : list A) (d : A) :
  gather l idxs = Ok r ->
  Forall (fun i => i < length l) idxs /\ r = map (fun i => nth i l d) idxs.
Proof.
  unfold gather. revert r. induction idxs as [|i idxs IH]; simpl; intros r H.
  - injection H as <-. split; constructor.
  - apply bind_ok_inv in H. destruct H as (a & Ha & H).
    apply bind_ok_inv in H. destruct H as (bs & Hbs & H).
    injection H as <-.
    destruct (index_ok_inv l i d Ha) as [Hlt Hnth].
    destruct (IH bs Hbs) as [Hall ->].
    split; [constructor; assumption | rewrite Hnth; reflexivity].
Qed.

Lemma gather_length {A} (l : list A) (idxs : list nat) (r : list A) :
  gather l idxs = Ok r -> length r = length idxs.
Proof.
  unfold gather. revert r. induction idxs as [|i idxs IH]; simpl; intros r H.
  - injection H as <-. reflexivity.
  - apply bind_ok_inv in H. destruct H as (a & Ha & H).
    apply bind_ok_inv in H. destruct H as (bs & Hbs & H).
    injection H as <-. simpl. rewrite (IH bs Hbs). reflexivity.
Qed.

Lemma mapM_length {A B} (f : A -> Result B) (l : list A) (r : list B) :
  mapM f l = Ok r -> length r = length l.
Proof.
  revert r. induction l as [|a l IH]; simpl; intros r H.
  - injection H as <-. reflexivity.
  - apply bind_ok_inv in H. destruct H as (b & Hb & H).
    apply bind_ok_inv in H. destruct H as (bs & Hbs & H).
    injection H as <-. simpl. rewrite (IH bs Hbs). reflexivity.
Qed.

Lemma mapM_Forall2 {A B} (f : A -> Result B) (l : list A) (r : list B) :
  mapM f l = Ok r -> Forall2 (fun a b => f a = Ok b) l r.
Proof.
  revert r. induction l as [|a l IH]; simpl; intros r H.
  - injection H as <-. constructor.
  - apply bind_ok_inv in H. destruct H as (b & Hb & H).
    apply bind_ok_inv in H. destruct H as (bs & Hbs & H).
    injection H as <-. constructor; auto.
Qed.

Lemma mapM_ok {A B} (f : A -> Result B) (g : A -> B) (l : list A) :
  Forall (fun a => f a = Ok (g a)) l -> mapM f l = Ok (map g l).
Proof.
  induction 1 as [|a l Ha _ IH]; simpl.
  - reflexivity.
  - rewrite Ha. simpl. rewrite IH. reflexivity.
Qed.

Lemma list_16 {A} (l : list A) :
  length l = 16 ->
  exists a0 a1 a2 a3 a4 a5 a6 a7 a8 a9 a10 a11 a12 a13 a14 a15,
    l = [a0; a1; a2; a3; a4; a5; a6; a7; a8; a9; a10; a11; a12; a13; a14; a15].
Proof.
  intros H.
  do 16 (destruct l as [|? l]; [discriminate H|]).
  destruct l; [|discriminate H].
  repeat eexists.
Qed.

(** ** The kinematic chain *)



Section KinematicChain.
Context {S : Scalar}.


End KinematicChain.

(** ** The joint order of the output *)

Lemma snap_order_NoDup : NoDup snap_order.
Proof.
  unfold snap_order.
  repeat (constructor; [simpl; intros H; repeat (destruct H as [H|H]; [discriminate H|]); exact H|]).
  constructor.
Qed.

Lemma snap_order_In (i : nat) : In i snap_order <-> i < 21.
Proof.
  split.
  - unfold snap_order. simpl. intros H.
    repeat (destruct H as [<-|H]; [lia|]). contradiction.
  - intros H.
    do 21 (destruct i as [|i]; [unfold snap_order; simpl; tauto|]).
    lia.
Qed.

(** ** A closed form of the pipeline on one batch item *)

Section ClosedForm.
Context {S : Scalar}.

Lemma scalar_rt : ring_theory s0 s1 sadd smul ssub sopp (@eq scalar).
Proof. exact scalar_ring. Qed.

Add Ring scalar_ring_inst : scalar_rt.

Lemma kinematic_chain_closed (root_rot : mat3) (hand_rot : list mat3)
    (J : list vec3) (G : list mat4) :
  kinematic_chain root_rot hand_rot J = Ok G ->
  15 <= length hand_rot /\ 16 <= length J /\
  G = map (abs_transform 3 (fun j => nth j (root_rot :: hand_rot) eye3)
                           (fun j => nth j J zero3))
          (seq 0 16).
Proof.
  unfold kinematic_chain. intros H.
  apply bind_ok_inv in H. destruct H as (root_j & H0 & H).
  apply (index_ok_inv _ _ zero3) in H0. destruct H0 as [_ <-].
  apply bind_ok_inv in H. destruct H as (l1r & H1r & H).
  apply bind_ok_inv in H. destruct H as (l2r & H2r & H).
  apply bind_ok_inv in H. destruct H as (l3r & H3r & H).
  apply bind_ok_inv in H. destruct H as (l1j & H1j & H).
  apply bind_ok_inv in H. destruct H as (l2j & H2j & H).
  apply bind_ok_inv in H. destruct H as (l3j & H3j & H).
  apply (gather_ok_inv _ _ eye3) in H1r, H2r, H3r.
  apply (gather_ok_inv _ _ zero3) in H1j, H2j, H3j.
  destruct H1r as [_ ->], H2r as [_ ->], H3r as [Hr ->].
  destruct H1j as [_ ->], H2j as [_ ->], H3j as [Hj ->].
  split; [|split].
  - unfold lev3_idxs in Hr. simpl in Hr.
    repeat match goal with Hf : Forall _ (_ :: _) |- _ => inversion Hf; clear Hf; subst end.
    lia.
  - unfold lev3_idxs in Hj.
    repeat match goal with Hf : Forall _ (_ :: _) |- _ => inversion Hf; clear Hf; subst end.
    lia.
  - simpl in H. injection H as <-. reflexivity.
Qed.

Lemma kinematic_chain_ok (root_rot : mat3) (hand_rot : list mat3)
    (J : list vec3) :
  15 <= length hand_rot -> 16 <= length J ->
  kinematic_chain root_rot hand_rot J =
    Ok (map (abs_transform 3 (fun j => nth j (root_rot :: hand_rot) eye3)
                             (fun j => nth j J zero3))
            (seq 0 16)).
Proof.
  intros Hr HJ. unfold kinematic_chain.
  rewrite (index_lt J zero3) by lia. cbv beta iota delta [bind].
  rewrite (gather_ok hand_rot eye3 (idxs := map pred lev1_idxs))
    by (repeat constructor; simpl; lia). cbv beta iota delta [bind].
  rewrite (gather_ok hand_rot eye3 (idxs := map pred lev2_idxs))
    by (repeat constructor; simpl; lia). cbv beta iota delta [bind].
  rewrite (gather_ok hand_rot eye3 (idxs := map pred lev3_idxs))
    by (repeat constructor; simpl; lia). cbv beta iota delta [bind].
  rewrite (gather_ok J zero3 (idxs := lev1_idxs))
    by (repeat constructor; simpl; lia). cbv beta iota delta [bind].
  rewrite (gather_ok J zero3 (idxs := lev2_idxs))
    by (repeat constructor; simpl; lia). cbv beta iota delta [bind].
  rewrite (gather_ok J zero3 (idxs := lev3_idxs))
    by (repeat constructor; simpl; lia). cbv beta iota delta [bind].
  reflexivity.
Qed.

End ClosedForm.

(** ** The post-processor *)

Lemma map2_map_same {A B C} (f : A -> B -> C) (g : A -> B) (l : list A) :
  map2 f l (map g l) = map (fun a => f a (g a)) l.
Proof.
  induction l as [|a l IH]; simpl; [reflexivity | rewrite IH; reflexivity].
Qed.

Lemma map2_length {A B C} (f : A -> B -> C) (xs : list A) (ys : list B) :
  length (map2 f xs ys) = Nat.min (length xs) (length ys).
Proof.
  revert ys. induction xs as [|x xs IH]; intros [|y ys]; simpl; auto.
Qed.

Lemma nth_map2 {A B C} (f : A -> B -> C) (xs : list A) (ys : list B)
    (i : nat) (dx : A) (dy : B) (d : C) :
  i < length xs -> i < length ys ->
  nth i (map2 f xs ys) d = f (nth i xs dx) (nth i ys dy).
Proof.
  revert ys i. induction xs as [|x xs IH]; intros [|y ys] [|i]; simpl; intros Hx Hy;
    try lia; [reflexivity | apply IH; lia].
Qed.

Lemma py_index_inv (n : nat) (c : Z) (i : nat) :
  py_index n c = Ok i ->
  (- Z.of_nat n <= c < Z.of_nat n)%Z /\ i = Z.to_nat (c mod Z.of_nat n) /\ i < n.
Proof.
  unfold py_index. intros H.
  destruct (fits_int64 c); cbn [negb] in H; [|discriminate H].
  destruct ((0 <=? c)%Z && (c <? Z.of_nat n)%Z) eqn:E1.
  - injection H as <-. apply andb_prop in E1. destruct E1 as [Ha Hb].
    apply Z.leb_le in Ha. apply Z.ltb_lt in Hb.
    rewrite Z.mod_small by lia. repeat split; lia.
  - destruct ((- Z.of_nat n <=? c)%Z && (c <? 0)%Z) eqn:E2; [|discriminate H].
    injection H as <-. apply andb_prop in E2. destruct E2 as [Ha Hb].
    apply Z.leb_le in Ha. apply Z.ltb_lt in Hb.
    assert (Hm : (c mod Z.of_nat n = Z.of_nat n + c)%Z).
    { symmetry. apply (Z.mod_unique c (Z.of_nat n) (-1)); lia. }
    rewrite Hm. repeat split; lia.
Qed.

Section PostProcessor.
Context {S : Scalar}.

Add Ring scalar_ring_post : scalar_rt.

Lemma skin_item_inv (self : ManoLayer) (root_rot : mat3)
    (hand_rot : list mat3) (J T_P : list vec3) (it : SkinnedItem) :
  skin_item self root_rot hand_rot J T_P = Ok it ->
  exists tips,
    kinematic_chain root_rot hand_rot J = Ok (it_G_k it) /\
    length J = 16 /\
    ncols (th_weights self) = 16 /\
    it_verts it =
      map2 (skin_vertex (map2 G_prime (it_G_k it) J)) (th_weights self) T_P /\
    gather (it_verts it) (tip_idxs (side self)) = Ok tips /\
    gather (map tsl_of (it_G_k it) ++ tips) snap_order = Ok (it_joints it).
Proof.
  unfold skin_item. intros H.
  apply bind_ok_inv in H. destruct H as (G & HG & H).
  apply bind_ok_inv in H. destruct H as (u1 & H1 & H).
  apply guard_ok_inv, Nat.eqb_eq in H1.
  apply bind_ok_inv in H. destruct H as (u2 & H2 & H).
  apply guard_ok_inv, Nat.eqb_eq in H2.
  apply bind_ok_inv in H. destruct H as (tips & Ht & H).
  apply bind_ok_inv in H. destruct H as (js & Hj & H).
  injection H as <-. simpl. exists tips. auto 10.
Qed.

Lemma skin_item_joints_length (self : ManoLayer) (root_rot : mat3)
    (hand_rot : list mat3) (J T_P : list vec3) (it : SkinnedItem) :
  skin_item self root_rot hand_rot J T_P = Ok it ->
  length (it_joints it) = 21.
Proof.
  intros H. destruct (skin_item_inv _ _ _ _ _ H) as (tips & _ & _ & _ & _ & _ & Hj).
  apply gather_length in Hj. exact Hj.
Qed.

Lemma row_e4 (b : mat4) : row_mat4 e4 b = d3 b.
Proof.
  destruct b as [[? ? ? ?] [? ? ? ?] [? ? ? ?] [? ? ? ?]].
  unfold row_mat4, col4, dot4, e4; simpl. f_equal; ring.
Qed.

Lemma abs_transform_bottom (fuel : nat) (rot : nat -> mat3)
    (loc : nat -> vec3) (j : nat) :
  bottom_of (abs_transform fuel rot loc j) = e4.
Proof.
  revert j. induction fuel as [|fuel IH]; intros j; simpl.
  - reflexivity.
  - destruct (parent_of j) as [p|]; [|reflexivity].
    unfold bottom_of in *. simpl. rewrite IH. apply row_e4.
Qed.

Lemma skin_item_G_k (self : ManoLayer) (root_rot : mat3)
    (hand_rot : list mat3) (J T_P : list vec3) (it : SkinnedItem) :
  skin_item self root_rot hand_rot J T_P = Ok it ->
  length (it_G_k it) = 16 /\
  forall k, k < 16 -> bottom_of (nth k (it_G_k it) mzero4) = e4.
Proof.
  intros H. destruct (skin_item_inv _ _ _ _ _ H) as (tips & HG & _).
  apply kinematic_chain_closed in HG. destruct HG as (_ & _ & ->).
  split; [reflexivity|].
  intros k Hk.
  rewrite (nth_indep _ mzero4
             (abs_transform 3 (fun j => nth j (root_rot :: hand_rot) eye3)
                (fun j => nth j J zero3) 0))
    by (rewrite length_map, length_seq; exact Hk).
  rewrite map_nth. apply abs_transform_bottom.
Qed.

(** Every item that [skinning_core] returns comes from [skin_item]. *)
Lemma skinning_core_items (self : ManoLayer) (full_rots : list (list mat3))
    (betas : list (list scalar)) (items : list SkinnedItem) :
  skinning_core self full_rots betas = Ok items ->
  Forall (fun it => exists r h j t, skin_item self r h j t = Ok it) items.
Proof.
  unfold skinning_core. intros H.
  apply bind_ok_inv in H. destruct H as (rr & _ & H).
  apply bind_ok_inv in H. destruct H as (? & _ & H).
  apply bind_ok_inv in H. destruct H as (? & _ & H).
  apply bind_ok_inv in H. destruct H as (T_P & _ & H).
  apply bind_ok_inv in H. destruct H as (? & _ & H).
  apply bind_ok_inv in H. destruct H as (? & _ & H).
  apply mapM_Forall2 in H.
  induction H as [|[[[r h] j] t] it l l' Hit _ IH]; constructor; eauto.
Qed.

Lemma center_shift_inv (self : ManoLayer) (items : list SkinnedItem)
    (blob : SkinningBlob) :
  center_shift self items = Ok blob ->
  exists cj : SkinnedItem -> vec3,
    (match center_idx self with
     | Some c => exists i, py_index 21 c = Ok i /\
                           cj = fun it => nth i (it_joints it) zero3
     | None => cj = fun _ => zero3
     end) /\
    sk_center_joint blob = map cj items /\
    sk_verts blob = map (fun it => map (fun v => vsub v (cj it)) (it_verts it)) items /\
    sk_joints blob = map (fun it => map (fun j => vsub j (cj it)) (it_joints it)) items /\
    sk_transforms_abs blob =
      map (fun it => map (center_transform (cj it)) (it_G_k it)) items.
Proof.
  unfold center_shift. intros H.
  apply bind_ok_inv in H. destruct H as (cjs & Hc & H).
  injection H as <-. simpl.
  destruct (center_idx self) as [c|].
  - apply bind_ok_inv in Hc. destruct Hc as (i & Hi & Hc).
    injection Hc as <-.
    exists (fun it => nth i (it_joints it) zero3).
    rewrite !map2_map_same. split; [eauto | auto].
  - injection Hc as <-.
    exists (fun _ => zero3).
    rewrite !map2_map_same. auto.
Qed.

End PostProcessor.

Section PostProcessorClaims.
Context {S : Scalar} {K : RotOps}.

Add Ring scalar_ring_claims : scalar_rt.

(** C6: the reorder of the post-processor is the table
    [0,13,14,15,16,1,2,3,17,4,5,6,18,10,11,12,19,7,8,9,20]: slot [i] of
    the 21 joints of a batch item is entry [table[i]] of the 16
    skeletal joints followed by the 5 fingertips; and the table is a
    bijection on 0..20: 21 entries, no duplicate, every index
    present. *)
Theorem snap_order_bijection (self : ManoLayer) (root_rot : mat3)
    (hand_rot : list mat3) (J T_P : list vec3) (it : SkinnedItem) :
  skin_item self root_rot hand_rot J T_P = Ok it ->
  snap_order =
    [0; 13; 14; 15; 16; 1; 2; 3; 17; 4; 5; 6; 18; 10; 11; 12; 19; 7; 8; 9; 20] /\
  (exists tips,
     gather (it_verts it) (tip_idxs (side self)) = Ok tips /\
     length (map tsl_of (it_G_k it) ++ tips) = 21 /\
     it_joints it =
       map (fun i => nth i (map tsl_of (it_G_k it) ++ tips) zero3) snap_order) /\
  length snap_order = 21 /\
  NoDup snap_order /\
  (forall i, In i snap_order <-> i < 21) /\
  Permutation snap_order (seq 0 21).
Proof.
  intros H. split; [reflexivity|]. split.
  - destruct (skin_item_inv _ _ _ _ _ H) as (tips & _ & _ & _ & _ & Ht & Hj).
    destruct (skin_item_G_k _ _ _ _ _ H) as [HG _].
    exists tips. split; [exact Ht|]. split.
    + rewrite length_app, length_map, HG, (gather_length _ _ Ht).
      unfold tip_idxs. destruct (String.eqb (side self) "right"); reflexivity.
    + apply (gather_ok_inv _ _ zero3) in Hj. tauto.
  - split; [reflexivity|]. split; [exact snap_order_NoDup|].
    split; [exact snap_order_In|].
    apply NoDup_Permutation.
    + exact snap_order_NoDup.
    + apply seq_NoDup.
    + intros i. rewrite snap_order_In, in_seq. lia.
Qed.

Lemma center_transform_parts (cj : vec3) (G : mat4) :
  rot_of (center_transform cj G) = rot_of G /\
  tsl_of (center_transform cj G) = vsub (tsl_of G) cj /\
  bottom_of (center_transform cj G) = e4.
Proof.
  destruct G as [[? ? ? ?] [? ? ? ?] [? ? ? ?] [? ? ? ?]].
  repeat split.
Qed.

(** C5: with a center index [c] configured, each of the 16 returned
    absolute transforms of each batch item has the 3x3 rotation block of
    the uncentered transform, its translation column minus the center
    joint (slot [c] of the item's reordered joints), and the bottom row
    [0 0 0 1], which is also the bottom row of the uncentered
    transform. *)
Theorem centering_keeps_rotations (self : ManoLayer)
    (rots : list (list mat3)) (betas_in : list (list scalar))
    (blob : SkinningBlob) (c : Z) :
  center_idx self = Some c ->
  skinning_layer self rots betas_in = Ok blob ->
  exists items i,
    skinning_core self rots betas_in = Ok items /\
    py_index 21 c = Ok i /\
    length (sk_transforms_abs blob) = length items /\
    forall b, b < length items ->
      let it := nth b items empty_item in
      let cj := nth i (it_joints it) zero3 in
      let out := nth b (sk_transforms_abs blob) [] in
      nth b (sk_center_joint blob) zero3 = cj /\
      length (it_G_k it) = 16 /\ length out = 16 /\
      forall k, k < 16 ->
        rot_of (nth k out mzero4) = rot_of (nth k (it_G_k it) mzero4) /\
        tsl_of (nth k out mzero4) =
          vsub (tsl_of (nth k (it_G_k it) mzero4)) cj /\
        bottom_of (nth k (it_G_k it) mzero4) = XYZW s0 s0 s0 s1 /\
        bottom_of (nth k out mzero4) = XYZW s0 s0 s0 s1.
Proof.
  intros Hc H. unfold skinning_layer in H.
  apply bind_ok_inv in H. destruct H as (items & Hcore & H).
  destruct (center_shift_inv _ _ H) as (cj & Hcj & Hcenter & _ & _ & Habs).
  rewrite Hc in Hcj. destruct Hcj as (i & Hi & ->).
  exists items, i. split; [exact Hcore|]. split; [exact Hi|].
  split; [rewrite Habs; apply length_map|].
  intros b Hb. cbv zeta.
  pose proof (skinning_core_items _ _ _ Hcore) as Hall.
  rewrite Forall_forall in Hall.
  destruct (Hall (nth b items empty_item) (nth_In _ _ Hb)) as (r & h & j & t & Hit).
  destruct (skin_item_G_k _ _ _ _ _ Hit) as [HG Hbot].
  rewrite Habs, Hcenter.
  rewrite (nth_indep _ zero3 ((fun it => nth i (it_joints it) zero3) empty_item))
    by (rewrite length_map; exact Hb).
  rewrite (nth_indep _ []
             ((fun it => map (center_transform (nth i (it_joints it) zero3))
                             (it_G_k it)) empty_item))
    by (rewrite length_map; exact Hb).
  rewrite (map_nth (fun it => nth i (it_joints it) zero3)).
  rewrite (map_nth (fun it => map (center_transform (nth i (it_joints it) zero3))
                                  (it_G_k it))).
  split; [reflexivity|]. split; [exact HG|].
  split; [rewrite length_map; exact HG|].
  intros k Hk.
  set (cjv := nth i (it_joints (nth b items empty_item)) zero3).
  rewrite (nth_indep _ mzero4 (center_transform cjv mzero4))
    by (rewrite length_map, HG; exact Hk).
  rewrite (map_nth (center_transform cjv)).
  destruct (center_transform_parts cjv (nth k (it_G_k (nth b items empty_item)) mzero4))
    as (Hr & Ht & Hb4).
  split; [exact Hr|]. split; [exact Ht|].
  split; [apply Hbot; exact Hk | exact Hb4].
Qed.

Lemma vsub_self (v : vec3) : vsub v v = zero3.
Proof.
  destruct v. unfold vsub, zero3; simpl. f_equal; ring.
Qed.

Lemma vsub_zero (v : vec3) : vsub v zero3 = v.
Proof.
  destruct v. unfold vsub, zero3; simpl. f_equal; ring.
Qed.

Lemma map_vsub_zero (l : list vec3) : map (fun v => vsub v zero3) l = l.
Proof.
  induction l as [|v l IH]; simpl; [reflexivity|].
  rewrite vsub_zero, IH. reflexivity.
Qed.

(** C4: when [forward] returns, with a center index [c] configured the
    joint at slot [c] (counted from the end when [c] is negative) of the
    returned joints of every batch item is the zero vector; with no
    center index the reported center joint of every batch item is the
    zero vector and the returned vertices and joints are those computed
    before the centering step. *)
Theorem centering_round_trip (self : ManoLayer)
    (pose_coeffs betas_in : list (list scalar)) (out : MANOOutput) :
  forward self pose_coeffs betas_in = Ok out ->
  exists rot_blob items,
    run_rotation_layer self pose_coeffs = Ok rot_blob /\
    skinning_core self (full_rots rot_blob) betas_in = Ok items /\
    (forall c, center_idx self = Some c ->
       (-21 <= c <= 20)%Z /\
       Forall (fun js => nth_error js (Z.to_nat (c mod 21)) = Some zero3)
              (joints out)) /\
    (center_idx self = None ->
       center_joint out = map (fun _ => zero3) items /\
       verts out = map it_verts items /\
       joints out = map it_joints items).
Proof.
  unfold forward. intros H.
  apply bind_ok_inv in H. destruct H as (rb & Hrb & H).
  apply bind_ok_inv in H. destruct H as (blob & Hblob & H).
  injection H as <-. simpl.
  unfold skinning_layer in Hblob.
  apply bind_ok_inv in Hblob. destruct Hblob as (items & Hcore & Hshift).
  exists rb, items. split; [exact Hrb|]. split; [exact Hcore|].
  destruct (center_shift_inv _ _ Hshift) as (cj & Hcj & Hcenter & Hv & Hj & _).
  pose proof (skinning_core_items _ _ _ Hcore) as Hall.
  split.
  - intros c Hc. rewrite Hc in Hcj. destruct Hcj as (i & Hi & ->).
    destruct (py_index_inv _ _ Hi) as (Hrange & Hidx & Hlt).
    change (Z.of_nat 21) with 21%Z in *.
    split; [lia|].
    rewrite Hj. apply Forall_map.
    apply (Forall_impl _ (P := fun it => exists r h j t, skin_item self r h j t = Ok it));
      [|exact Hall].
    intros it (r & h & j & t & Hit).
    pose proof (skin_item_joints_length _ _ _ _ _ Hit) as Hlen.
    rewrite <- Hidx.
    rewrite (nth_error_nth' _ zero3) by (rewrite length_map, Hlen; exact Hlt).
    rewrite (nth_indep _ zero3 ((fun j0 => vsub j0 (nth i (it_joints it) zero3)) zero3))
      by (rewrite length_map, Hlen; exact Hlt).
    rewrite (map_nth (fun j0 => vsub j0 (nth i (it_joints it) zero3))).
    rewrite vsub_self. reflexivity.
  - intros Hc. rewrite Hc in Hcj. subst cj.
    split; [exact Hcenter|].
    rewrite Hv, Hj. split; apply map_ext; intros it; apply map_vsub_zero.
Qed.

End PostProcessorClaims.

(** ** Construction *)

Section Construction.
Context {S : Scalar} {K : RotOps}.

Lemma init_unrecognized (a : InitArgs)
    (ready_arguments : String.string -> Result SmplData) :
  String.eqb (arg_rot_mode a) "axisang" = false ->
  String.eqb (arg_rot_mode a) "quat" = false ->
  ManoLayer_init a ready_arguments =
    ([], Err (NotImplementedError (unrecognized_mode (arg_rot_mode a)))).
Proof.
  intros H1 H2. unfold ManoLayer_init. rewrite H1, H2. reflexivity.
Qed.

Lemma load_model_ok (a : InitArgs) (layer : RotationLayer) (dim : nat)
    (ready_arguments : String.string -> Result SmplData)
    (smpl_data : SmplData) :
  ready_arguments (asset_path a) = Ok smpl_data ->
  load_model a layer dim ready_arguments =
    Ok (register_buffers a layer dim smpl_data).
Proof.
  intros Hd. unfold load_model. fold (asset_path a). rewrite Hd. reflexivity.
Qed.

(** C7, as the code has it: constructing the model in quaternion mode
    with PCA requested does not fail; it emits the warning of the
    quaternion branch and goes on to load the model data, and the layer
    it returns resolves rotations by quaternion and has neither a PCA
    basis nor a mean pose registered. *)
Theorem quat_with_pca_warns (a : InitArgs)
    (ready_arguments : String.string -> Result SmplData) :
  arg_rot_mode a = "quat" ->
  arg_use_pca a = true ->
  fst (ManoLayer_init a ready_arguments) = [quat_warning] /\
  snd (ManoLayer_init a ready_arguments) =
    (smpl_data <- ready_arguments (asset_path a) ;;
     Ok (register_buffers a by_quaternion 4 smpl_data)) /\
  (forall smpl_data, ready_arguments (asset_path a) = Ok smpl_data ->
     exists l, snd (ManoLayer_init a ready_arguments) = Ok l /\
               rotation_layer l = by_quaternion /\
               th_selected_comps l = None /\
               th_hands_mean l = None).
Proof.
  intros Hm Hp. unfold ManoLayer_init. rewrite Hm, Hp. simpl.
  split; [reflexivity|]. split; [reflexivity|].
  intros d Hd. unfold load_model. fold (asset_path a). rewrite Hd. simpl.
  eexists. split; [reflexivity|]. simpl. rewrite Hm. auto.
Qed.

(** C10: in quaternion mode the constructor succeeds whatever the PCA
    and mean-pose arguments are (given that the model data load), with
    the warning exactly when PCA is requested or the flat mean pose is
    turned off, and [forward] of the layer returns on every input what
    [forward] of the layer constructed with [use_pca=False] and
    [flat_hand_mean=True] returns. *)
Theorem quat_ignores_pca_config (a : InitArgs)
    (ready_arguments : String.string -> Result SmplData)
    (smpl_data : SmplData) :
  arg_rot_mode a = "quat" ->
  ready_arguments (asset_path a) = Ok smpl_data ->
  exists l l0,
    ManoLayer_init a ready_arguments =
      (if arg_use_pca a || negb (arg_flat_hand_mean a)
       then [quat_warning] else [], Ok l) /\
    ManoLayer_init (set_pca_config a false true) ready_arguments = ([], Ok l0) /\
    forall pose_coeffs betas_in,
      forward l pose_coeffs betas_in = forward l0 pose_coeffs betas_in.
Proof.
  intros Hm Hd.
  exists (register_buffers a by_quaternion 4 smpl_data),
         (register_buffers (set_pca_config a false true) by_quaternion 4 smpl_data).
  unfold ManoLayer_init.
  rewrite (load_model_ok a by_quaternion 4 ready_arguments Hd).
  rewrite (load_model_ok (set_pca_config a false true) by_quaternion 4
             ready_arguments (smpl_data := smpl_data)) by exact Hd.
  cbn [set_pca_config arg_rot_mode arg_use_pca arg_flat_hand_mean].
  rewrite Hm. cbn [String.eqb Ascii.eqb Bool.eqb orb negb].
  split; [reflexivity|]. split; [reflexivity|].
  intros pose_coeffs betas_in.
  unfold forward, run_rotation_layer, skinning_layer, register_buffers.
  cbn [rotation_layer]. reflexivity.
Qed.

End Construction.

Lemma py_index_overflow (n : nat) (c : Z) :
  (c < int64_min \/ int64_max < c)%Z -> py_index n c = Err ValueError.
Proof.
  intros H. unfold py_index, fits_int64.
  destruct (Z.leb_spec int64_min c), (Z.leb_spec c int64_max);
    cbn [andb negb]; try reflexivity; lia.
Qed.

Lemma py_index_out (n : nat) (c : Z) :
  (int64_min <= c <= int64_max)%Z ->
  (c < - Z.of_nat n \/ Z.of_nat n <= c)%Z -> py_index n c = Err IndexError.
Proof.
  intros H64 H. unfold py_index, fits_int64.
  destruct (Z.leb_spec int64_min c), (Z.leb_spec c int64_max); try lia.
  cbn [andb negb].
  destruct (Z.leb_spec 0 c), (Z.ltb_spec c (Z.of_nat n)),
           (Z.leb_spec (- Z.of_nat n) c), (Z.ltb_spec c 0); simpl; try reflexivity; lia.
Qed.

Lemma py_index_neg (n : nat) (c : Z) :
  (int64_min <= c)%Z ->
  (- Z.of_nat n <= c < 0)%Z -> py_index n c = Ok (Z.to_nat (Z.of_nat n + c)).
Proof.
  intros H64 H. unfold py_index, fits_int64.
  destruct (Z.leb_spec int64_min c), (Z.leb_spec c int64_max);
    try (unfold int64_max in *; lia).
  cbn [andb negb].
  destruct (Z.leb_spec 0 c), (Z.ltb_spec c (Z.of_nat n)),
           (Z.leb_spec (- Z.of_nat n) c), (Z.ltb_spec c 0); simpl; try reflexivity; lia.
Qed.

Section CenterIndex.
Context {S : Scalar} {K : RotOps}.

Lemma forward_after_core (self : ManoLayer)
    (pose_coeffs betas_in : list (list scalar)) (rot_blob : RotationBlob)
    (items : list SkinnedItem) :
  run_rotation_layer self pose_coeffs = Ok rot_blob ->
  skinning_core self (full_rots rot_blob) betas_in = Ok items ->
  forward self pose_coeffs betas_in =
    (skinning_blob <- center_shift self items ;;
     Ok {| verts := sk_verts skinning_blob;
           joints := sk_joints skinning_blob;
           out_center_idx := center_idx self;
           center_joint := sk_center_joint skinning_blob;
           full_poses := rb_full_poses rot_blob;
           betas := betas_in;
           transforms_abs := sk_transforms_abs skinning_blob |}).
Proof.
  intros Hr Hc. unfold forward, skinning_layer. rewrite Hr. simpl.
  rewrite Hc. reflexivity.
Qed.

(** C9, as the code has it: the constructor does not look at the center
    index.  With an index [c] outside [0, 20] it emits the same warnings
    and raises the same exceptions as with no center index, and the
    layer it returns stores [c].  The index is first used by the
    centering step of [forward]: when the rotation resolver and the
    skinning succeed on the inputs, [forward] raises [IndexError] for
    [c] outside [-21, 20] that fits a 64-bit integer, [ValueError] for
    [c] that does not fit one, and for [c] in [-21, -1] it returns with
    slot [21 + c] of the reordered joints as the center joint. *)
Theorem center_idx_checked_by_forward (a : InitArgs)
    (ready_arguments : String.string -> Result SmplData) (c : Z) :
  ~ (0 <= c <= 20)%Z ->
  fst (ManoLayer_init (set_center_idx a (Some c)) ready_arguments) =
    fst (ManoLayer_init (set_center_idx a None) ready_arguments) /\
  (forall e,
     snd (ManoLayer_init (set_center_idx a (Some c)) ready_arguments) = Err e <->
     snd (ManoLayer_init (set_center_idx a None) ready_arguments) = Err e) /\
  (forall l,
     snd (ManoLayer_init (set_center_idx a (Some c)) ready_arguments) = Ok l ->
     center_idx l = Some c /\
     forall pose_coeffs betas_in rot_blob items,
       run_rotation_layer l pose_coeffs = Ok rot_blob ->
       skinning_core l (full_rots rot_blob) betas_in = Ok items ->
       ((c < -21 \/ 20 < c)%Z -> (int64_min <= c <= int64_max)%Z ->
          forward l pose_coeffs betas_in = Err IndexError) /\
       ((c < int64_min \/ int64_max < c)%Z ->
          forward l pose_coeffs betas_in = Err ValueError) /\
       ((-21 <= c < 0)%Z ->
          exists out,
            forward l pose_coeffs betas_in = Ok out /\
            center_joint out =
              map (fun it => nth (Z.to_nat (21 + c)) (it_joints it) zero3) items)).
Proof.
  intros Hc.
  unfold ManoLayer_init, load_model.
  cbn [set_center_idx arg_rot_mode arg_use_pca arg_flat_hand_mean
       arg_mano_assets_root arg_side].
  fold (asset_path a).
  destruct (String.eqb (arg_rot_mode a) "axisang") eqn:Ea;
    [|destruct (String.eqb (arg_rot_mode a) "quat") eqn:Eq];
    cbn [fst snd];
    (split; [reflexivity|]);
    (split; [intros e; destruct (ready_arguments (asset_path a)); simpl;
             split; intros H; try discriminate H; exact H|]);
    intros l Hl; try discriminate Hl.
  all: apply bind_ok_inv in Hl; destruct Hl as (d & _ & Hl);
    injection Hl as <-; split; [reflexivity|];
    intros pose_coeffs betas_in rot_blob items Hr Hcore;
    rewrite (forward_after_core _ _ _ Hr Hcore);
    unfold center_shift; cbn [register_buffers center_idx set_center_idx arg_center_idx];
    (split; [|split]);
    [ intros Hrange H64;
      rewrite (@py_index_out 21 c H64) by (simpl; lia); reflexivity
    | intros Hrange;
      rewrite (@py_index_overflow 21 c Hrange); reflexivity
    | intros Hrange;
      rewrite (@py_index_neg 21 c) by (unfold int64_min; simpl; lia); simpl;
      eexists; split; reflexivity ].
Qed.

End CenterIndex.

(** ** Shapes of the batch *)

Lemma mapM_err_inv {A B} (f : A -> Result B) (l : list A) (e : Error) :
  mapM f l = Err e -> exists a, In a l /\ f a = Err e.
Proof.
  induction l as [|a l IH]; simpl; intros H; [discriminate H|].
  destruct (f a) as [b|e'] eqn:Ea; simpl in H.
  - destruct (mapM f l) as [bs|e'] eqn:El; simpl in H; [discriminate H|].
    injection H as ->. destruct (IH eq_refl) as (x & Hx & Hfx). eauto.
  - injection H as ->. eauto.
Qed.

Lemma broadcast2_err_inv {A B C} (f : A -> B -> C) (xs : list A) (ys : list B)
    (e : Error) :
  broadcast2 f xs ys = Err e -> e = RuntimeError.
Proof.
  unfold broadcast2.
  destruct (length xs =? length ys); [discriminate|].
  destruct xs as [|x [|x' xs]]; destruct ys as [|y [|y' ys]];
    intros H; try discriminate H; injection H as <-; reflexivity.
Qed.

Lemma cols_are_Forall {A} (n : nat) (t : list (list A)) :
  cols_are n t = true -> Forall (fun r => length r = n) t.
Proof.
  unfold cols_are. rewrite forallb_forall, Forall_forall.
  intros H r Hr. apply Nat.eqb_eq. exact (H r Hr).
Qed.

Section BatchShapes.
Context {S : Scalar} {K : RotOps}.

Lemma chunks3_length (n : nat) (l : list scalar) :
  length l = 3 * n -> length (chunks3 l) = n.
Proof.
  revert l. induction n as [|n IH]; intros l H.
  - destruct l; [reflexivity | discriminate H].
  - destruct l as [|x [|y [|z l]]]; simpl in H; try lia.
    simpl. f_equal. apply IH. lia.
Qed.

Lemma chunks4_length (n : nat) (l : list scalar) :
  length l = 4 * n -> length (chunks4 l) = n.
Proof.
  revert l. induction n as [|n IH]; intros l H.
  - destruct l; [reflexivity | discriminate H].
  - destruct l as [|w [|x [|y [|z l]]]]; simpl in H; try lia.
    simpl. f_equal. apply IH. lia.
Qed.

Lemma init_buffers_registered (a : InitArgs)
    (ready_arguments : String.string -> Result SmplData)
    (w : list String.string) (l : ManoLayer) :
  ManoLayer_init a ready_arguments = (w, Ok l) -> buffers_registered l.
Proof.
  unfold ManoLayer_init, load_model.
  destruct (String.eqb (arg_rot_mode a) "axisang") eqn:Ea;
    [|destruct (String.eqb (arg_rot_mode a) "quat") eqn:Eq];
    intros H; injection H as _ H; try discriminate H;
    apply bind_ok_inv in H; destruct H as (d & _ & H); injection H as <-;
    unfold buffers_registered, register_buffers; cbn [rotation_layer]; [|exact I].
  cbn [th_hands_mean th_selected_comps use_pca]. rewrite Ea.
  split; [discriminate|]. intros ->. discriminate.
Qed.

Lemma rotation_by_axisang_shape (self : ManoLayer)
    (pose_coeffs : list (list scalar)) :
  th_hands_mean self <> None ->
  (use_pca self = true -> th_selected_comps self <> None) ->
  match rotation_by_axisang self pose_coeffs with
  | Ok rb => length (full_rots rb) = length pose_coeffs /\
             Forall (fun r => length r = 16) (full_rots rb)
  | Err e => e = RuntimeError
  end.
Proof.
  intros Hm Hp. unfold rotation_by_axisang.
  set (hand := map (skipn (rot_dim self)) pose_coeffs).
  assert (Hfull :
    match (if use_pca self
           then comps <- attr (th_selected_comps self) ;;
                guard (cols_are (length comps) hand) RuntimeError ;;;
                Ok (map (fun x =>
                           vecmat (ncols_or (selected_comps_cols self) comps)
                                  x comps) hand)
           else Ok hand) with
    | Ok fhp => length fhp = length pose_coeffs
    | Err e => e = RuntimeError
    end).
  { destruct (use_pca self).
    - destruct (th_selected_comps self) as [comps|];
        [|exfalso; exact (Hp eq_refl eq_refl)].
      simpl. destruct (cols_are (length comps) hand); simpl; [|reflexivity].
      unfold hand. rewrite !length_map. reflexivity.
    - unfold hand. rewrite length_map. reflexivity. }
  destruct (if use_pca self then _ else _) as [fhp|e]; simpl; [|exact Hfull].
  destruct (th_hands_mean self) as [mean|]; [|exfalso; exact (Hm eq_refl)]. simpl.
  destruct (mapM (broadcast2 sadd mean) fhp) as [posed|e] eqn:Eposed; simpl.
  - apply mapM_length in Eposed.
    destruct (cols_are 48 _) eqn:E48; simpl; [|reflexivity].
    split.
    + rewrite length_map, map2_length, length_map, Eposed, Hfull.
      apply Nat.min_id.
    + apply cols_are_Forall in E48. apply Forall_map.
      apply (Forall_impl _ (P := fun r => length r = 48)); [|exact E48].
      intros p Hlen. rewrite length_map. apply chunks3_length. exact Hlen.
  - apply mapM_err_inv in Eposed. destruct Eposed as (x & _ & Hx).
    apply broadcast2_err_inv in Hx. exact Hx.
Qed.

Lemma rotation_by_quaternion_shape (self : ManoLayer)
    (pose_coeffs : list (list scalar)) :
  match rotation_by_quaternion self pose_coeffs with
  | Ok rb => length (full_rots rb) = length pose_coeffs /\
             Forall (fun r => length r = 16) (full_rots rb)
  | Err e => e = RuntimeError
  end.
Proof.
  unfold rotation_by_quaternion.
  destruct (cols_are 64 pose_coeffs) eqn:E64; simpl; [|reflexivity].
  split; [rewrite !length_map; reflexivity|].
  apply cols_are_Forall in E64. rewrite map_map. apply Forall_map.
  apply (Forall_impl _ (P := fun r => length r = 64)); [|exact E64].
  intros p Hlen. rewrite length_map. apply chunks4_length. exact Hlen.
Qed.

Lemma run_rotation_layer_shape (self : ManoLayer)
    (pose_coeffs : list (list scalar)) :
  buffers_registered self ->
  match run_rotation_layer self pose_coeffs with
  | Ok rb => length (full_rots rb) = length pose_coeffs /\
             Forall (fun r => length r = 16) (full_rots rb)
  | Err e => e = RuntimeError
  end.
Proof.
  unfold buffers_registered, run_rotation_layer.
  destruct (rotation_layer self).
  - intros [Hm Hp]. apply rotation_by_axisang_shape; assumption.
  - intros _. apply rotation_by_quaternion_shape.
Qed.

Lemma root_rot_ok (rots : list (list mat3)) :
  Forall (fun r => length r = 16) rots ->
  mapM (fun r => index r 0) rots = Ok (map (fun r => nth 0 r eye3) rots).
Proof.
  intros H. apply mapM_ok.
  apply (Forall_impl _ (P := fun r => length r = 16)); [|exact H].
  intros r Hr. apply index_lt. lia.
Qed.

Lemma skinning_core_batch_mismatch (self : ManoLayer)
    (rots : list (list mat3)) (betas_in : list (list scalar)) :
  Forall (fun r => length r = 16) rots ->
  th_J_regressor self <> [] ->
  length rots <> length betas_in ->
  skinning_core self rots betas_in = Err RuntimeError.
Proof.
  intros H16 HJ Hne. unfold skinning_core.
  rewrite (root_rot_ok H16). cbv beta iota delta [bind].
  destruct (cols_are (n_shape self) betas_in); simpl; [|reflexivity].
  destruct (forallb _ _); simpl; [|reflexivity].
  destruct (broadcast2 _ _ _) as [T_P|e] eqn:ET; simpl.
  - destruct (th_J_regressor self) as [|row rows]; [contradiction|]. simpl.
    rewrite !length_map.
    destruct (Nat.eqb_spec (length betas_in) (length rots)) as [E|_]; [|reflexivity].
    exfalso. apply Hne. symmetry. exact E.
  - apply broadcast2_err_inv in ET. rewrite ET. reflexivity.
Qed.

(** C8: on a constructed layer (whose joint regressor is not empty),
    [forward] on a batch of poses and a batch of shape coefficients of
    different sizes raises the shape error of torch, [RuntimeError]:
    no output is returned.  [forward] is a function of the layer and of
    its inputs and returns no layer: the model data are the same
    before and after the call. *)
Theorem forward_batch_mismatch (a : InitArgs)
    (ready_arguments : String.string -> Result SmplData)
    (w : list String.string) (l : ManoLayer)
    (pose_coeffs betas_in : list (list scalar)) :
  ManoLayer_init a ready_arguments = (w, Ok l) ->
  th_J_regressor l <> [] ->
  length pose_coeffs <> length betas_in ->
  forward l pose_coeffs betas_in = Err RuntimeError.
Proof.
  intros Hinit HJ Hne.
  pose proof (@run_rotation_layer_shape l pose_coeffs
                (init_buffers_registered _ _ Hinit)) as Hrot.
  unfold forward.
  destruct (run_rotation_layer l pose_coeffs) as [rb|e]; simpl.
  - destruct Hrot as [Hlen H16]. unfold skinning_layer.
    rewrite (@skinning_core_batch_mismatch l (full_rots rb) betas_in H16 HJ)
      by (rewrite Hlen; exact Hne).
    reflexivity.
  - rewrite Hrot. reflexivity.
Qed.

End BatchShapes.

(** ** The identity pose *)

Section IdentityPose.
Context {S : Scalar}.

Add Ring scalar_ring_identity : scalar_rt.

Lemma dot_zeros_r (xs ys : list scalar) :
  Forall (eq s0) ys -> dot xs ys = s0.
Proof.
  intros H. revert xs. induction H as [|y ys <- _ IH]; intros [|x xs]; simpl;
    try reflexivity.
  rewrite IH. ring.
Qed.

Lemma blend_zeros (dirs : list (xyz (list scalar))) (coeffs : list scalar) :
  Forall (eq s0) coeffs -> blend dirs coeffs = map (fun _ => zero3) dirs.
Proof.
  intros H. unfold blend. apply map_ext. intros d.
  rewrite !dot_zeros_r by exact H. reflexivity.
Qed.

Lemma flatten3_identity : flatten3 (msub3 eye3 eye3) = repeat s0 9.
Proof.
  unfold flatten3, msub3, vsub, eye3; simpl.
  repeat (f_equal; try ring).
Qed.

Lemma rot_minus_mean_flat_identity (hand_rot : list mat3) :
  Forall (eq eye3) hand_rot ->
  Forall (eq s0) (rot_minus_mean_flat hand_rot).
Proof.
  unfold rot_minus_mean_flat.
  induction 1 as [|r l <- _ IH]; [constructor|].
  cbn [map concat]. rewrite flatten3_identity.
  apply Forall_app. split; [|exact IH].
  simpl. repeat constructor.
Qed.

Lemma vadd_zero_r (v : vec3) : vadd v zero3 = v.
Proof.
  destruct v. unfold vadd, zero3; simpl. f_equal; ring.
Qed.

Lemma map2_vadd_zeros {A} (vs : list vec3) (l : list A) :
  length vs = length l ->
  map2 vadd vs (map (fun _ => zero3) l) = vs.
Proof.
  revert l. induction vs as [|v vs IH]; intros [|a l] H; simpl;
    try reflexivity; try discriminate H.
  rewrite vadd_zero_r, IH by (simpl in H; lia). reflexivity.
Qed.

Lemma compose_identity (a b : vec3) :
  mat4_mul (rel_transform eye3 a) (rel_transform eye3 (vsub b a)) =
  rel_transform eye3 b.
Proof.
  destruct a, b.
  unfold mat4_mul, row_mat4, col4, dot4, rel_transform, th_with_zeros, cat_rt,
    eye3, vsub; simpl.
  f_equal; f_equal; ring.
Qed.

(** With identity rotations every absolute transform is the translation
    to the joint's own location. *)
Lemma abs_transform_identity (rot : nat -> mat3) (loc : nat -> vec3) (j : nat) :
  (forall k, rot k = eye3) -> j < 16 ->
  abs_transform 3 rot loc j = rel_transform eye3 (loc j).
Proof.
  intros Hrot Hj.
  assert (H0 : forall n, abs_transform n rot loc 0 = rel_transform eye3 (loc 0)).
  { intros [|n]; simpl; rewrite Hrot; reflexivity. }
  assert (Hstep : forall n k p,
            parent_of k = Some p ->
            abs_transform n rot loc p = rel_transform eye3 (loc p) ->
            abs_transform (Datatypes.S n) rot loc k = rel_transform eye3 (loc k)).
  { intros n k p Hp IH. simpl. rewrite Hp, IH, Hrot. apply compose_identity. }
  assert (H1 : forall n k, In k lev1_idxs ->
            abs_transform (Datatypes.S n) rot loc k = rel_transform eye3 (loc k)).
  { intros n k Hk. apply (Hstep n k 0); [|apply H0].
    unfold lev1_idxs in Hk. simpl in Hk.
    repeat (destruct Hk as [<-|Hk]; [reflexivity|]). contradiction. }
  assert (H2 : forall n k, In k lev2_idxs ->
            abs_transform (Datatypes.S (Datatypes.S n)) rot loc k =
            rel_transform eye3 (loc k)).
  { intros n k Hk. unfold lev2_idxs in Hk. simpl in Hk.
    repeat (destruct Hk as [<-|Hk];
            [eapply Hstep; [reflexivity | apply H1; unfold lev1_idxs; simpl; tauto]|]).
    contradiction. }
  assert (H3 : forall k, In k lev3_idxs ->
            abs_transform 3 rot loc k = rel_transform eye3 (loc k)).
  { intros k Hk. unfold lev3_idxs in Hk. simpl in Hk.
    repeat (destruct Hk as [<-|Hk];
            [eapply Hstep; [reflexivity | apply H2; unfold lev2_idxs; simpl; tauto]|]).
    contradiction. }
  destruct j as [|j]; [apply H0|].
  do 15 (destruct j as [|j];
         [first [ apply H1; unfold lev1_idxs; simpl; tauto
                | apply H2; unfold lev2_idxs; simpl; tauto
                | apply H3; unfold lev3_idxs; simpl; tauto ]|]).
  lia.
Qed.

Lemma tsl_of_rel_transform (r : mat3) (t : vec3) :
  tsl_of (rel_transform r t) = t.
Proof. destruct t. reflexivity. Qed.

Lemma G_prime_identity (t : vec3) : G_prime (rel_transform eye3 t) t = eye4.
Proof.
  destruct t.
  unfold G_prime, m4sub, v4sub, last_col, mat4_vec, dot4, homo0, rel_transform,
    th_with_zeros, cat_rt, eye3, eye4; simpl.
  f_equal; f_equal; ring.
Qed.

Lemma blend_transforms_identity (n : nat) (w : list scalar) :
  blend_transforms (repeat eye4 n) w = m4scale_r eye4 (sum (firstn n w)).
Proof.
  revert w. induction n as [|n IH]; intros w; simpl.
  - unfold m4scale_r, v4scale_r, eye4, mzero4, zero4; simpl.
    f_equal; f_equal; ring.
  - destruct w as [|wk ws]; simpl.
    + unfold m4scale_r, v4scale_r, eye4, mzero4, zero4; simpl.
      f_equal; f_equal; ring.
    + rewrite IH.
      unfold m4add, v4add, m4scale_r, v4scale_r, eye4; simpl.
      f_equal; f_equal; ring.
Qed.

Lemma skin_vertex_identity (w : list scalar) (t : vec3) :
  length w = 16 -> sum w = s1 ->
  skin_vertex (repeat eye4 16) w t = t.
Proof.
  intros Hlen Hsum. unfold skin_vertex.
  rewrite blend_transforms_identity.
  rewrite firstn_all2 by lia. rewrite Hsum.
  destruct t.
  unfold first3, mat4_vec, dot4, m4scale_r, v4scale_r, eye4, homo1; simpl.
  f_equal; ring.
Qed.

Lemma map2_skin_vertex_identity (ws : list (list scalar)) (ts : list vec3) :
  Forall (fun w => length w = 16 /\ sum w = s1) ws ->
  length ws = length ts ->
  map2 (skin_vertex (repeat eye4 16)) ws ts = ts.
Proof.
  intros H. revert ts. induction H as [|w ws [Hl Hs] _ IH]; intros [|t ts] Hlen;
    simpl in Hlen; cbn [map2]; try reflexivity; try discriminate Hlen.
  rewrite (@skin_vertex_identity w t Hl Hs), IH by lia.
  reflexivity.
Qed.

End IdentityPose.

Lemma Forall2_nth {A B} (R : A -> B -> Prop) (l : list A) (l' : list B)
    (i : nat) (d : A) (d' : B) :
  Forall2 R l l' -> i < length l -> R (nth i l d) (nth i l' d').
Proof.
  intros H. revert i. induction H as [|a b l l' Hab _ IH]; intros [|i] Hi;
    simpl in *; try lia; [exact Hab | apply IH; lia].
Qed.

Lemma nth_map_lt {A B} (f : A -> B) (l : list A) (i : nat) (d : A) (d' : B) :
  i < length l -> nth i (map f l) d' = f (nth i l d).
Proof.
  intros H. rewrite (nth_indep _ d' (f d)) by (rewrite length_map; exact H).
  apply map_nth.
Qed.

Lemma map2_eq_length {A B C} (f : A -> B -> C) (xs : list A) (ys : list B) :
  length xs = length ys -> length (map2 f xs ys) = length xs.
Proof.
  intros H. rewrite map2_length, H. apply Nat.min_id.
Qed.

Section CoreInversion.
Context {S : Scalar}.


End CoreInversion.

Section IdentityClaims.
Context {S : Scalar} {K : RotOps}.

Add Ring scalar_ring_idclaims : scalar_rt.

Lemma map_nth_seq_16 {A} (l : list A) (d : A) :
  length l = 16 -> map (fun j => nth j l d) (seq 0 16) = l.
Proof.
  intros H.
  destruct (list_16 l H) as
    (a0 & a1 & a2 & a3 & a4 & a5 & a6 & a7 & a8 & a9 & a10 & a11 & a12 &
     a13 & a14 & a15 & ->).
  reflexivity.
Qed.




End IdentityClaims.

(** ** The rest pose: zero pose and zero shape *)

Lemma map2_repeat {A B C} (f : A -> B -> C) (x : A) (y : B) (n : nat) :
  map2 f (repeat x n) (repeat y n) = repeat (f x y) n.
Proof.
  induction n as [|n IH]; simpl; [reflexivity | rewrite IH; reflexivity].
Qed.

Lemma combine_repeat {A B} (x : A) (y : B) (n : nat) :
  combine (repeat x n) (repeat y n) = repeat (x, y) n.
Proof.
  induction n as [|n IH]; simpl; [reflexivity | rewrite IH; reflexivity].
Qed.

Lemma mapM_repeat {A B} (f : A -> Result B) (x : A) (y : B) (n : nat) :
  f x = Ok y -> mapM f (repeat x n) = Ok (repeat y n).
Proof.
  intros H. induction n as [|n IH]; simpl; [reflexivity|].
  rewrite H. simpl. rewrite IH. reflexivity.
Qed.

Lemma cols_are_repeat {A} (r : list A) (n : nat) :
  cols_are (length r) (repeat r n) = true.
Proof.
  unfold cols_are. induction n as [|n IH]; simpl; [reflexivity|].
  rewrite Nat.eqb_refl, IH. reflexivity.
Qed.

Lemma forallb_repeat {A} (p : A -> bool) (x : A) (n : nat) :
  p x = true -> forallb p (repeat x n) = true.
Proof.
  intros H. induction n as [|n IH]; simpl; [reflexivity|].
  rewrite H, IH. reflexivity.
Qed.

Section RestPose.
Context {S : Scalar} {K : RotOps}.

Add Ring scalar_ring_rest : scalar_rt.

Lemma dot_zeros_l (xs ys : list scalar) :
  Forall (eq s0) xs -> dot xs ys = s0.
Proof.
  intros H. revert ys. induction H as [|x xs <- _ IH]; intros [|y ys]; simpl;
    try reflexivity.
  rewrite IH. ring.
Qed.

Lemma Forall_zeros (n : nat) : Forall (eq s0) (repeat s0 n).
Proof.
  apply Forall_forall. intros x Hx. apply repeat_spec in Hx. congruence.
Qed.

Lemma Forall_eye (n : nat) : Forall (eq eye3) (repeat eye3 n).
Proof.
  apply Forall_forall. intros x Hx. apply repeat_spec in Hx. congruence.
Qed.

Lemma ncols_or_eq {A} (d k : nat) (m : list (list A)) :
  ncols m = k -> k <> 0 -> ncols_or d m = k.
Proof.
  destruct m as [|r m]; simpl; intros H Hk; [congruence | exact H].
Qed.

Lemma vecmat_zeros (cols n : nat) (m : list (list scalar)) :
  vecmat cols (repeat s0 n) m = repeat s0 cols.
Proof.
  unfold vecmat.
  rewrite (map_ext _ (fun _ => s0))
    by (intros j; apply dot_zeros_l, Forall_zeros).
  rewrite map_const, length_seq. reflexivity.
Qed.

Lemma map2_sadd_zeros (n : nat) :
  map2 sadd (repeat s0 n) (repeat s0 n) = repeat s0 n.
Proof.
  rewrite map2_repeat. f_equal. ring.
Qed.

Lemma broadcast2_zeros (n : nat) :
  broadcast2 sadd (repeat s0 n) (repeat s0 n) = Ok (repeat s0 n).
Proof.
  unfold broadcast2. rewrite Nat.eqb_refl, map2_sadd_zeros. reflexivity.
Qed.

Lemma ncols_py_prefix (m : list (list scalar)) (n : Z) (k : nat) :
  Forall (fun r => length r = k) m ->
  py_prefix m n <> [] -> ncols (py_prefix m n) = k.
Proof.
  unfold py_prefix. intros H Hne.
  destruct (Z.to_nat _) as [|i]; [contradiction Hne; reflexivity|].
  destruct H as [|r m Hr _]; [contradiction Hne; reflexivity|].
  exact Hr.
Qed.

(** Zero axis-angle coefficients under a flat mean pose resolve to 16
    identity rotations, with or without the PCA basis. *)
Lemma rotation_by_axisang_zero (self : ManoLayer) (B n_hand : nat) :
  rot_dim self = 3 ->
  th_hands_mean self = Some (repeat s0 45) ->
  (if use_pca self
   then exists comps, th_selected_comps self = Some comps /\
                      length comps = n_hand /\ ncols comps = 45
   else n_hand = 45) ->
  so3_exp zero3 = eye3 ->
  rotation_by_axisang self (repeat (repeat s0 (3 + n_hand)) B) =
    Ok {| full_rots := repeat (repeat eye3 16) B;
          rb_full_poses := repeat (repeat s0 48) B |}.
Proof.
  intros Hdim Hmean Hpca Hexp. unfold rotation_by_axisang.
  rewrite Hdim, Hmean, !map_repeat.
  change (skipn 3 (repeat s0 (3 + n_hand))) with (repeat s0 n_hand).
  change (firstn 3 (repeat s0 (3 + n_hand))) with (repeat s0 3).
  assert (Hfull :
    (if use_pca self
     then comps <- attr (th_selected_comps self) ;;
          guard (cols_are (length comps) (repeat (repeat s0 n_hand) B))
                RuntimeError ;;;
          Ok (map (fun x =>
                     vecmat (ncols_or (selected_comps_cols self) comps)
                            x comps)
                  (repeat (repeat s0 n_hand) B))
     else Ok (repeat (repeat s0 n_hand) B)) = Ok (repeat (repeat s0 45) B)).
  { destruct (use_pca self).
    - destruct Hpca as (comps & -> & Hlen & Hcols). simpl.
      rewrite <- Hlen at 1. rewrite <- (repeat_length s0 (length comps)) at 1.
      rewrite cols_are_repeat. simpl.
      rewrite map_repeat, vecmat_zeros, (@ncols_or_eq _ _ _ _ Hcols) by discriminate.
      reflexivity.
    - rewrite Hpca. reflexivity. }
  rewrite Hfull. cbv beta iota delta [bind attr].
  rewrite (mapM_repeat _ _ B (broadcast2_zeros 45)).
  cbv beta iota delta [bind].
  rewrite map2_repeat.
  change (repeat s0 3 ++ repeat s0 45) with (repeat s0 48).
  rewrite <- (repeat_length s0 48) at 1. rewrite cols_are_repeat.
  cbv beta iota delta [bind guard].
  rewrite map_repeat.
  change (chunks3 (repeat s0 48)) with (repeat zero3 16).
  rewrite map_repeat, Hexp. reflexivity.
Qed.

Lemma G_prime_rest (J : list vec3) :
  length J = 16 ->
  map2 G_prime (map (fun j => rel_transform eye3 (nth j J zero3)) (seq 0 16)) J =
    repeat eye4 16 /\
  map tsl_of (map (fun j => rel_transform eye3 (nth j J zero3)) (seq 0 16)) = J.
Proof.
  intros HJ.
  destruct (list_16 J HJ) as
    (a0 & a1 & a2 & a3 & a4 & a5 & a6 & a7 & a8 & a9 & a10 & a11 & a12 &
     a13 & a14 & a15 & ->).
  split.
  - cbn [map seq nth map2]. rewrite !G_prime_identity. reflexivity.
  - cbn [map seq nth]. rewrite !tsl_of_rel_transform. reflexivity.
Qed.

(** [skin_item] at identity rotations, when the weights are normalised:
    the vertices are returned as they are. *)
Lemma skin_item_rest (self : ManoLayer) (J T_P : list vec3) :
  length J = 16 ->
  Forall (fun w => length w = 16 /\ sum w = s1) (th_weights self) ->
  th_weights self <> [] ->
  length (th_weights self) = length T_P ->
  Forall (fun i => i < length T_P) (tip_idxs (side self)) ->
  skin_item self eye3 (repeat eye3 15) J T_P =
    Ok {| it_verts := T_P;
          it_joints :=
            map (fun i =>
                   nth i (J ++ map (fun i => nth i T_P zero3)
                                   (tip_idxs (side self))) zero3)
                snap_order;
          it_G_k :=
            map (fun j => rel_transform eye3 (nth j J zero3)) (seq 0 16) |}.
Proof.
  intros HJ Hw Hne Hlen Htips. unfold skin_item.
  rewrite kinematic_chain_ok by (rewrite ?repeat_length; lia).
  cbv beta iota delta [bind].
  rewrite (map_ext_in _ (fun j => rel_transform eye3 (nth j J zero3))).
  2:{ intros j Hj. apply in_seq in Hj.
      apply (@abs_transform_identity _ _ (fun k => nth k J zero3) j); [|lia].
      intros k. exact (nth_repeat eye3 16 k). }
  rewrite HJ. cbn [Nat.eqb guard].
  assert (Hcols : ncols (th_weights self) = 16).
  { destruct Hw as [|w ws [Hl _] _]; [contradiction Hne; reflexivity | exact Hl]. }
  rewrite Hcols. cbn [Nat.eqb guard].
  destruct (@G_prime_rest J HJ) as [HG Ht]. rewrite HG, Ht.
  rewrite (@map2_skin_vertex_identity _ (th_weights self) T_P Hw Hlen).
  rewrite (@gather_ok _ T_P _ zero3 Htips).
  rewrite (@gather_ok _ _ snap_order zero3).
  - reflexivity.
  - apply Forall_forall. intros i Hi. apply snap_order_In in Hi.
    rewrite length_app, length_map, HJ.
    unfold tip_idxs. destruct (String.eqb (side self) "right"); simpl; lia.
Qed.


Lemma tip_idxs_bound (side : String.string) (V : nat) :
  745 < V -> Forall (fun i => i < V) (tip_idxs side).
Proof.
  intros H. unfold tip_idxs.
  destruct (String.eqb side "right"); repeat constructor; lia.
Qed.

Lemma skinning_core_rest (self : ManoLayer) (B : nat) :
  layer_consistent self ->
  skinning_core self (repeat (repeat eye3 16) B)
                (repeat (repeat s0 (n_shape self)) B) =
    Ok (repeat (rest_item self) B).
Proof.
  intros (HV & Hs & Hp & Hw & HJ & Hpose & Hnorm).
  assert (Hne : th_weights self <> []).
  { intros E. rewrite E in Hw. simpl in Hw. lia. }
  pose proof (tip_idxs_bound (side self) HV) as Htips.
  unfold skinning_core.
  rewrite (mapM_repeat (fun r => index r 0) (repeat eye3 16) B (y := eye3))
    by reflexivity.
  cbv beta iota delta [bind].
  rewrite !map_repeat.
  change (skipn 1 (repeat eye3 16)) with (repeat eye3 15).
  rewrite <- (repeat_length s0 (n_shape self)) at 1.
  rewrite cols_are_repeat. cbv beta iota delta [bind guard].
  rewrite forallb_repeat
    by (rewrite repeat_length, Hpose; reflexivity).
  cbv beta iota delta [bind guard].
  rewrite (blend_zeros (th_shapedirs self) (Forall_zeros (n_shape self))).
  rewrite (blend_zeros (th_posedirs self)
             (rot_minus_mean_flat_identity (Forall_eye 15))).
  rewrite (map2_vadd_zeros (th_v_template self) (th_shapedirs self))
    by (symmetry; exact Hs).
  unfold broadcast2. rewrite !repeat_length, Nat.eqb_refl.
  rewrite map2_repeat.
  rewrite (map2_vadd_zeros (th_v_template self) (th_posedirs self))
    by (symmetry; exact Hp).
  rewrite HJ. cbv beta iota delta [bind guard Nat.ltb Nat.leb].
  rewrite !combine_repeat.
  unfold regress_joints.
  rewrite (map2_vadd_zeros (th_v_template self) (th_shapedirs self))
    by (symmetry; exact Hs).
  set (J := map (fun row => lincomb3 row (th_v_template self))
                (th_J_regressor self)).
  assert (HJ16 : length J = 16) by (unfold J; rewrite length_map; exact HJ).
  rewrite (@mapM_repeat _ _ (fun '(r, h, j, t) => skin_item self r h j t)
             (eye3, repeat eye3 15, J, th_v_template self) _ B
             (@skin_item_rest self J (th_v_template self) HJ16 Hnorm Hne Hw Htips)).
  reflexivity.
Qed.

(** The centering step on the items of the rest pose. *)
Lemma center_shift_rest (self : ManoLayer) (B : nat) :
  center_shift self (repeat (rest_item self) B) =
    (i <- match center_idx self with
          | Some c => i <- py_index 21 c ;; Ok (Some i)
          | None => Ok None
          end ;;
     let cj := match i with
               | Some i => nth i (it_joints (rest_item self)) zero3
               | None => zero3
               end in
     Ok {| sk_verts :=
             repeat (map (fun v => vsub v cj) (it_verts (rest_item self))) B;
           sk_joints :=
             repeat (map (fun j => vsub j cj) (it_joints (rest_item self))) B;
           sk_center_joint := repeat cj B;
           sk_transforms_abs :=
             repeat (map (center_transform cj) (it_G_k (rest_item self))) B |}).
Proof.
  unfold center_shift.
  destruct (center_idx self) as [c|]; cbv beta iota delta [bind].
  - destruct (py_index 21 c) as [i|e]; [|reflexivity].
    rewrite map_repeat, !map2_repeat. reflexivity.
  - rewrite map_repeat, !map2_repeat. reflexivity.
Qed.


Lemma data_layer_consistent (a : InitArgs) (layer : RotationLayer) (dim : nat)
    (d : SmplData) :
  data_consistent d -> layer_consistent (register_buffers a layer dim d).
Proof.
  intros (HV & Hs & Hp & Hw & HJ & Hpd & Hnorm & _ & _ & _).
  unfold layer_consistent, n_pose, register_buffers.
  cbn [th_v_template th_shapedirs th_posedirs th_weights th_J_regressor].
  repeat (split; [assumption|]).
  split; [|exact Hnorm].
  destruct Hpd as [|pd pds Hpd0 _]; [simpl in Hp; lia | exact Hpd0].
Qed.


End RestPose.

(** ** The properties on the model over the integers *)

Lemma forallb_Forall {A} (p : A -> bool) (P : A -> Prop) (l : list A) :
  (forall x, p x = true -> P x) -> forallb p l = true -> Forall P l.
Proof.
  intros Hp H. apply Forall_forall. intros x Hx.
  apply Hp. rewrite forallb_forall in H. exact (H x Hx).
Qed.

Lemma toy_data_consistent : @data_consistent Z_Scalar toy_data.
Proof.
  unfold data_consistent.
  split; [apply Nat.ltb_lt; vm_compute; reflexivity|].
  split; [vm_compute; reflexivity|].
  split; [vm_compute; reflexivity|].
  split; [vm_compute; reflexivity|].
  split; [vm_compute; reflexivity|].
  split.
  { apply (forallb_Forall (fun pd => length (c0 pd) =? 135)).
    - intros x Hx. apply Nat.eqb_eq. exact Hx.
    - vm_compute. reflexivity. }
  split.
  { apply (forallb_Forall (fun w : list Z => (length w =? 16) && (@sum Z_Scalar w =? 1)%Z)).
    - intros x Hx. apply andb_prop in Hx. destruct Hx as [H1 H2].
      split; [apply Nat.eqb_eq; exact H1 | apply Z.eqb_eq; exact H2].
    - vm_compute. reflexivity. }
  split.
  { vm_compute. discriminate. }
  split.
  { apply (forallb_Forall (fun r => length r =? 45)).
    - intros x Hx. apply Nat.eqb_eq. exact Hx.
    - vm_compute. reflexivity. }
  apply (forallb_Forall (fun row => length row =? 778)).
  - intros x Hx. apply Nat.eqb_eq. exact Hx.
  - vm_compute. reflexivity.
Defined.


Lemma toy_consistent (c : option Z) : layer_consistent (toy_layer_at c).
Proof.
  exact (data_layer_consistent (set_center_idx default_args c) by_axisang 3
           toy_data_consistent).
Qed.

Lemma toy_rotation_ok (c : option Z) :
  run_rotation_layer (toy_layer_at c) zero_pose = Ok rest_rot_blob.
Proof.
  exact (@rotation_by_axisang_zero Z_Scalar Z_RotOps (toy_layer_at c) 1 45
           eq_refl eq_refl eq_refl eq_refl).
Qed.

Lemma toy_core_ok (c : option Z) :
  skinning_core (toy_layer_at c) rest_rots zero_betas =
    Ok [rest_item (toy_layer_at c)].
Proof.
  exact (@skinning_core_rest Z_Scalar (toy_layer_at c) 1 (toy_consistent c)).
Qed.

Lemma toy_skinning_ok (c : Z) (i : nat) :
  py_index 21 c = Ok i ->
  skinning_layer (toy_layer_at (Some c)) rest_rots zero_betas =
    Ok (rest_blob (toy_layer_at (Some c)) i).
Proof.
  intros Hi. unfold skinning_layer. rewrite toy_core_ok.
  cbv beta iota delta [bind].
  change [rest_item (toy_layer_at (Some c))]
    with (repeat (rest_item (toy_layer_at (Some c))) 1).
  rewrite center_shift_rest.
  change (center_idx (toy_layer_at (Some c))) with (Some c).
  cbv beta iota. rewrite Hi. reflexivity.
Qed.

Lemma toy_forward_ok (c : Z) (i : nat) :
  py_index 21 c = Ok i ->
  forward (toy_layer_at (Some c)) zero_pose zero_betas =
    Ok (rest_output (toy_layer_at (Some c)) i).
Proof.
  intros Hi. unfold forward. rewrite toy_rotation_ok.
  cbv beta iota delta [bind]. cbn [full_rots rest_rot_blob].
  rewrite (toy_skinning_ok c Hi). reflexivity.
Qed.

Lemma snap_order_bijection_witness :
  Permutation snap_order (seq 0 21) /\
  exists tips,
    gather (it_verts (rest_item toy_right)) (tip_idxs (side toy_right)) = Ok tips /\
    length (map tsl_of (it_G_k (rest_item toy_right)) ++ tips) = 21 /\
    it_joints (rest_item toy_right) =
      map (fun i => nth i (map tsl_of (it_G_k (rest_item toy_right)) ++ tips) zero3)
          snap_order.
Proof.
  pose proof (skinning_core_items _ _ _ (toy_core_ok None)) as Hitem.
  apply Forall_inv in Hitem. destruct Hitem as (r & h & j & t & Hit).
  destruct (@snap_order_bijection Z_Scalar (toy_layer_at None) r h j t
              (rest_item toy_right) Hit)
    as (_ & Hre & _ & _ & _ & Hperm).
  split; [exact Hperm | exact Hre].
Defined.

Lemma centering_keeps_rotations_witness :
  center_idx toy_centered = Some 9%Z /\
  skinning_layer toy_centered rest_rots zero_betas = Ok (rest_blob toy_centered 9) /\
  exists items i,
    skinning_core toy_centered rest_rots zero_betas = Ok items /\
    py_index 21 9 = Ok i /\
    length (sk_transforms_abs (rest_blob toy_centered 9)) = length items /\
    (0 < length items ->
     rot_of (nth 3 (nth 0 (sk_transforms_abs (rest_blob toy_centered 9)) []) mzero4) =
     rot_of (nth 3 (it_G_k (nth 0 items empty_item)) mzero4)).
Proof.
  assert (Hblob : skinning_layer toy_centered rest_rots zero_betas =
                  Ok (rest_blob toy_centered 9))
    by exact (@toy_skinning_ok 9%Z 9 eq_refl).
  split; [reflexivity|]. split; [exact Hblob|].
  destruct (@centering_keeps_rotations Z_Scalar toy_centered rest_rots zero_betas
              (rest_blob toy_centered 9) 9%Z eq_refl Hblob)
    as (items & i & Hcore & Hi & Hlen & Hall).
  exists items, i. split; [exact Hcore|]. split; [exact Hi|].
  split; [exact Hlen|].
  intros Hpos.
  destruct (Hall 0 Hpos) as (_ & _ & _ & Hk).
  assert (H3 : 3 < 16) by (repeat constructor).
  exact (proj1 (Hk 3 H3)).
Defined.

Lemma centering_round_trip_witness :
  center_idx toy_centered = Some 9%Z /\
  forward toy_centered zero_pose zero_betas = Ok (rest_output toy_centered 9) /\
  Forall (fun js => nth_error js 9 = Some zero3)
         (joints (rest_output toy_centered 9)).
Proof.
  assert (Hout : forward toy_centered zero_pose zero_betas =
                 Ok (rest_output toy_centered 9))
    by exact (@toy_forward_ok 9%Z 9 eq_refl).
  split; [reflexivity|]. split; [exact Hout|].
  destruct (@centering_round_trip Z_Scalar Z_RotOps toy_centered zero_pose
              zero_betas (rest_output toy_centered 9) Hout)
    as (rb & items & _ & _ & Hsome & _).
  exact (proj2 (Hsome 9%Z eq_refl)).
Defined.

Lemma quat_with_pca_warns_witness :
  arg_rot_mode quat_pca_args = "quat" /\ arg_use_pca quat_pca_args = true /\
  fst (ManoLayer_init quat_pca_args toy_ready_arguments) = [quat_warning] /\
  exists l, snd (ManoLayer_init quat_pca_args toy_ready_arguments) = Ok l /\
            rotation_layer l = by_quaternion /\
            th_selected_comps l = None /\
            th_hands_mean l = None.
Proof.
  split; [reflexivity|]. split; [reflexivity|].
  destruct (@quat_with_pca_warns Z_Scalar quat_pca_args toy_ready_arguments
              eq_refl eq_refl) as (Hw & _ & Hl).
  split; [exact Hw|].
  exact (Hl toy_data eq_refl).
Defined.

(** C7, the claim as stated fails: in quaternion mode with PCA requested
    the constructor raises nothing. *)
Lemma quat_with_pca_constructs :
  ~ exists e, snd (ManoLayer_init quat_pca_args toy_ready_arguments) = Err e.
Proof.
  intros [e H].
  assert (Hok : is_ok (snd (ManoLayer_init quat_pca_args toy_ready_arguments)) = true)
    by reflexivity.
  rewrite H in Hok. discriminate Hok.
Qed.

Lemma quat_ignores_pca_config_witness :
  exists l l0,
    ManoLayer_init quat_pca_args toy_ready_arguments = ([quat_warning], Ok l) /\
    ManoLayer_init (set_pca_config quat_pca_args false true) toy_ready_arguments =
      ([], Ok l0) /\
    forall pose_coeffs betas_in,
      forward l pose_coeffs betas_in = forward l0 pose_coeffs betas_in.
Proof.
  exact (@quat_ignores_pca_config Z_Scalar Z_RotOps quat_pca_args
           toy_ready_arguments toy_data eq_refl eq_refl).
Defined.

Lemma center_idx_checked_by_forward_witness :
  ~ (0 <= 21 <= 20)%Z /\
  snd (ManoLayer_init (set_center_idx default_args (Some 21%Z)) toy_ready_arguments) =
    Ok toy_far_centered /\
  center_idx toy_far_centered = Some 21%Z /\
  forward toy_far_centered zero_pose zero_betas = Err IndexError /\
  forward (toy_layer_at (Some (2 ^ 63)%Z)) zero_pose zero_betas =
    Err ValueError.
Proof.
  assert (Hc : ~ (0 <= 21 <= 20)%Z) by (intros [_ H]; exact (H eq_refl)).
  split; [exact Hc|].
  assert (Hl : snd (ManoLayer_init (set_center_idx default_args (Some 21%Z))
                      toy_ready_arguments) = Ok toy_far_centered) by reflexivity.
  split; [exact Hl|].
  destruct (@center_idx_checked_by_forward Z_Scalar Z_RotOps default_args
              toy_ready_arguments 21%Z Hc) as (_ & _ & Hfwd).
  destruct (Hfwd toy_far_centered Hl) as (Hidx & Hcall).
  split; [exact Hidx|]. split.
  - apply (proj1 (Hcall zero_pose zero_betas rest_rot_blob
                    [rest_item toy_far_centered]
                    (toy_rotation_ok (Some 21%Z)) (toy_core_ok (Some 21%Z)))).
    + right. reflexivity.
    + split; intros H; discriminate H.
  - assert (Hc' : ~ (0 <= 2 ^ 63 <= 20)%Z) by (intros [_ H]; exact (H eq_refl)).
    destruct (@center_idx_checked_by_forward Z_Scalar Z_RotOps default_args
                toy_ready_arguments (2 ^ 63)%Z Hc') as (_ & _ & Hfwd').
    destruct (Hfwd' (toy_layer_at (Some (2 ^ 63)%Z)) eq_refl) as (_ & Hcall').
    apply (proj1 (proj2 (Hcall' zero_pose zero_betas rest_rot_blob
                           [rest_item (toy_layer_at (Some (2 ^ 63)%Z))]
                           (toy_rotation_ok (Some (2 ^ 63)%Z))
                           (toy_core_ok (Some (2 ^ 63)%Z))))).
    right. reflexivity.
Defined.

(** C9, the claim as stated fails: with the center index 21 the
    constructor returns a layer. *)
Lemma center_idx_21_constructs :
  snd (ManoLayer_init (set_center_idx default_args (Some 21%Z)) toy_ready_arguments)
    <> Err IndexError /\
  is_ok (snd (ManoLayer_init (set_center_idx default_args (Some 21%Z))
                toy_ready_arguments)) = true.
Proof.
  assert (Hok : is_ok (snd (ManoLayer_init (set_center_idx default_args (Some 21%Z))
                             toy_ready_arguments)) = true) by reflexivity.
  split; [|exact Hok].
  intros H. rewrite H in Hok. discriminate Hok.
Qed.

Lemma forward_batch_mismatch_witness :
  ManoLayer_init default_args toy_ready_arguments = ([], Ok toy_right) /\
  length toy_pose <> length zero_betas /\
  forward toy_right toy_pose zero_betas = Err RuntimeError.
Proof.
  assert (Hinit : ManoLayer_init default_args toy_ready_arguments =
                  ([], Ok toy_right)) by reflexivity.
  assert (HJ : th_J_regressor toy_right <> []).
  { intros H. apply (f_equal (@length _)) in H. discriminate H. }
  assert (Hne : length toy_pose <> length zero_betas).
  { intros H. discriminate H. }
  split; [exact Hinit|]. split; [exact Hne|].
  exact (@forward_batch_mismatch Z_Scalar Z_RotOps default_args
           toy_ready_arguments [] toy_right toy_pose zero_betas
           Hinit HJ Hne).
Defined.




(** * Further properties of the layer

    The resolvers and the skinning read one batch item at a time, the
    outcome and the shapes of the forward pass, the centering step seen
    from the output, the root rotation, and the side of the hand. *)

Unset Implicit Arguments.

(** ** One batch item at a time *)

Lemma mapM_nth {A B} (f : A -> Result B) (l : list A) (r : list B)
    (i : nat) (d : A) (d' : B) :
  mapM f l = Ok r -> i < length l -> f (nth i l d) = Ok (nth i r d').
Proof.
  intros H Hi. apply mapM_Forall2 in H.
  exact (Forall2_nth d d' H Hi).
Qed.

Lemma mapM_is_ok {A B} (f : A -> Result B) (l : list A) :
  is_ok (mapM f l) = forallb (fun a => is_ok (f a)) l.
Proof.
  induction l as [|a l IH]; simpl; [reflexivity|].
  destruct (f a); simpl; [|reflexivity].
  rewrite <- IH. destruct (mapM f l); reflexivity.
Qed.

Section Rows.
Context {S : Scalar} {K : RotOps}.

Lemma axisang_row_err (self : ManoLayer) (p : list scalar) (e : Error) :
  th_hands_mean self <> None ->
  (use_pca self = true -> th_selected_comps self <> None) ->
  axisang_row self p = Err e -> e = RuntimeError.
Proof.
  intros Hm Hp. unfold axisang_row.
  destruct (th_hands_mean self) as [mean|]; [|exfalso; exact (Hm eq_refl)].
  assert (Hfhp : forall e',
    (if use_pca self
     then comps <- attr (th_selected_comps self) ;;
          guard (length (skipn (rot_dim self) p) =? length comps) RuntimeError ;;;
          Ok (vecmat (ncols_or (selected_comps_cols self) comps)
                     (skipn (rot_dim self) p) comps)
     else Ok (skipn (rot_dim self) p)) = Err e' -> e' = RuntimeError).
  { intros e'. destruct (use_pca self); [|discriminate].
    destruct (th_selected_comps self) as [comps|];
      [|exfalso; exact (Hp eq_refl eq_refl)].
    cbn [attr bind]. destruct (_ =? _); cbn [guard bind]; [discriminate|].
    intros H. injection H as <-. reflexivity. }
  destruct (if use_pca self then _ else _) as [fhp|e']; cbn [bind attr].
  - destruct (broadcast2 sadd mean fhp) as [q|e'] eqn:Eq; cbn [bind].
    + destruct (_ =? 48); cbn [guard bind]; [discriminate|].
      intros H. injection H as <-. reflexivity.
    + intros H. injection H as <-. exact (broadcast2_err_inv _ _ _ Eq).
  - intros H. injection H as <-. exact (Hfhp e' eq_refl).
Qed.

Lemma rotation_by_axisang_rows (self : ManoLayer)
    (pose_coeffs : list (list scalar)) :
  th_hands_mean self <> None ->
  (use_pca self = true -> th_selected_comps self <> None) ->
  rotation_by_axisang self pose_coeffs =
    (rows <- mapM (axisang_row self) pose_coeffs ;; Ok (blob_of_rows rows)).
Proof.
  intros Hm Hp.
  assert (Herr : forall ps e, mapM (axisang_row self) ps = Err e -> e = RuntimeError).
  { intros ps e H. apply mapM_err_inv in H. destruct H as (p & _ & H).
    exact (axisang_row_err self p e Hm Hp H). }
  induction pose_coeffs as [|p ps IH].
  - unfold rotation_by_axisang.
    destruct (th_hands_mean self) as [mean|]; [|exfalso; exact (Hm eq_refl)].
    destruct (use_pca self); [|reflexivity].
    destruct (th_selected_comps self) as [comps|];
      [|exfalso; exact (Hp eq_refl eq_refl)].
    reflexivity.
  - specialize (Herr ps).
    cbn [mapM]. unfold axisang_row at 1.
    unfold rotation_by_axisang in *. unfold cols_are in *.
    destruct (th_hands_mean self) as [mean|]; [|exfalso; exact (Hm eq_refl)].
    cbn [map forallb mapM attr bind] in *.
    destruct (use_pca self).
    + destruct (th_selected_comps self) as [comps|];
        [|exfalso; exact (Hp eq_refl eq_refl)].
      cbn [attr bind] in *.
      destruct (length (skipn (rot_dim self) p) =? length comps);
        cbn [andb guard bind]; [|reflexivity].
      destruct (forallb _ (map (skipn (rot_dim self)) ps)); cbn [guard bind mapM] in *.
      * destruct (broadcast2 sadd mean
                    (vecmat (ncols_or (selected_comps_cols self) comps)
                            (skipn (rot_dim self) p) comps))
          as [q|e]; cbn [bind]; [|reflexivity].
        destruct (mapM (broadcast2 sadd mean) _) as [qs|e1]; cbn [bind map2 forallb] in *;
          destruct (length (firstn (rot_dim self) p ++ q) =? 48);
          cbn [andb guard bind];
          try destruct (forallb _ (map2 _ _ qs)); cbn [guard bind] in *;
          destruct (mapM (axisang_row self) ps) as [rows|e2]; cbn [bind] in *;
          try discriminate IH; try exact IH; try reflexivity;
          try (f_equal; symmetry; apply Herr; reflexivity);
          try (injection IH as ->; f_equal; apply Herr; reflexivity).
        injection IH as IH1 IH2. unfold blob_of_rows. cbn [map fst snd].
        rewrite IH1, IH2. reflexivity.
      * destruct (broadcast2 sadd mean
                    (vecmat (ncols_or (selected_comps_cols self) comps)
                            (skipn (rot_dim self) p) comps))
          as [q|e] eqn:Eq; cbn [bind];
          [|rewrite (broadcast2_err_inv _ _ _ Eq); reflexivity].
        destruct (length (firstn (rot_dim self) p ++ q) =? 48);
          cbn [andb guard bind];
          destruct (mapM (axisang_row self) ps) as [rows|e2]; cbn [bind] in *;
          try discriminate IH; try exact IH; try reflexivity;
          try (f_equal; symmetry; apply Herr; reflexivity).
    + cbn [bind mapM] in *.
      destruct (broadcast2 sadd mean (skipn (rot_dim self) p))
        as [q|e]; cbn [bind]; [|reflexivity].
      destruct (mapM (broadcast2 sadd mean) _) as [qs|e1]; cbn [bind map2 forallb] in *;
        destruct (length (firstn (rot_dim self) p ++ q) =? 48);
        cbn [andb guard bind];
        try destruct (forallb _ (map2 _ _ qs)); cbn [guard bind] in *;
        destruct (mapM (axisang_row self) ps) as [rows|e2]; cbn [bind] in *;
        try discriminate IH; try exact IH; try reflexivity;
        try (f_equal; symmetry; apply Herr; reflexivity);
        try (injection IH as ->; f_equal; apply Herr; reflexivity).
      injection IH as IH1 IH2. unfold blob_of_rows. cbn [map fst snd].
      rewrite IH1, IH2. reflexivity.
Qed.

Lemma rotation_by_quaternion_rows (self : ManoLayer)
    (pose_coeffs : list (list scalar)) :
  rotation_by_quaternion self pose_coeffs =
    (rows <- mapM quaternion_row pose_coeffs ;; Ok (blob_of_rows rows)).
Proof.
  unfold rotation_by_quaternion, cols_are.
  induction pose_coeffs as [|p ps IH]; [reflexivity|].
  cbn [forallb mapM map]. unfold quaternion_row at 1.
  destruct (length p =? 64); cbn [andb guard bind]; [|reflexivity].
  destruct (forallb _ ps); cbn [guard bind] in *;
    destruct (mapM quaternion_row ps) as [rows|e]; cbn [bind] in *;
    try discriminate IH; try exact IH.
  injection IH as IH1 IH2. unfold blob_of_rows. cbn [map fst snd].
  rewrite IH1, IH2. reflexivity.
Qed.

Lemma run_rotation_layer_rows (self : ManoLayer)
    (pose_coeffs : list (list scalar)) :
  buffers_registered self ->
  run_rotation_layer self pose_coeffs =
    (rows <- mapM (rotation_row self) pose_coeffs ;; Ok (blob_of_rows rows)).
Proof.
  unfold buffers_registered, run_rotation_layer, rotation_row.
  destruct (rotation_layer self).
  - intros [Hm Hp]. apply rotation_by_axisang_rows; assumption.
  - intros _. apply rotation_by_quaternion_rows.
Qed.

(** When the resolver returns, the buffers that it reads were there. *)
Lemma run_rotation_layer_registered (self : ManoLayer)
    (pose_coeffs : list (list scalar)) (rb : RotationBlob) :
  run_rotation_layer self pose_coeffs = Ok rb -> buffers_registered self.
Proof.
  unfold buffers_registered, run_rotation_layer.
  destruct (rotation_layer self); [|intros _; exact I].
  unfold rotation_by_axisang. intros H.
  apply bind_ok_inv in H. destruct H as (fhp & Hf & H).
  apply bind_ok_inv in H. destruct H as (mean & Hmean & _).
  split.
  - destruct (th_hands_mean self); [discriminate | discriminate Hmean].
  - intros Hp. rewrite Hp in Hf.
    destruct (th_selected_comps self); [discriminate | discriminate Hf].
Qed.

End Rows.

(** ** The pose widths that the axis-angle resolver accepts *)

Lemma mapM_map_ext {A B C D} (f : A -> Result B) (g : B -> C) (h : A -> D)
    (k : D -> C) (l : list A) (r : list B) :
  mapM f l = Ok r ->
  (forall a b, f a = Ok b -> g b = k (h a)) ->
  map g r = map k (map h l).
Proof.
  intros H Hgh. apply mapM_Forall2 in H.
  induction H as [|a b l r Hab _ IH]; simpl; [reflexivity|].
  rewrite (Hgh a b Hab), IH. reflexivity.
Qed.

Lemma forallb_pointwise {A} (f g : A -> bool) (l : list A) :
  (forall a, f a = g a) -> forallb f l = forallb g l.
Proof.
  intros H. induction l as [|a l IH]; simpl; [reflexivity|].
  rewrite H, IH. reflexivity.
Qed.

Section PoseWidths.
Context {S : Scalar} {K : RotOps}.

Add Ring scalar_ring_widths : scalar_rt.

Lemma broadcast2_mean (mean h : list scalar) :
  length mean = 45 ->
  match broadcast2 sadd mean h with
  | Ok q =>
      length q = 45 /\
      (length h = 45 \/ length h = 1) /\
      q = (if length h =? 1 then map (fun m => sadd m (nth 0 h s0)) mean
           else map2 sadd mean h)
  | Err _ => length h <> 45 /\ length h <> 1
  end.
Proof.
  intros Hm. unfold broadcast2. rewrite Hm.
  destruct (Nat.eqb_spec 45 (length h)) as [E|E].
  - rewrite <- E. cbn [Nat.eqb]. rewrite map2_eq_length by congruence.
    auto.
  - destruct mean as [|m0 [|m1 mean]]; try discriminate Hm.
    destruct h as [|y [|y' h]]; cbn [length Nat.eqb nth] in *.
    + split; [lia | lia].
    + rewrite length_map. cbn [length]. auto.
    + split; lia.
Qed.

Lemma axisang_row_plain (self : ManoLayer) (mean p : list scalar) :
  rot_dim self = 3 -> use_pca self = false ->
  th_hands_mean self = Some mean -> length mean = 45 ->
  match axisang_row self p with
  | Ok (_, full) =>
      (length p = 48 \/ length p = 4) /\
      full = firstn 3 p ++
             (if length p =? 4 then map (fun m => sadd m (nth 3 p s0)) mean
              else map2 sadd mean (skipn 3 p))
  | Err _ => length p <> 48 /\ length p <> 4
  end.
Proof.
  intros Hd Hp Hmean Hlen. unfold axisang_row.
  rewrite Hd, Hp, Hmean. cbn [attr bind].
  pose proof (broadcast2_mean mean (skipn 3 p) Hlen) as Hb.
  assert (Hs : length (skipn 3 p) = length p - 3) by apply length_skipn.
  assert (Hf : length (firstn 3 p) = Nat.min 3 (length p)) by apply length_firstn.
  destruct (broadcast2 sadd mean (skipn 3 p)) as [q|e]; cbn [bind].
  - destruct Hb as (Hq & Hh & ->).
    rewrite length_app, Hf.
    assert (Hq' : length (if length (skipn 3 p) =? 1
                          then map (fun m => sadd m (nth 0 (skipn 3 p) s0)) mean
                          else map2 sadd mean (skipn 3 p)) = 45).
    { destruct (Nat.eqb_spec (length (skipn 3 p)) 1);
        [rewrite length_map; exact Hlen|].
      rewrite map2_length. lia. }
    rewrite Hq'.
    destruct (Nat.eqb_spec (Nat.min 3 (length p) + 45) 48) as [E|E];
      cbn [guard bind].
    + split; [lia|]. f_equal.
      rewrite Hs.
      destruct (Nat.eqb_spec (length p - 3) 1), (Nat.eqb_spec (length p) 4);
        try lia; [|reflexivity].
      apply map_ext. intros m. f_equal.
      rewrite nth_skipn. reflexivity.
    + lia.
  - lia.
Qed.

(** Without the PCA basis a pose row is accepted exactly when it has 48
    entries, or 4. *)
Lemma axisang_rows_widths (self : ManoLayer) (mean : list scalar)
    (pose_coeffs : list (list scalar)) :
  rotation_layer self = by_axisang ->
  rot_dim self = 3 -> use_pca self = false ->
  th_hands_mean self = Some mean -> length mean = 45 ->
  is_ok (run_rotation_layer self pose_coeffs) =
    forallb (fun p => (length p =? 48) || (length p =? 4)) pose_coeffs /\
  forall rb, run_rotation_layer self pose_coeffs = Ok rb ->
    rb_full_poses rb =
      map (fun p =>
             firstn 3 p ++
             (if length p =? 4 then map (fun m => sadd m (nth 3 p s0)) mean
              else map2 sadd mean (skipn 3 p)))
          pose_coeffs.
Proof.
  intros Hl Hd Hp Hmean Hlen.
  assert (Hreg : buffers_registered self).
  { unfold buffers_registered. rewrite Hl, Hmean, Hp.
    split; [discriminate | discriminate]. }
  rewrite (run_rotation_layer_rows self pose_coeffs Hreg).
  assert (Hrow : rotation_row self = axisang_row self).
  { unfold rotation_row. rewrite Hl. reflexivity. }
  rewrite Hrow. split.
  - transitivity (is_ok (mapM (axisang_row self) pose_coeffs)).
    { destruct (mapM _ pose_coeffs); reflexivity. }
    rewrite mapM_is_ok.
    induction pose_coeffs as [|p ps IH]; [reflexivity|].
    cbn [forallb]. rewrite IH. f_equal.
    pose proof (axisang_row_plain self mean p Hd Hp Hmean Hlen) as Hr.
    destruct (axisang_row self p) as [[r full]|e]; cbn [is_ok].
    + destruct Hr as [[E|E] _]; rewrite E; reflexivity.
    + destruct Hr as [H1 H2].
      destruct (Nat.eqb_spec (length p) 48), (Nat.eqb_spec (length p) 4);
        try contradiction; reflexivity.
  - intros rb H.
    apply bind_ok_inv in H. destruct H as (rows & Hrows & H).
    injection H as <-. unfold blob_of_rows. cbn [rb_full_poses].
    rewrite <- (map_id pose_coeffs) at 1.
    apply (mapM_map_ext _ _ _ _ _ _ Hrows).
    intros p [r full] Hpr.
    pose proof (axisang_row_plain self mean p Hd Hp Hmean Hlen) as Hr.
    rewrite Hpr in Hr. destruct Hr as [_ ->]. reflexivity.
Qed.

Lemma forallb_cols {A} (g : nat -> bool) (n : nat) (t : list (list A)) :
  t <> [] -> cols_are n t = true ->
  forallb (fun p => g (length p)) t = g n.
Proof.
  intros Hne Hc. apply cols_are_Forall in Hc.
  destruct t as [|p t]; [contradiction Hne; reflexivity|]. clear Hne.
  inversion Hc as [|? ? Hp Ht]. subst. cbn [forallb].
  destruct (g (length p)) eqn:Hg; [|reflexivity]. cbn [andb].
  apply forallb_forall. intros x Hx. rewrite Forall_forall in Ht.
  rewrite (Ht x Hx). exact Hg.
Qed.

(** X1: without the PCA basis a non-empty pose batch is accepted exactly
    when its rows have 48 entries, or 4: the single hand coefficient of
    a 4-entry row is broadcast, that is, added to each of the 45 entries
    of the mean pose. *)
Theorem axisang_pose_widths (self : ManoLayer) (mean : list scalar)
    (n : nat) (pose_coeffs : list (list scalar)) :
  rotation_layer self = by_axisang ->
  rot_dim self = 3 -> use_pca self = false ->
  th_hands_mean self = Some mean -> length mean = 45 ->
  pose_coeffs <> [] -> cols_are n pose_coeffs = true ->
  is_ok (run_rotation_layer self pose_coeffs) = ((n =? 48) || (n =? 4)) /\
  forall rb, run_rotation_layer self pose_coeffs = Ok rb ->
    rb_full_poses rb =
      map (fun p =>
             firstn 3 p ++
             (if n =? 4 then map (fun m => sadd m (nth 3 p s0)) mean
              else map2 sadd mean (skipn 3 p)))
          pose_coeffs.
Proof.
  intros Hl Hd Hp Hmean Hlen Hne Hcols.
  destruct (axisang_rows_widths self mean pose_coeffs Hl Hd Hp Hmean Hlen)
    as [Hok Hposes].
  split.
  - rewrite Hok.
    exact (forallb_cols (fun k => (k =? 48) || (k =? 4)) n pose_coeffs
             Hne Hcols).
  - intros rb Hrb. rewrite (Hposes rb Hrb). apply map_ext_in.
    intros p Hin. apply cols_are_Forall in Hcols.
    rewrite Forall_forall in Hcols. rewrite (Hcols p Hin). reflexivity.
Qed.

Lemma vecmat_length (cols : nat) (x : list scalar) (m : list (list scalar)) :
  length (vecmat cols x m) = cols.
Proof.
  unfold vecmat. rewrite length_map, length_seq. reflexivity.
Qed.

Lemma axisang_row_pca (self : ManoLayer) (mean : list scalar)
    (comps : list (list scalar)) (p : list scalar) :
  rot_dim self = 3 -> use_pca self = true ->
  th_hands_mean self = Some mean -> length mean = 45 ->
  th_selected_comps self = Some comps ->
  ncols_or (selected_comps_cols self) comps = 45 ->
  is_ok (axisang_row self p) = (length p =? 3 + length comps).
Proof.
  intros Hd Hp Hmean Hlen Hc Hcols. unfold axisang_row.
  rewrite Hd, Hp, Hmean, Hc. cbn [attr bind].
  assert (Hs : length (skipn 3 p) = length p - 3) by apply length_skipn.
  assert (Hf : length (firstn 3 p) = Nat.min 3 (length p)) by apply length_firstn.
  rewrite Hs.
  destruct (Nat.eqb_spec (length p - 3) (length comps)) as [E|E];
    cbn [guard bind].
  - unfold broadcast2.
    rewrite vecmat_length, Hlen, Hcols. cbn [Nat.eqb bind].
    rewrite length_app, Hf, map2_length, Hlen, vecmat_length, Nat.min_id.
    destruct (Nat.eqb_spec (Nat.min 3 (length p) + 45) 48),
             (Nat.eqb_spec (length p) (3 + length comps));
      cbn [guard bind is_ok]; try reflexivity; lia.
  - destruct (Nat.eqb_spec (length p) (3 + length comps));
      cbn [is_ok]; [lia | reflexivity].
Qed.

Lemma py_prefix_length {A} (l : list A) (n : Z) :
  length (py_prefix l n) = py_prefix_len (length l) n.
Proof.
  unfold py_prefix, py_prefix_len.
  destruct (Z.ltb_spec n 0); rewrite length_firstn; lia.
Qed.

(** X2: with the PCA basis a non-empty pose batch is accepted exactly
    when its rows have 3 entries and one per selected component.  The
    basis is the slice [hands_components[:ncomps]] of the [n]
    components of the model data: it has [min(ncomps, n)] rows for
    [ncomps >= 0], so asking for more components than the model has is
    no error, and [max(n + ncomps, 0)] rows for a negative [ncomps].
    With no row, [ncomps = 0], the rows of the batch are the 3 root
    entries alone. *)
Theorem pca_pose_width (a : InitArgs)
    (ready_arguments : String.string -> Result SmplData)
    (d : SmplData) (w : list String.string) (l : ManoLayer)
    (pose_coeffs : list (list scalar)) :
  arg_rot_mode a = "axisang" ->
  arg_use_pca a = true ->
  ready_arguments (asset_path a) = Ok d ->
  smpl_hands_components d <> [] ->
  Forall (fun r => length r = 45) (smpl_hands_components d) ->
  (arg_flat_hand_mean a = false -> length (smpl_hands_mean d) = 45) ->
  ManoLayer_init a ready_arguments = (w, Ok l) ->
  pose_coeffs <> [] ->
  is_ok (run_rotation_layer l pose_coeffs) =
    cols_are (3 + py_prefix_len (length (smpl_hands_components d))
                                (arg_ncomps a))
             pose_coeffs.
Proof.
  intros Hmode Hpca Hd Hne H45 Hmean Hinit _.
  unfold ManoLayer_init in Hinit. rewrite Hmode in Hinit.
  cbn [String.eqb Ascii.eqb Bool.eqb] in Hinit.
  rewrite (load_model_ok a by_axisang 3 ready_arguments Hd) in Hinit.
  injection Hinit as _ <-.
  set (l := register_buffers a by_axisang 3 d).
  assert (Hncols : ncols (smpl_hands_components d) = 45).
  { destruct H45 as [|r m Hr _]; [contradiction Hne; reflexivity | exact Hr]. }
  assert (Hcomps : th_selected_comps l =
                   Some (py_prefix (smpl_hands_components d) (arg_ncomps a))).
  { unfold l, register_buffers. cbn [th_selected_comps].
    rewrite Hmode, Hpca. reflexivity. }
  assert (Hm : exists mean, th_hands_mean l = Some mean /\ length mean = 45).
  { unfold l, register_buffers. cbn [th_hands_mean]. rewrite Hmode.
    cbn [String.eqb Ascii.eqb Bool.eqb].
    destruct (arg_flat_hand_mean a).
    - eexists. split; [reflexivity|]. rewrite repeat_length. exact Hncols.
    - eexists. split; [reflexivity|]. apply Hmean. reflexivity. }
  destruct Hm as (mean & Hm & Hmlen).
  pose proof (py_prefix_length (smpl_hands_components d) (arg_ncomps a)) as HK.
  assert (Hwidth :
    ncols_or (selected_comps_cols l)
             (py_prefix (smpl_hands_components d) (arg_ncomps a)) = 45).
  { destruct (py_prefix (smpl_hands_components d) (arg_ncomps a))
      as [|r m] eqn:Ep.
    - exact Hncols.
    - apply (@ncols_or_eq _ _ 45 (r :: m)); [|discriminate].
      rewrite <- Ep. apply ncols_py_prefix; [exact H45|].
      rewrite Ep. discriminate. }
  assert (Hreg : buffers_registered l).
  { unfold buffers_registered. cbn [l register_buffers rotation_layer].
    fold l. rewrite Hm, Hcomps. split; [discriminate | discriminate]. }
  rewrite (run_rotation_layer_rows l pose_coeffs Hreg).
  transitivity (is_ok (mapM (rotation_row l) pose_coeffs)).
  { destruct (mapM _ pose_coeffs); reflexivity. }
  rewrite mapM_is_ok. unfold cols_are. apply forallb_pointwise. intros p.
  unfold rotation_row. cbn [l register_buffers rotation_layer]. fold l.
  rewrite <- HK.
  apply (axisang_row_pca l mean _ p); try assumption; reflexivity.
Qed.

(** X3: hand coefficients that are all zero resolve to the mean pose:
    the resolved pose vector of a row is its 3 root entries followed by
    the 45 entries of the mean pose, with or without the PCA basis, and
    the rotations are the exponentials of its 16 chunks. *)
Theorem zero_hand_pose_is_mean (self : ManoLayer) (mean : list scalar)
    (n_hand : nat) (roots : list (list scalar)) :
  rotation_layer self = by_axisang ->
  rot_dim self = 3 ->
  th_hands_mean self = Some mean -> length mean = 45 ->
  (if use_pca self
   then exists comps, th_selected_comps self = Some comps /\
                      length comps = n_hand /\ ncols comps = 45
   else n_hand = 45) ->
  roots <> [] ->
  Forall (fun r => length r = 3) roots ->
  run_rotation_layer self (map (fun r => r ++ repeat s0 n_hand) roots) =
    Ok (blob_of_rows
          (map (fun r => (map so3_exp (chunks3 (r ++ mean)), r ++ mean)) roots)).
Proof.
  intros Hl Hd Hmean Hlen Hpca _ Hroots.
  assert (Hreg : buffers_registered self).
  { unfold buffers_registered. rewrite Hl, Hmean. split; [discriminate|].
    intros Hp. rewrite Hp in Hpca. destruct Hpca as (comps & -> & _).
    discriminate. }
  rewrite (run_rotation_layer_rows self _ Hreg).
  assert (Hrow : forall r, length r = 3 ->
            rotation_row self (r ++ repeat s0 n_hand) =
              Ok (map so3_exp (chunks3 (r ++ mean)), r ++ mean)).
  { intros r Hr. unfold rotation_row. rewrite Hl. unfold axisang_row.
    rewrite Hd, Hmean.
    assert (Hsk : skipn 3 (r ++ repeat s0 n_hand) = repeat s0 n_hand)
      by (destruct r as [|a [|b [|c [|]]]]; try discriminate Hr; reflexivity).
    assert (Hfi : firstn 3 (r ++ repeat s0 n_hand) = r)
      by (destruct r as [|a [|b [|c [|]]]]; try discriminate Hr; reflexivity).
    rewrite Hsk, Hfi.
    assert (Hfhp :
      (if use_pca self
       then comps <- attr (th_selected_comps self) ;;
            guard (length (repeat s0 n_hand) =? length comps) RuntimeError ;;;
            Ok (vecmat (ncols_or (selected_comps_cols self) comps)
                       (repeat s0 n_hand) comps)
       else Ok (repeat s0 n_hand)) = Ok (repeat s0 45)).
    { destruct (use_pca self).
      - destruct Hpca as (comps & -> & Hc & Hcols). cbn [attr bind].
        rewrite repeat_length, Hc, Nat.eqb_refl. cbn [guard bind].
        rewrite vecmat_zeros, (@ncols_or_eq _ _ _ _ Hcols) by discriminate.
        reflexivity.
      - rewrite Hpca. reflexivity. }
    rewrite Hfhp. cbn [bind attr].
    unfold broadcast2. rewrite Hlen, repeat_length. cbn [Nat.eqb bind].
    assert (Hadd : map2 sadd mean (repeat s0 45) = mean).
    { rewrite <- Hlen. clear. induction mean as [|m mean IH]; [reflexivity|].
      cbn [length repeat map2]. rewrite IH. f_equal. ring. }
    rewrite Hadd, length_app, Hr, Hlen. cbn [Nat.add Nat.eqb guard bind].
    reflexivity. }
  assert (HM : mapM (rotation_row self)
                 (map (fun r => r ++ repeat s0 n_hand) roots) =
               Ok (map (fun r => (map so3_exp (chunks3 (r ++ mean)), r ++ mean))
                       roots)).
  { induction Hroots as [|r rs Hr _ IH]; [reflexivity|].
    cbn [map mapM]. rewrite (Hrow r Hr), IH. reflexivity. }
  rewrite HM. reflexivity.
Qed.

End PoseWidths.

(** ** The skinning of a batch, one item at a time *)

Lemma mapM_of_nth {A B} (f : A -> Result B) (l : list A) (r : list B)
    (d : A) (d' : B) :
  length l = length r ->
  (forall i, i < length l -> f (nth i l d) = Ok (nth i r d')) ->
  mapM f l = Ok r.
Proof.
  revert r. induction l as [|a l IH]; intros [|b r] Hlen H;
    try discriminate Hlen; [reflexivity|].
  cbn [mapM]. pose proof (H 0 (Nat.lt_0_succ _)) as H0. cbn [nth] in H0.
  rewrite H0. cbn [bind].
  rewrite (IH r).
  - reflexivity.
  - simpl in Hlen. lia.
  - intros i Hi. apply (H (Datatypes.S i)). simpl. lia.
Qed.

Lemma forallb_nth {A} (p : A -> bool) (l : list A) (i : nat) (d : A) :
  forallb p l = true -> i < length l -> p (nth i l d) = true.
Proof.
  intros H Hi. rewrite forallb_forall in H. apply H. apply nth_In. exact Hi.
Qed.

Lemma forallb_of_nth {A} (p : A -> bool) (l : list A) (d : A) :
  (forall i, i < length l -> p (nth i l d) = true) -> forallb p l = true.
Proof.
  intros H. apply forallb_forall. intros x Hx.
  destruct (In_nth l x d Hx) as (i & Hi & <-). exact (H i Hi).
Qed.

Lemma Ok_inj {A} (a b : A) : Ok a = Ok b -> a = b.
Proof. intros H. congruence. Qed.

Section SkinRows.
Context {S : Scalar}.

(** Item [i] of the four tensors that [skinning_core] zips. *)
Lemma zipped_nth (self : ManoLayer) (rots : list (list mat3))
    (betas_in : list (list scalar)) (i : nat) :
  length rots = length betas_in -> i < length rots ->
  nth i
    (combine
       (combine
          (combine (map (fun r => nth 0 r eye3) rots) (map (skipn 1) rots))
          (map (regress_joints self) (map (blend (th_shapedirs self)) betas_in)))
       (map2 (map2 vadd)
          (map (map2 vadd (th_v_template self))
               (map (blend (th_shapedirs self)) betas_in))
          (map (fun h => blend (th_posedirs self) (rot_minus_mean_flat h))
               (map (skipn 1) rots))))
    (eye3, [], [], []) =
  (nth 0 (nth i rots []) eye3, skipn 1 (nth i rots []),
   regress_joints self (blend (th_shapedirs self) (nth i betas_in [])),
   T_P_item self (nth i rots []) (nth i betas_in [])).
Proof.
  intros Hlen Hi.
  rewrite !combine_nth.
  - rewrite (@nth_map2 _ _ _ (map2 vadd) _ _ i [] [] []) by (rewrite !length_map; lia).
    repeat match goal with
           | |- context [nth i (map ?f ?l) ?d] =>
               rewrite (@nth_map_lt _ _ f l i [] d) by (rewrite ?length_map; lia)
           end.
    reflexivity.
  - rewrite !length_map. reflexivity.
  - rewrite length_combine, !length_map, Nat.min_id. lia.
  - rewrite !length_combine, !length_map, map2_eq_length
      by (rewrite !length_map; lia).
    rewrite !length_map, !Nat.min_id. lia.
Qed.

Lemma zipped_length (self : ManoLayer) (rots : list (list mat3))
    (betas_in : list (list scalar)) :
  length rots = length betas_in ->
  length
    (combine
       (combine
          (combine (map (fun r => nth 0 r eye3) rots) (map (skipn 1) rots))
          (map (regress_joints self) (map (blend (th_shapedirs self)) betas_in)))
       (map2 (map2 vadd)
          (map (map2 vadd (th_v_template self))
               (map (blend (th_shapedirs self)) betas_in))
          (map (fun h => blend (th_posedirs self) (rot_minus_mean_flat h))
               (map (skipn 1) rots)))) = length rots.
Proof.
  intros Hlen.
  rewrite !length_combine, !length_map, map2_eq_length
    by (rewrite !length_map; lia).
  rewrite !length_map, !Nat.min_id. lia.
Qed.

(** [skinning_core] returns exactly when the two batches have one size,
    the joint regressor has a row and [skin_row] returns on every pair of
    rows; it returns what [skin_row] returns. *)
Lemma skinning_core_rows (self : ManoLayer) (rots : list (list mat3))
    (betas_in : list (list scalar)) (items : list SkinnedItem) :
  skinning_core self rots betas_in = Ok items <->
  length rots = length betas_in /\
  0 < length (th_J_regressor self) /\
  mapM (fun '(r, b) => skin_row self r b) (combine rots betas_in) = Ok items.
Proof.
  split.
  - unfold skinning_core. intros H.
    apply bind_ok_inv in H. destruct H as (rr & Hrr & H).
    apply bind_ok_inv in H. destruct H as (? & Hcols & H).
    apply guard_ok_inv in Hcols.
    apply bind_ok_inv in H. destruct H as (? & Hhand & H).
    apply guard_ok_inv in Hhand.
    apply bind_ok_inv in H. destruct H as (T_P & HT & H).
    apply bind_ok_inv in H. destruct H as (? & HJ & H).
    apply guard_ok_inv, Nat.ltb_lt in HJ.
    apply bind_ok_inv in H. destruct H as (? & Hlen & H).
    apply guard_ok_inv, Nat.eqb_eq in Hlen. rewrite !length_map in Hlen.
    assert (Hrr' : rr = map (fun r => nth 0 r eye3) rots).
    { clear - Hrr. apply mapM_Forall2 in Hrr.
      induction Hrr as [|r a l l' Hra _ IH]; [reflexivity|].
      simpl. apply (@index_ok_inv _ _ _ _ eye3) in Hra. destruct Hra as [_ <-].
      rewrite IH. reflexivity. }
    unfold broadcast2 in HT. rewrite !length_map, Hlen, Nat.eqb_refl in HT.
    apply Ok_inj in HT. subst T_P. subst rr.
    split; [symmetry; exact Hlen|]. split; [exact HJ|].
    pose proof (@mapM_length _ _ _ _ _ H) as Hitems.
    rewrite (zipped_length self rots betas_in (eq_sym Hlen)) in Hitems.
    apply (mapM_of_nth _ _ _ ([], []) empty_item).
    + rewrite length_combine, Hitems, Hlen, Nat.min_id. reflexivity.
    + intros i Hi. rewrite length_combine, Hlen, Nat.min_id in Hi.
      rewrite combine_nth by (symmetry; exact Hlen).
      pose proof (mapM_nth _ _ _ i (eye3, [], [], []) empty_item H) as Hit.
      rewrite (zipped_length self rots betas_in (eq_sym Hlen)) in Hit.
      specialize (Hit Hi).
      rewrite (zipped_nth self rots betas_in i (eq_sym Hlen) Hi) in Hit.
      unfold skin_row.
      pose proof (mapM_nth _ _ _ i [] eye3 Hrr Hi) as Hidx.
      cbv beta in Hidx. rewrite Hidx.
      rewrite (@nth_map_lt _ _ (fun r => nth 0 r eye3) rots i [] eye3 Hi).
      cbn [bind].
      unfold cols_are in Hcols.
      pose proof (forallb_nth _ _ i [] Hcols) as Hc. cbv beta in Hc.
      rewrite Hc by lia. cbn [guard bind].
      pose proof (forallb_nth _ _ i [] Hhand) as Hh. cbv beta in Hh.
      rewrite (@nth_map_lt _ _ (skipn 1) rots i [] [] Hi) in Hh.
      rewrite Hh by (rewrite length_map; exact Hi). cbn [guard bind].
      exact Hit.
  - intros (Hlen & HJ & H).
    pose proof (@mapM_length _ _ _ _ _ H) as Hitems.
    rewrite length_combine, Hlen, Nat.min_id in Hitems.
    assert (Hrow : forall i, i < length rots ->
              skin_row self (nth i rots []) (nth i betas_in []) =
              Ok (nth i items empty_item)).
    { intros i Hi.
      pose proof (mapM_nth _ _ _ i ([], []) empty_item H) as Hit.
      rewrite length_combine, Hlen, Nat.min_id in Hit.
      rewrite combine_nth in Hit by exact Hlen.
      apply Hit. lia. }
    unfold skinning_core.
    assert (Hrr : mapM (fun r => index r 0) rots =
                  Ok (map (fun r => nth 0 r eye3) rots)).
    { apply mapM_ok. apply Forall_forall. intros r Hr.
      destruct (In_nth rots r [] Hr) as (i & Hi & <-).
      specialize (Hrow i Hi). unfold skin_row in Hrow.
      apply bind_ok_inv in Hrow. destruct Hrow as (a & Ha & _).
      rewrite Ha. apply (@index_ok_inv _ _ _ _ eye3) in Ha. destruct Ha as [_ ->].
      reflexivity. }
    rewrite Hrr. cbn [bind].
    assert (Hcols : cols_are (n_shape self) betas_in = true).
    { unfold cols_are. apply (forallb_of_nth _ _ []). intros i Hi.
      specialize (Hrow i ltac:(lia)). unfold skin_row in Hrow.
      apply bind_ok_inv in Hrow. destruct Hrow as (a & _ & Hrow).
      apply bind_ok_inv in Hrow. destruct Hrow as (? & Hg & _).
      exact (guard_ok_inv _ _ Hg). }
    rewrite Hcols. cbn [guard bind].
    assert (Hhand : forallb (fun h => length h * 9 =? n_pose self)
                      (map (skipn 1) rots) = true).
    { apply (forallb_of_nth _ _ []). intros i Hi. rewrite length_map in Hi.
      rewrite (@nth_map_lt _ _ (skipn 1) rots i [] [] Hi).
      specialize (Hrow i Hi). unfold skin_row in Hrow.
      apply bind_ok_inv in Hrow. destruct Hrow as (a & _ & Hrow).
      apply bind_ok_inv in Hrow. destruct Hrow as (? & _ & Hrow).
      apply bind_ok_inv in Hrow. destruct Hrow as (? & Hg & _).
      exact (guard_ok_inv _ _ Hg). }
    rewrite Hhand. cbn [guard bind].
    unfold broadcast2. rewrite !length_map, Hlen, Nat.eqb_refl. cbn [bind].
    destruct (Nat.ltb_spec 0 (length (th_J_regressor self))) as [_|Hc]; [|lia].
    cbn [guard bind].
    apply (mapM_of_nth _ _ _ (eye3, [], [], []) empty_item).
    + rewrite (zipped_length self rots betas_in Hlen). lia.
    + intros i Hi. rewrite (zipped_length self rots betas_in Hlen) in Hi.
      rewrite (zipped_nth self rots betas_in i Hlen Hi).
      specialize (Hrow i Hi). unfold skin_row in Hrow.
      apply bind_ok_inv in Hrow. destruct Hrow as (a & Ha & Hrow).
      apply (@index_ok_inv _ _ _ _ eye3) in Ha. destruct Ha as [_ <-].
      apply bind_ok_inv in Hrow. destruct Hrow as (? & _ & Hrow).
      apply bind_ok_inv in Hrow. destruct Hrow as (? & _ & Hrow).
      exact Hrow.
Qed.

Lemma center_shift_eq (self : ManoLayer) (items : list SkinnedItem) :
  center_shift self items =
    (cj <- center_of self ;; Ok (shift_blob cj items)).
Proof.
  unfold center_shift, center_of, shift_blob.
  destruct (center_idx self) as [c|]; cbn [bind].
  - destruct (py_index 21 c) as [i|e]; cbn [bind]; [|reflexivity].
    rewrite !map2_map_same. reflexivity.
  - rewrite !map2_map_same. reflexivity.
Qed.

End SkinRows.

(** ** The forward pass, one batch item at a time *)

Section ForwardRows.
Context {S : Scalar} {K : RotOps}.

(** What [forward] builds from the resolved rows, the skinned items and
    the center joint. *)
Lemma forward_rows (self : ManoLayer) (pose_coeffs betas_in : list (list scalar))
    (out : MANOOutput) :
  forward self pose_coeffs betas_in = Ok out <->
  exists rows items cj,
    buffers_registered self /\
    mapM (rotation_row self) pose_coeffs = Ok rows /\
    length pose_coeffs = length betas_in /\
    0 < length (th_J_regressor self) /\
    mapM (fun '(r, b) => skin_row self r b) (combine (map fst rows) betas_in)
      = Ok items /\
    center_of self = Ok cj /\
    out = {| verts := sk_verts (shift_blob cj items);
             joints := sk_joints (shift_blob cj items);
             out_center_idx := center_idx self;
             center_joint := sk_center_joint (shift_blob cj items);
             full_poses := map snd rows;
             betas := betas_in;
             transforms_abs := sk_transforms_abs (shift_blob cj items) |}.
Proof.
  split.
  - intros H. unfold forward in H.
    apply bind_ok_inv in H. destruct H as (rb & Hrb & H).
    pose proof (run_rotation_layer_registered self pose_coeffs rb Hrb) as Hreg.
    rewrite (run_rotation_layer_rows self pose_coeffs Hreg) in Hrb.
    apply bind_ok_inv in Hrb. destruct Hrb as (rows & Hrows & Hrb).
    apply Ok_inj in Hrb. subst rb.
    apply bind_ok_inv in H. destruct H as (blob & Hblob & H).
    unfold skinning_layer in Hblob.
    apply bind_ok_inv in Hblob. destruct Hblob as (items & Hitems & Hblob).
    apply skinning_core_rows in Hitems.
    destruct Hitems as (Hlen & HJ & Hitems).
    rewrite center_shift_eq in Hblob.
    apply bind_ok_inv in Hblob. destruct Hblob as (cj & Hcj & Hblob).
    apply Ok_inj in Hblob. subst blob. apply Ok_inj in H.
    exists rows, items, cj. unfold blob_of_rows in *. cbn [full_rots rb_full_poses] in *.
    rewrite length_map in Hlen.
    rewrite (@mapM_length _ _ _ _ _ Hrows) in Hlen.
    repeat split; try assumption. symmetry. exact H.
  - intros (rows & items & cj & Hreg & Hrows & Hlen & HJ & Hitems & Hcj & ->).
    unfold forward.
    rewrite (run_rotation_layer_rows self pose_coeffs Hreg), Hrows.
    cbn [bind]. unfold skinning_layer, blob_of_rows. cbn [full_rots rb_full_poses].
    assert (Hcore : skinning_core self (map fst rows) betas_in = Ok items).
    { apply skinning_core_rows. split; [|split; assumption].
      rewrite length_map, (@mapM_length _ _ _ _ _ Hrows). exact Hlen. }
    rewrite Hcore. cbn [bind]. rewrite center_shift_eq, Hcj. reflexivity.
Qed.

(** X4: the batch items are processed independently of each other: when
    [forward] returns on a batch, it returns on each of its items taken
    alone, with that item of the output. *)
Theorem forward_batch_item (self : ManoLayer)
    (pose_coeffs betas_in : list (list scalar)) (out : MANOOutput) (b : nat) :
  forward self pose_coeffs betas_in = Ok out ->
  b < length pose_coeffs ->
  forward self [nth b pose_coeffs []] [nth b betas_in []] =
    Ok (output_item out b).
Proof.
  intros H Hb. apply forward_rows in H.
  destruct H as (rows & items & cj & Hreg & Hrows & Hlen & HJ & Hitems & Hcj & ->).
  pose proof (@mapM_length _ _ _ _ _ Hrows) as Hlrows.
  pose proof (@mapM_length _ _ _ _ _ Hitems) as Hlitems.
  rewrite length_combine, length_map, Hlrows, <- Hlen, Nat.min_id in Hlitems.
  apply forward_rows.
  exists [nth b rows ([], [])], [nth b items empty_item], cj.
  split; [exact Hreg|]. split.
  { cbn [mapM].
    rewrite (mapM_nth _ _ _ b [] ([], []) Hrows Hb). reflexivity. }
  split; [reflexivity|]. split; [exact HJ|]. split.
  { cbn [map combine mapM].
    pose proof (mapM_nth _ _ _ b ([], []) empty_item Hitems) as Hit.
    rewrite length_combine, length_map, Hlrows, <- Hlen, Nat.min_id in Hit.
    specialize (Hit Hb).
    rewrite combine_nth in Hit by (rewrite length_map, Hlrows; exact Hlen).
    rewrite (@nth_map_lt _ _ fst rows b ([], []) [] ) in Hit
      by (rewrite Hlrows; exact Hb).
    rewrite Hit. reflexivity. }
  split; [exact Hcj|].
  unfold output_item, shift_blob.
  cbn [verts joints out_center_idx center_joint full_poses betas transforms_abs
       sk_verts sk_joints sk_center_joint sk_transforms_abs map].
  assert (Hbi : b < length items) by (rewrite Hlitems; exact Hb).
  assert (Hbr : b < length rows) by (rewrite Hlrows; exact Hb).
  rewrite !(fun B (f : SkinnedItem -> B) d =>
              @nth_map_lt _ _ f items b empty_item d Hbi).
  rewrite (@nth_map_lt _ _ snd rows b ([], []) [] Hbr).
  reflexivity.
Qed.

End ForwardRows.

(** ** When the forward pass returns *)

Section ForwardOutcome.
Context {S : Scalar} {K : RotOps}.

Lemma T_P_item_length (self : ManoLayer) (rots : list mat3) (beta : list scalar) :
  length (th_shapedirs self) = length (th_v_template self) ->
  length (th_posedirs self) = length (th_v_template self) ->
  length (T_P_item self rots beta) = length (th_v_template self).
Proof.
  intros Hs Hp. unfold T_P_item, blend.
  rewrite !map2_length, !length_map, Hs, Hp, !Nat.min_id. reflexivity.
Qed.

Lemma consistent_ncols (self : ManoLayer) :
  layer_consistent self -> ncols (th_weights self) = 16.
Proof.
  intros (HV & _ & _ & Hw & _ & _ & Hrows).
  destruct (th_weights self) as [|w ws]; [simpl in Hw; lia|].
  inversion Hrows as [|? ? [Hl _] _]. exact Hl.
Qed.

(** On a consistent model the skinning of one item returns exactly when
    it is given 16 rotations and as many shape coefficients as the shape
    basis has. *)
Lemma skin_row_is_ok (self : ManoLayer) (rots : list mat3) (beta : list scalar) :
  layer_consistent self ->
  is_ok (skin_row self rots beta) =
    (length rots =? 16) && (length beta =? n_shape self).
Proof.
  intros Hc.
  pose proof (consistent_ncols self Hc) as Hnc.
  destruct Hc as (HV & Hs & Hp & Hw & HJ & Hnp & Hrows).
  unfold skin_row.
  destruct rots as [|r0 hand]; [reflexivity|].
  cbn [index nth_error bind skipn length].
  destruct (Nat.eqb_spec (length beta) (n_shape self)) as [Hb|Hb];
    [|rewrite andb_false_r; reflexivity].
  cbn [guard bind]. rewrite andb_true_r, Hnp.
  destruct (Nat.eqb_spec (length hand * 9) 135) as [Hh|Hh].
  - assert (Hh' : length hand = 15) by lia.
    replace (Datatypes.S (length hand) =? 16) with true
      by (rewrite Hh'; reflexivity).
    cbn [guard bind]. unfold skin_item.
    rewrite kinematic_chain_ok
      by (try (rewrite Hh'; lia);
          unfold regress_joints; rewrite length_map, HJ; lia).
    cbn [bind].
    unfold regress_joints at 1. rewrite length_map, HJ. cbn [Nat.eqb guard bind].
    rewrite Hnc. cbn [Nat.eqb guard bind].
    set (G := map _ (seq 0 16)).
    set (vs := map2 _ (th_weights self) _).
    assert (Hvs : length vs = length (th_v_template self)).
    { unfold vs. rewrite map2_length, Hw, (T_P_item_length self _ _ Hs Hp).
      apply Nat.min_id. }
    rewrite (@gather_ok _ vs (tip_idxs (side self)) zero3)
      by (rewrite Hvs; apply tip_idxs_bound; exact HV).
    cbn [bind].
    rewrite (@gather_ok _ _ snap_order zero3).
    + reflexivity.
    + apply Forall_forall. intros i Hi. apply snap_order_In in Hi.
      rewrite length_app, !length_map. unfold G. rewrite length_map, length_seq.
      unfold tip_idxs. destruct (String.eqb (side self) "right"); simpl; lia.
  - replace (Datatypes.S (length hand) =? 16) with false
      by (symmetry; apply Nat.eqb_neq; lia).
    reflexivity.
Qed.

Lemma skinning_core_is_ok (self : ManoLayer) (rots : list (list mat3))
    (betas_in : list (list scalar)) :
  layer_consistent self ->
  Forall (fun r => length r = 16) rots ->
  is_ok (skinning_core self rots betas_in) =
    (length rots =? length betas_in) && cols_are (n_shape self) betas_in.
Proof.
  intros Hc Hrots.
  assert (HJ : 0 < length (th_J_regressor self)).
  { destruct Hc as (_ & _ & _ & _ & HJ & _). lia. }
  destruct (Nat.eqb_spec (length rots) (length betas_in)) as [Hlen|Hlen].
  - cbn [andb].
    destruct (cols_are (n_shape self) betas_in) eqn:Hcols.
    + assert (Hm : is_ok (mapM (fun '(r, b) => skin_row self r b)
                            (combine rots betas_in)) = true).
      { rewrite mapM_is_ok. apply forallb_forall. intros [r b] Hin.
        rewrite (skin_row_is_ok self r b Hc).
        rewrite Forall_forall in Hrots.
        rewrite (Hrots r (in_combine_l _ _ _ _ Hin)).
        apply cols_are_Forall in Hcols. rewrite Forall_forall in Hcols.
        rewrite (Hcols b (in_combine_r _ _ _ _ Hin)).
        rewrite !Nat.eqb_refl. reflexivity. }
      destruct (mapM _ (combine rots betas_in)) as [items|e] eqn:Hitems;
        [|discriminate Hm].
      assert (Hcore : skinning_core self rots betas_in = Ok items).
      { apply skinning_core_rows. repeat split; assumption. }
      rewrite Hcore. reflexivity.
    + destruct (skinning_core self rots betas_in) as [items|e] eqn:Hcore;
        [|reflexivity].
      exfalso. unfold skinning_core in Hcore.
      apply bind_ok_inv in Hcore. destruct Hcore as (rr & _ & Hcore).
      apply bind_ok_inv in Hcore. destruct Hcore as (? & Hg & _).
      apply guard_ok_inv in Hg. congruence.
  - cbn [andb].
    destruct (skinning_core self rots betas_in) as [items|e] eqn:Hcore;
      [|reflexivity].
    apply skinning_core_rows in Hcore. destruct Hcore as (Hl & _). contradiction.
Qed.

Lemma center_of_is_ok (self : ManoLayer) :
  center_idx_valid self <-> is_ok (center_of self) = true.
Proof.
  unfold center_idx_valid, center_of.
  destruct (center_idx self) as [c|]; [|split; reflexivity].
  split.
  - intros Hc. unfold py_index, fits_int64.
    change (Z.of_nat 21) with 21%Z. change (- (21))%Z with (-21)%Z.
    destruct (Z.leb_spec int64_min c); [|unfold int64_min in *; lia].
    destruct (Z.leb_spec c int64_max); [|unfold int64_max in *; lia].
    cbn [andb negb].
    destruct (Z.leb_spec 0 c); destruct (Z.ltb_spec c 21);
      cbn [andb bind is_ok]; try reflexivity; try lia;
      destruct (Z.leb_spec (-21) c); destruct (Z.ltb_spec c 0);
      cbn [andb bind is_ok]; try reflexivity; lia.
  - intros H. destruct (py_index 21 c) as [i|e] eqn:Hi; [|discriminate H].
    apply py_index_inv in Hi. lia.
Qed.

Lemma forward_is_ok (self : ManoLayer)
    (pose_coeffs betas_in : list (list scalar)) :
  layer_consistent self ->
  center_idx_valid self ->
  is_ok (forward self pose_coeffs betas_in) =
    is_ok (run_rotation_layer self pose_coeffs)
    && (length pose_coeffs =? length betas_in)
    && cols_are (n_shape self) betas_in.
Proof.
  intros Hc Hv. unfold forward.
  destruct (run_rotation_layer self pose_coeffs) as [rb|e] eqn:Hrb;
    [|reflexivity].
  cbn [bind is_ok andb].
  pose proof (run_rotation_layer_registered self pose_coeffs rb Hrb) as Hreg.
  pose proof (run_rotation_layer_shape self pose_coeffs Hreg) as Hshape.
  rewrite Hrb in Hshape. destruct Hshape as (Hlen & H16).
  pose proof (skinning_core_is_ok self (full_rots rb) betas_in Hc H16) as Hok.
  rewrite Hlen in Hok. rewrite <- Hok.
  unfold skinning_layer.
  destruct (skinning_core self (full_rots rb) betas_in) as [items|e];
    [|reflexivity].
  cbn [bind is_ok]. rewrite center_shift_eq.
  apply center_of_is_ok in Hv.
  destruct (center_of self) as [cj|e]; [reflexivity|discriminate Hv].
Qed.

(** X5: on a model whose buffers fit each other and whose center index
    is none or in [-21, 20], the forward pass on a non-empty batch
    returns exactly
    when the rotation resolver accepts the pose batch, the shape batch
    has as many rows as the pose batch and each of its rows has one
    entry per shape direction. *)
Theorem forward_returns_iff (self : ManoLayer)
    (pose_coeffs betas_in : list (list scalar)) :
  buffers_fit self ->
  center_idx_valid self ->
  pose_coeffs <> [] ->
  is_ok (forward self pose_coeffs betas_in) =
    is_ok (run_rotation_layer self pose_coeffs)
    && (length pose_coeffs =? length betas_in)
    && cols_are (n_shape self) betas_in.
Proof.
  intros [Hc _] Hv _. exact (forward_is_ok self pose_coeffs betas_in Hc Hv).
Qed.

(** What the centering step does with the center index: it passes
    when there is none or it is in [-21, 20], and fails with
    [IndexError] on another index that fits 64 bits and with
    [ValueError] on an index that does not. *)
Lemma center_of_outcome (self : ManoLayer) :
  match center_of self with
  | Ok _ => center_idx_valid self
  | Err e =>
      exists c, center_idx self = Some c /\ ~ (-21 <= c <= 20)%Z /\
                e = (if fits_int64 c then IndexError else ValueError)
  end.
Proof.
  destruct (center_of self) as [cj|e] eqn:Hcj.
  - apply center_of_is_ok. rewrite Hcj. reflexivity.
  - unfold center_of in Hcj.
    destruct (center_idx self) as [c|]; [|discriminate Hcj].
    exists c. split; [reflexivity|].
    destruct (py_index 21 c) as [i|e'] eqn:Hi; [discriminate Hcj|].
    cbn [bind] in Hcj. injection Hcj as <-.
    unfold py_index in Hi. change (Z.of_nat 21) with 21%Z in Hi.
    change (- (21))%Z with (-21)%Z in Hi.
    destruct (fits_int64 c) eqn:Hfit; cbn [negb] in Hi.
    + destruct (Z.leb_spec 0 c); destruct (Z.ltb_spec c 21);
        cbn [andb] in Hi; try discriminate Hi;
        destruct (Z.leb_spec (-21) c); destruct (Z.ltb_spec c 0);
        cbn [andb] in Hi; try discriminate Hi;
        (split; [lia | injection Hi as <-; reflexivity]).
    + injection Hi as <-. split; [|reflexivity].
      unfold fits_int64, int64_min, int64_max in Hfit.
      apply andb_false_iff in Hfit.
      destruct Hfit as [H|H]; [apply Z.leb_gt in H | apply Z.leb_gt in H]; lia.
Qed.

(** X6: on a model whose buffers are registered and fit each other, a
    forward pass on a non-empty batch that fails raises the shape error
    of torch, [RuntimeError], when the shapes of the inputs are not the
    accepted ones.  When they are, it fails on the center index alone:
    with [IndexError] when the index is outside [-21, 20] and fits a
    64-bit integer, with [ValueError] when it does not fit one.  It
    raises nothing else. *)
Theorem forward_error_kinds (self : ManoLayer)
    (pose_coeffs betas_in : list (list scalar)) (e : Error) :
  buffers_fit self ->
  buffers_registered self ->
  pose_coeffs <> [] ->
  forward self pose_coeffs betas_in = Err e ->
  let shapes :=
    is_ok (run_rotation_layer self pose_coeffs)
    && (length pose_coeffs =? length betas_in)
    && cols_are (n_shape self) betas_in in
  (shapes = false /\ e = RuntimeError) \/
  (shapes = true /\
   exists c, center_idx self = Some c /\ ~ (-21 <= c <= 20)%Z /\
             e = (if fits_int64 c then IndexError else ValueError)).
Proof.
  intros [Hc _] Hreg _ H shapes. subst shapes. unfold forward in H.
  pose proof (run_rotation_layer_shape self pose_coeffs Hreg) as Hshape.
  destruct (run_rotation_layer self pose_coeffs) as [rb|e'] eqn:Hrb.
  - cbn [bind is_ok andb] in *. destruct Hshape as (Hlen & H16).
    pose proof (skinning_core_is_ok self (full_rots rb) betas_in Hc H16) as Hok.
    rewrite Hlen in Hok. rewrite <- Hok.
    unfold skinning_layer in H.
    destruct (skinning_core self (full_rots rb) betas_in) as [items|e'] eqn:Hcore.
    + cbn [bind is_ok] in *. right. split; [reflexivity|].
      rewrite center_shift_eq in H.
      pose proof (center_of_outcome self) as Hout.
      destruct (center_of self) as [cj|e'] eqn:Hcj; [discriminate H|].
      cbn [bind] in H. injection H as <-. exact Hout.
    + cbn [bind is_ok] in *. left. split; [reflexivity|].
      injection H as <-.
      destruct (Nat.eqb_spec (length (full_rots rb)) (length betas_in)) as [Hl|Hl].
      * unfold skinning_core in Hcore.
        rewrite (root_rot_ok H16) in Hcore. cbn [bind] in Hcore.
        assert (Hcols : cols_are (n_shape self) betas_in = false).
        { rewrite <- Hlen, Hl, Nat.eqb_refl in Hok. symmetry. exact Hok. }
        rewrite Hcols in Hcore. cbn [guard bind] in Hcore.
        injection Hcore as <-. reflexivity.
      * assert (Hne : th_J_regressor self <> []).
        { destruct Hc as (_ & _ & _ & _ & HJ & _).
          intros E. rewrite E in HJ. discriminate HJ. }
        rewrite (@skinning_core_batch_mismatch _ self (full_rots rb) betas_in
                   H16 Hne Hl) in Hcore.
        injection Hcore as <-. reflexivity.
  - cbn [bind is_ok andb] in *. left. split; [reflexivity|].
    injection H as <-. exact Hshape.
Qed.

End ForwardOutcome.

(** ** The shapes and the parts of the output *)

Section Output.
Context {S : Scalar} {K : RotOps}.
Add Ring scalar_ring_output : scalar_rt.

Lemma skin_row_inv (self : ManoLayer) (rots : list mat3) (beta : list scalar)
    (it : SkinnedItem) :
  skin_row self rots beta = Ok it ->
  skin_item self (nth 0 rots eye3) (skipn 1 rots)
    (regress_joints self (blend (th_shapedirs self) beta))
    (T_P_item self rots beta) = Ok it.
Proof.
  unfold skin_row. intros H.
  apply bind_ok_inv in H. destruct H as (r0 & Hr0 & H).
  apply (@index_ok_inv _ _ _ _ eye3) in Hr0. destruct Hr0 as [_ <-].
  apply bind_ok_inv in H. destruct H as (? & _ & H).
  apply bind_ok_inv in H. destruct H as (? & _ & H).
  exact H.
Qed.

Lemma rotation_row_pose_length (self : ManoLayer) (p : list scalar)
    (row : list mat3 * list scalar) :
  rotation_row self p = Ok row -> length (snd row) = 48.
Proof.
  unfold rotation_row. destruct (rotation_layer self).
  - unfold axisang_row. intros H.
    apply bind_ok_inv in H. destruct H as (fh & _ & H).
    apply bind_ok_inv in H. destruct H as (hm & _ & H).
    apply bind_ok_inv in H. destruct H as (posed & _ & H).
    apply bind_ok_inv in H. destruct H as (? & Hg & H).
    apply guard_ok_inv, Nat.eqb_eq in Hg. apply Ok_inj in H. subst row.
    exact Hg.
  - unfold quaternion_row. intros H.
    apply bind_ok_inv in H. destruct H as (? & Hg & H).
    apply guard_ok_inv, Nat.eqb_eq in Hg. apply Ok_inj in H. subst row.
    cbn [snd].
    pose proof (chunks4_length 16 p Hg) as Hq.
    revert Hq. generalize (chunks4 p). intros qs Hq.
    assert (Hgen : forall l : list quat,
              length (concat (map (fun q => unvec3 (quaternion_to_angle_axis q)) l))
              = 3 * length l).
    { induction l as [|q l IH]; [reflexivity|].
      cbn [map concat]. rewrite length_app, IH. simpl. lia. }
    rewrite Hgen, Hq. reflexivity.
Qed.

Lemma mapM_Forall_out {A B} (f : A -> Result B) (P : B -> Prop) (l : list A)
    (r : list B) :
  (forall a b, In a l -> f a = Ok b -> P b) ->
  mapM f l = Ok r -> Forall P r.
Proof.
  intros HP H. apply mapM_Forall2 in H.
  induction H as [|a b l r Hab _ IH]; constructor.
  - apply (HP a b); [left; reflexivity|exact Hab].
  - apply IH. intros a' b' Hin. apply HP. right. exact Hin.
Qed.

(** X7: the shapes of the output.  For a batch of [B] poses every field
    has [B] rows; each row has 21 joints, 16 transforms and 48 pose
    entries, and, on a consistent model, as many vertices as the
    template. *)
Theorem forward_output_shapes (self : ManoLayer)
    (pose_coeffs betas_in : list (list scalar)) (out : MANOOutput) :
  layer_consistent self ->
  forward self pose_coeffs betas_in = Ok out ->
  let B := length pose_coeffs in
  (length (verts out) = B /\ length (joints out) = B /\
   length (center_joint out) = B /\ length (full_poses out) = B /\
   length (betas out) = B /\ length (transforms_abs out) = B) /\
  Forall (fun vs => length vs = length (th_v_template self)) (verts out) /\
  Forall (fun js => length js = 21) (joints out) /\
  Forall (fun p => length p = 48) (full_poses out) /\
  Forall (fun gs => length gs = 16) (transforms_abs out).
Proof.
  intros Hc H B. subst B. apply forward_rows in H.
  destruct H as (rows & items & cj & Hreg & Hrows & Hlen & HJ & Hitems & Hcj & ->).
  pose proof (@mapM_length _ _ _ _ _ Hrows) as Hlrows.
  pose proof (@mapM_length _ _ _ _ _ Hitems) as Hlitems.
  rewrite length_combine, length_map, Hlrows, <- Hlen, Nat.min_id in Hlitems.
  unfold shift_blob.
  cbn [verts joints out_center_idx center_joint full_poses betas transforms_abs
       sk_verts sk_joints sk_center_joint sk_transforms_abs].
  rewrite !length_map.
  split; [repeat split; try assumption; symmetry; assumption|].
  assert (Hall : Forall (fun it =>
             length (it_verts it) = length (th_v_template self) /\
             length (it_joints it) = 21 /\ length (it_G_k it) = 16) items).
  { refine (mapM_Forall_out _ _ _ _ _ Hitems).
    intros [r bt] it _ H. apply skin_row_inv in H.
    split; [|split].
    - destruct (@skin_item_inv _ _ _ _ _ _ _ H) as (tips & _ & _ & _ & Hv & _).
      rewrite Hv, map2_length.
      destruct Hc as (_ & Hs & Hp & Hw & _).
      rewrite Hw, (T_P_item_length self r bt Hs Hp). apply Nat.min_id.
    - exact (@skin_item_joints_length _ _ _ _ _ _ _ H).
    - exact (proj1 (@skin_item_G_k _ _ _ _ _ _ _ H)). }
  repeat split.
  - apply Forall_map. rewrite Forall_forall in *. intros it Hit.
    rewrite length_map. exact (proj1 (Hall it Hit)).
  - apply Forall_map. rewrite Forall_forall in *. intros it Hit.
    rewrite length_map. exact (proj1 (proj2 (Hall it Hit))).
  - apply Forall_map.
    apply (mapM_Forall_out _ _ _ _
             (fun a b _ H => rotation_row_pose_length self a b H) Hrows).
  - apply Forall_map. rewrite Forall_forall in *. intros it Hit.
    rewrite length_map. exact (proj2 (proj2 (Hall it Hit))).
Qed.

End Output.

(** ** The centering step seen from the output *)

Section Centering.
Context {S : Scalar} {K : RotOps}.
Add Ring scalar_ring_centering : scalar_rt.





Lemma gather_nth {A} (l : list A) (idxs : list nat) (r : list A) (d : A)
    (i : nat) :
  gather l idxs = Ok r -> i < length idxs ->
  nth i r d = nth (nth i idxs 0) l d /\ nth i idxs 0 < length l.
Proof.
  intros H Hi. apply (@gather_ok_inv _ _ _ _ d) in H. destruct H as [Hall ->].
  rewrite (@nth_map_lt _ _ (fun i => nth i l d) idxs i 0 d Hi).
  split; [reflexivity|]. rewrite Forall_forall in Hall. apply Hall.
  apply nth_In. exact Hi.
Qed.

(** X9: the returned joints agree with the other returned fields.  In
    the output slot [i], whose native index is [k = snap_order[i]], a
    skeletal joint ([k < 16]) is the translation column of the returned
    transform [k], and a fingertip is the returned vertex of that
    fingertip; this holds with and without centering. *)
Theorem joints_match_transforms (self : ManoLayer)
    (pose_coeffs betas_in : list (list scalar)) (out : MANOOutput)
    (b i : nat) :
  forward self pose_coeffs betas_in = Ok out ->
  b < length pose_coeffs -> i < 21 ->
  let k := nth i snap_order 0 in
  nth i (nth b (joints out) []) zero3 =
    if k <? 16
    then tsl_of (nth k (nth b (transforms_abs out) []) mzero4)
    else nth (nth (k - 16) (tip_idxs (side self)) 0)
             (nth b (verts out) []) zero3.
Proof.
  intros H Hb Hi k. apply forward_rows in H.
  destruct H as (rows & items & cj & Hreg & Hrows & Hlen & HJ & Hitems & Hcj & ->).
  pose proof (@mapM_length _ _ _ _ _ Hrows) as Hlrows.
  pose proof (@mapM_length _ _ _ _ _ Hitems) as Hlitems.
  rewrite length_combine, length_map, Hlrows, <- Hlen, Nat.min_id in Hlitems.
  assert (Hbi : b < length items) by (rewrite Hlitems; exact Hb).
  pose proof (mapM_nth _ _ _ b ([], []) empty_item Hitems) as Hit.
  rewrite length_combine, length_map, Hlrows, <- Hlen, Nat.min_id in Hit.
  specialize (Hit Hb).
  destruct (nth b (combine (map fst rows) betas_in) ([], [])) as [r bt].
  apply skin_row_inv in Hit.
  set (it := nth b items empty_item) in *.
  destruct (@skin_item_inv _ _ _ _ _ _ _ Hit)
    as (tips & _ & _ & _ & _ & Htips & Hjoints).
  pose proof (proj1 (@skin_item_G_k _ _ _ _ _ _ _ Hit)) as HG.
  pose proof (@skin_item_joints_length _ _ _ _ _ _ _ Hit) as Hjl.
  unfold shift_blob.
  cbn [verts joints out_center_idx center_joint full_poses betas transforms_abs
       sk_verts sk_joints sk_center_joint sk_transforms_abs].
  rewrite !(fun B (f : SkinnedItem -> B) d =>
              @nth_map_lt _ _ f items b empty_item d Hbi).
  fold it.
  rewrite (@nth_map_lt _ _ (fun j => vsub j (cj it)) (it_joints it) i zero3 zero3)
    by (rewrite Hjl; exact Hi).
  assert (Hi' : i < length snap_order) by exact Hi.
  destruct (gather_nth _ _ _ zero3 i Hjoints Hi') as [Hn Hk].
  fold k in Hn, Hk. rewrite Hn.
  rewrite length_app, length_map, HG in Hk.
  destruct (Nat.ltb_spec k 16) as [Hlt|Hge].
  - rewrite app_nth1 by (rewrite length_map, HG; exact Hlt).
    rewrite (@nth_map_lt _ _ tsl_of (it_G_k it) k mzero4 zero3)
      by (rewrite HG; exact Hlt).
    rewrite (@nth_map_lt _ _ (center_transform (cj it)) (it_G_k it) k mzero4 mzero4)
      by (rewrite HG; exact Hlt).
    rewrite (proj1 (proj2 (center_transform_parts (cj it) _))). reflexivity.
  - rewrite app_nth2 by (rewrite length_map, HG; exact Hge).
    rewrite length_map, HG.
    pose proof (@gather_length _ _ _ _ Htips) as Htl.
    assert (Hkt : k - 16 < length (tip_idxs (side self))) by lia.
    destruct (gather_nth _ _ _ zero3 (k - 16) Htips Hkt) as [Hn' Hk'].
    rewrite Hn'.
    rewrite (@nth_map_lt _ _ (fun v => vsub v (cj it)) (it_verts it) _ zero3 zero3 Hk').
    reflexivity.
Qed.

End Centering.

(** ** Turning the root rotation *)

Section RootRotation.
Context {S : Scalar}.
Add Ring scalar_ring_root : scalar_rt.






















End RootRotation.

(** ** A vertex bound to one joint *)

Section BoundVertex.
Context {S : Scalar}.
Add Ring scalar_ring_bound : scalar_rt.








End BoundVertex.

(** ** The side of the hand *)

Section Side.
Context {S : Scalar} {K : RotOps}.

(** X12: the side is compared in two ways.  The asset file is chosen by
    the upper-cased side, the fingertip vertices by the test
    [side == "right"]: a layer built with a side that is not "right" but
    upper-cases to "RIGHT" holds the data of the right hand, and reads
    the middle fingertip at vertex 445, the one of the left hand. *)
Theorem side_is_case_sensitive (a : InitArgs)
    (ready_arguments : String.string -> Result SmplData)
    (w : list String.string) (l : ManoLayer) (s : String.string) :
  upper s = "RIGHT" -> s <> "right" ->
  ManoLayer_init (set_side a s) ready_arguments = (w, Ok l) ->
  ManoLayer_init (set_side a "right") ready_arguments =
    (w, Ok (with_side l "right")) /\
  side l = s /\
  tip_idxs (side l) = [745; 317; 445; 556; 673].
Proof.
  intros Hup Hne H.
  assert (Hload : forall layer dim l',
            load_model (set_side a s) layer dim ready_arguments = Ok l' ->
            load_model (set_side a "right") layer dim ready_arguments =
              Ok (with_side l' "right") /\ side l' = s).
  { intros layer dim l' Hl. unfold load_model in *.
    cbn [arg_side arg_mano_assets_root set_side] in *. rewrite Hup in Hl.
    change (upper "right") with "RIGHT".
    destruct (ready_arguments _) as [d|e]; [|discriminate Hl].
    cbn [bind] in *. apply Ok_inj in Hl. subst l'.
    split; reflexivity. }
  assert (Hboth : ManoLayer_init (set_side a "right") ready_arguments =
                    (w, Ok (with_side l "right")) /\ side l = s).
  { unfold ManoLayer_init in *.
    cbn [arg_rot_mode arg_use_pca arg_flat_hand_mean set_side] in *.
    destruct (String.eqb (arg_rot_mode a) "axisang").
    - injection H as <- H. destruct (Hload _ _ _ H) as [-> Hs].
      split; [reflexivity|exact Hs].
    - destruct (String.eqb (arg_rot_mode a) "quat"); [|discriminate H].
      injection H as <- H. destruct (Hload _ _ _ H) as [-> Hs].
      split; [reflexivity|exact Hs]. }
  destruct Hboth as [Hinit Hs]. split; [exact Hinit|]. split; [exact Hs|].
  rewrite Hs. unfold tip_idxs.
  destruct (String.eqb_spec s "right") as [E|_]; [contradiction|reflexivity].
Qed.

Lemma mapM_map_out {A B} (f g : A -> Result B) (h : B -> B) (l : list A)
    (r : list B) :
  (forall a b, f a = Ok b -> g a = Ok (h b)) ->
  mapM f l = Ok r -> mapM g l = Ok (map h r).
Proof.
  intros Hfg. revert r. induction l as [|a l IH]; intros r H.
  - apply Ok_inj in H. subst r. reflexivity.
  - cbn [mapM] in *.
    apply bind_ok_inv in H. destruct H as (b & Hb & H).
    apply bind_ok_inv in H. destruct H as (r' & Hr' & H).
    apply Ok_inj in H. subst r.
    rewrite (Hfg a b Hb), (IH r' Hr'). reflexivity.
Qed.

Lemma tip_idxs_le (sd : String.string) :
  Forall (fun i => i <= 745) (tip_idxs sd).
Proof.
  unfold tip_idxs. destruct (String.eqb sd "right");
    repeat constructor; apply Nat.leb_le; reflexivity.
Qed.

(** One batch item of a layer with another side: the vertices and the
    transforms are the same, the fingertips are read at the vertices of
    that side. *)
Lemma skin_item_side (self : ManoLayer) (sd : String.string) (r0 : mat3)
    (hand : list mat3) (J T_P : list vec3) (it : SkinnedItem) :
  skin_item self r0 hand J T_P = Ok it ->
  skin_item (with_side self sd) r0 hand J T_P = Ok (with_tips sd it) /\
  with_tips (side self) it = it.
Proof.
  intros H.
  destruct (@skin_item_inv _ _ _ _ _ _ _ H)
    as (tips & Hkc & HJ & Hnc & Hv & Htips & Hjoints).
  destruct (@gather_ok_inv _ _ _ _ zero3 Htips) as [Hbound ->].
  assert (H745 : 745 < length (it_verts it)).
  { rewrite Forall_forall in Hbound. apply Hbound.
    unfold tip_idxs. destruct (String.eqb (side self) "right");
      left; reflexivity. }
  destruct (@gather_ok_inv _ _ _ _ zero3 Hjoints) as [_ Hj].
  split.
  - unfold skin_item. cbn [th_weights side with_side].
    rewrite Hkc. cbn [bind]. rewrite HJ, Hnc. cbn [Nat.eqb guard bind].
    rewrite <- Hv.
    rewrite (@gather_ok _ (it_verts it) (tip_idxs sd) zero3).
    + cbn [bind].
      rewrite (@gather_ok _ _ snap_order zero3).
      * reflexivity.
      * apply Forall_forall. intros i Hi. apply snap_order_In in Hi.
        rewrite length_app, !length_map.
        rewrite (proj1 (@skin_item_G_k _ _ _ _ _ _ _ H)).
        unfold tip_idxs. destruct (String.eqb sd "right"); simpl; lia.
    + pose proof (tip_idxs_le sd) as Hle. rewrite Forall_forall in *.
      intros i Hi. specialize (Hle i Hi). lia.
  - unfold with_tips. rewrite <- Hj. destruct it; reflexivity.
Qed.

Lemma with_tips_slot (sd sd' : String.string) (it : SkinnedItem) (i : nat) :
  length (it_G_k it) = 16 -> i <> 12 ->
  nth i (it_joints (with_tips sd it)) zero3 =
  nth i (it_joints (with_tips sd' it)) zero3.
Proof.
  intros HG Hi. unfold with_tips. cbn [it_joints].
  destruct (@list_16 _ (it_G_k it) HG) as
    (g0 & g1 & g2 & g3 & g4 & g5 & g6 & g7 & g8 & g9 & g10 & g11 & g12 &
     g13 & g14 & g15 & ->).
  unfold tip_idxs, snap_order.
  destruct (String.eqb sd "right"), (String.eqb sd' "right");
    try reflexivity;
    do 21 (destruct i as [|i]; [first [reflexivity | contradiction Hi; reflexivity]|]);
    destruct i; reflexivity.
Qed.

(** X13: in the forward pass the side only decides which vertex is the
    middle fingertip.  Unless the center index is that joint (12, or
    -9), a layer that differs in nothing but its side returns the same
    vertices, center joint, poses and transforms, and the same joints
    except the one of output slot 12. *)
Theorem side_moves_one_joint (self : ManoLayer) (sd : String.string)
    (pose_coeffs betas_in : list (list scalar)) (out : MANOOutput) :
  forward self pose_coeffs betas_in = Ok out ->
  center_idx self <> Some 12%Z -> center_idx self <> Some (-9)%Z ->
  exists out',
    forward (with_side self sd) pose_coeffs betas_in = Ok out' /\
    verts out' = verts out /\
    center_joint out' = center_joint out /\
    full_poses out' = full_poses out /\
    transforms_abs out' = transforms_abs out /\
    forall b i, i <> 12 ->
      nth i (nth b (joints out') []) zero3 =
      nth i (nth b (joints out) []) zero3.
Proof.
  intros H H12 H9. apply forward_rows in H.
  destruct H as (rows & items & cj & Hreg & Hrows & Hlen & HJ & Hitems & Hcj & ->).
  assert (Hitems' :
    mapM (fun '(r, b) => skin_row (with_side self sd) r b)
         (combine (map fst rows) betas_in) = Ok (map (with_tips sd) items)).
  { refine (mapM_map_out _ _ _ _ _ _ Hitems).
    intros [r bt] it Hit. unfold skin_row in *.
    apply bind_ok_inv in Hit. destruct Hit as (r0 & Hr0 & Hit). rewrite Hr0.
    apply bind_ok_inv in Hit. destruct Hit as (? & Hg1 & Hit).
    apply bind_ok_inv in Hit. destruct Hit as (? & Hg2 & Hit).
    cbn [bind].
    change (n_shape (with_side self sd)) with (n_shape self).
    change (n_pose (with_side self sd)) with (n_pose self).
    rewrite Hg1, Hg2. cbn [bind].
    exact (proj1 (skin_item_side self sd _ _ _ _ it Hit)). }
  assert (Hall : Forall (fun it => with_tips (side self) it = it /\
                                   length (it_G_k it) = 16 /\
                                   length (it_joints it) = 21) items).
  { refine (mapM_Forall_out _ _ _ _ _ Hitems).
    intros [r bt] it _ Hit. apply skin_row_inv in Hit. split; [|split].
    - exact (proj2 (skin_item_side self sd _ _ _ _ it Hit)).
    - exact (proj1 (@skin_item_G_k _ _ _ _ _ _ _ Hit)).
    - exact (@skin_item_joints_length _ _ _ _ _ _ _ Hit). }
  assert (Hcjeq : forall it, In it items -> cj (with_tips sd it) = cj it).
  { intros it Hin. rewrite Forall_forall in Hall.
    destruct (Hall it Hin) as (Hself & HG & _).
    unfold center_of in Hcj. destruct (center_idx self) as [c|].
    - apply bind_ok_inv in Hcj. destruct Hcj as (i & Hi & Hcj).
      apply Ok_inj in Hcj. subst cj. cbv beta.
      rewrite <- Hself at 2. apply with_tips_slot; [exact HG|].
      apply py_index_inv in Hi. destruct Hi as (Hr & -> & _).
      intros E.
      destruct (Z.leb_spec 0 c).
      + rewrite Z.mod_small in E by lia.
        apply H12. f_equal. lia.
      + apply H9. f_equal.
        assert (Hm : (c mod Z.of_nat 21 = c + 21)%Z).
        { symmetry. apply (Z.mod_unique c 21 (-1) (c + 21)); lia. }
        rewrite Hm in E. lia.
    - apply Ok_inj in Hcj. subst cj. reflexivity. }
  eexists. split.
  { apply forward_rows. exists rows, (map (with_tips sd) items), cj.
    split; [exact Hreg|]. split; [exact Hrows|]. split; [exact Hlen|].
    split; [exact HJ|]. split; [exact Hitems'|]. split; [exact Hcj|].
    reflexivity. }
  unfold shift_blob.
  cbn [verts joints out_center_idx center_joint full_poses betas transforms_abs
       sk_verts sk_joints sk_center_joint sk_transforms_abs].
  rewrite !map_map. cbn [with_tips it_verts it_G_k].
  split; [|split; [|split; [|split]]].
  - apply map_ext_in. intros it Hin. rewrite (Hcjeq it Hin). reflexivity.
  - apply map_ext_in. intros it Hin. apply (Hcjeq it Hin).
  - reflexivity.
  - apply map_ext_in. intros it Hin. rewrite (Hcjeq it Hin). reflexivity.
  - intros b i Hi.
    destruct (Nat.lt_ge_cases b (length items)) as [Hb|Hb].
    + rewrite !(fun B (g : SkinnedItem -> B) d =>
                  @nth_map_lt _ _ g items b empty_item d Hb).
      assert (Hin : In (nth b items empty_item) items) by (apply nth_In; exact Hb).
      set (it := nth b items empty_item) in *.
      rewrite (Hcjeq it Hin).
      rewrite Forall_forall in Hall. destruct (Hall it Hin) as (Hself & HG & Hjl).
      destruct (Nat.lt_ge_cases i 21) as [Hi21|Hi21].
      * rewrite !(fun l => @nth_map_lt _ _ (fun j => vsub j (cj it)) l i zero3 zero3)
          by (try rewrite Hjl; try (unfold with_tips; cbn [it_joints];
              rewrite length_map); exact Hi21).
        f_equal. rewrite <- Hself at 2. apply with_tips_slot; assumption.
      * rewrite !nth_overflow; try reflexivity;
          rewrite length_map; try rewrite Hjl;
          try (unfold with_tips; cbn [it_joints]; rewrite length_map);
          exact Hi21.
    + rewrite !(nth_overflow (map _ items)) by (rewrite length_map; exact Hb).
      reflexivity.
Qed.

End Side.

(** ** The properties on the toy model *)

Lemma cons_not_nil {A} (x : A) (l : list A) : x :: l <> [].
Proof. intros H. discriminate H. Qed.

Lemma toy_pose_resolves (c : option Z) :
  is_ok (run_rotation_layer (toy_layer_at c) toy_pose) = true.
Proof.
  rewrite (proj1 (axisang_rows_widths (toy_layer_at c) (repeat 0%Z 45)
                    toy_pose eq_refl eq_refl eq_refl eq_refl eq_refl)).
  reflexivity.
Qed.

Lemma toy_center_valid : center_idx_valid toy_centered.
Proof. unfold center_idx_valid. cbn [toy_centered toy_layer_at]. simpl. lia. Qed.

Lemma toy_batch_returns :
  exists out, forward toy_centered toy_pose toy_betas = Ok out.
Proof.
  assert (H : is_ok (forward toy_centered toy_pose toy_betas) = true).
  { rewrite (forward_is_ok toy_centered toy_pose toy_betas
               (toy_consistent (Some 9%Z)) toy_center_valid).
    change toy_centered with (toy_layer_at (Some 9%Z)).
    rewrite toy_pose_resolves. reflexivity. }
  destruct (forward toy_centered toy_pose toy_betas) as [out|e];
    [exists out; reflexivity | discriminate H].
Qed.

Lemma toy_fit (c : option Z) : buffers_fit (toy_layer_at c).
Proof.
  split; [exact (toy_consistent c)|].
  destruct toy_data_consistent
    as (_ & _ & _ & _ & _ & _ & _ & _ & _ & HJV).
  split; [exact HJV|]. split.
  - apply (forallb_Forall
             (fun sd : xyz (list Z) =>
                (length (c0 sd) =? 10) && (length (c1 sd) =? 10)
                && (length (c2 sd) =? 10))).
    + intros x Hx. apply andb_prop in Hx. destruct Hx as [Hx H3].
      apply andb_prop in Hx. destruct Hx as [H1 H2].
      apply Nat.eqb_eq in H1, H2, H3.
      change (n_shape (toy_layer_at c)) with 10. auto.
    + vm_compute. reflexivity.
  - apply (forallb_Forall
             (fun pd : xyz (list Z) =>
                (length (c0 pd) =? 135) && (length (c1 pd) =? 135)
                && (length (c2 pd) =? 135))).
    + intros x Hx. apply andb_prop in Hx. destruct Hx as [Hx H3].
      apply andb_prop in Hx. destruct Hx as [H1 H2].
      apply Nat.eqb_eq in H1, H2, H3.
      change (n_pose (toy_layer_at c)) with 135. auto.
    + vm_compute. reflexivity.
Qed.


Lemma axisang_pose_widths_witness :
  is_ok (run_rotation_layer toy_right [[1; 2; 3; 7]%Z]) = true /\
  forall rb, run_rotation_layer toy_right [[1; 2; 3; 7]%Z] = Ok rb ->
    rb_full_poses rb = [[1; 2; 3]%Z ++ repeat 7%Z 45].
Proof.
  exact (@axisang_pose_widths Z_Scalar Z_RotOps toy_right (repeat 0%Z 45) 4
           [[1; 2; 3; 7]%Z] eq_refl eq_refl eq_refl eq_refl eq_refl
           (cons_not_nil _ _) eq_refl).
Defined.

Lemma pca_pose_width_witness :
  ManoLayer_init pca_args toy_ready_arguments =
    ([], Ok (register_buffers pca_args by_axisang 3 toy_data)) /\
  is_ok (run_rotation_layer (register_buffers pca_args by_axisang 3 toy_data)
           [repeat 0%Z 18]) = true /\
  is_ok (run_rotation_layer (register_buffers pca_args by_axisang 3 toy_data)
           [repeat 0%Z 48]) = false /\
  is_ok (run_rotation_layer
           (register_buffers (set_ncomps pca_args 0) by_axisang 3 toy_data)
           [[1; 2; 3]%Z]) = true /\
  is_ok (run_rotation_layer
           (register_buffers (set_ncomps pca_args (-40)) by_axisang 3 toy_data)
           [repeat 1%Z 8]) = true.
Proof.
  assert (Hinit : forall n,
            ManoLayer_init (set_ncomps pca_args n) toy_ready_arguments =
            ([], Ok (register_buffers (set_ncomps pca_args n) by_axisang 3
                       toy_data)))
    by (intros n; reflexivity).
  destruct toy_data_consistent
    as (_ & _ & _ & _ & _ & _ & _ & Hne & H45 & _).
  assert (Hmean : forall n,
            arg_flat_hand_mean (set_ncomps pca_args n) = false ->
            length (smpl_hands_mean toy_data) = 45).
  { intros n H. discriminate H. }
  split; [exact (Hinit 15%Z)|]. split; [|split; [|split]].
  - exact (@pca_pose_width Z_Scalar Z_RotOps (set_ncomps pca_args 15)
             toy_ready_arguments toy_data [] _ [repeat 0%Z 18] eq_refl eq_refl
             eq_refl Hne H45 (Hmean 15%Z) (Hinit 15%Z) (cons_not_nil _ _)).
  - exact (@pca_pose_width Z_Scalar Z_RotOps (set_ncomps pca_args 15)
             toy_ready_arguments toy_data [] _ [repeat 0%Z 48] eq_refl eq_refl
             eq_refl Hne H45 (Hmean 15%Z) (Hinit 15%Z) (cons_not_nil _ _)).
  - exact (@pca_pose_width Z_Scalar Z_RotOps (set_ncomps pca_args 0)
             toy_ready_arguments toy_data [] _ [[1; 2; 3]%Z] eq_refl eq_refl
             eq_refl Hne H45 (Hmean 0%Z) (Hinit 0%Z) (cons_not_nil _ _)).
  - exact (@pca_pose_width Z_Scalar Z_RotOps (set_ncomps pca_args (-40))
             toy_ready_arguments toy_data [] _ [repeat 1%Z 8] eq_refl eq_refl
             eq_refl Hne H45 (Hmean (-40)%Z) (Hinit (-40)%Z)
             (cons_not_nil _ _)).
Defined.

Lemma zero_hand_pose_is_mean_witness :
  run_rotation_layer toy_posed_mean [[1; 2; 3]%Z ++ repeat 0%Z 45] =
    Ok (blob_of_rows
          [(map Z_so3_exp (chunks3 ([1; 2; 3]%Z ++ smpl_hands_mean toy_data)),
            [1; 2; 3]%Z ++ smpl_hands_mean toy_data)]).
Proof.
  assert (H3 : Forall (fun r : list Z => length r = 3) [[1; 2; 3]%Z])
    by (constructor; [reflexivity | constructor]).
  exact (@zero_hand_pose_is_mean Z_Scalar Z_RotOps toy_posed_mean
           (smpl_hands_mean toy_data) 45 [[1; 2; 3]%Z]
           eq_refl eq_refl eq_refl eq_refl eq_refl (cons_not_nil _ _) H3).
Defined.

Lemma forward_batch_item_witness :
  exists out,
    forward toy_centered toy_pose toy_betas = Ok out /\
    forward toy_centered [nth 1 toy_pose []] [nth 1 toy_betas []] =
      Ok (output_item out 1).
Proof.
  destruct toy_batch_returns as [out Hout].
  exists out. split; [exact Hout|].
  exact (@forward_batch_item Z_Scalar Z_RotOps toy_centered toy_pose
           toy_betas out 1 Hout (le_n 2)).
Defined.

Lemma forward_returns_iff_witness :
  is_ok (forward toy_centered toy_pose toy_betas) =
    is_ok (run_rotation_layer toy_centered toy_pose)
    && (length toy_pose =? length toy_betas)
    && cols_are (n_shape toy_centered) toy_betas /\
  is_ok (forward toy_centered toy_pose zero_betas) =
    is_ok (run_rotation_layer toy_centered toy_pose)
    && (length toy_pose =? length zero_betas)
    && cols_are (n_shape toy_centered) zero_betas.
Proof.
  split.
  - exact (@forward_returns_iff Z_Scalar Z_RotOps toy_centered toy_pose
             toy_betas (toy_fit (Some 9%Z)) toy_center_valid
             (cons_not_nil _ _)).
  - exact (@forward_returns_iff Z_Scalar Z_RotOps toy_centered toy_pose
             zero_betas (toy_fit (Some 9%Z)) toy_center_valid
             (cons_not_nil _ _)).
Defined.

Lemma toy_far_fails :
  forward toy_far_centered zero_pose zero_betas = Err IndexError.
Proof.
  rewrite (@forward_after_core Z_Scalar Z_RotOps toy_far_centered zero_pose
             zero_betas rest_rot_blob [rest_item toy_far_centered]
             (toy_rotation_ok (Some 21%Z)) (toy_core_ok (Some 21%Z))).
  change [rest_item toy_far_centered]
    with (repeat (rest_item toy_far_centered) 1).
  rewrite center_shift_rest. reflexivity.
Qed.

Lemma toy_overflow_fails :
  forward (toy_layer_at (Some (2 ^ 63)%Z)) zero_pose zero_betas =
    Err ValueError.
Proof.
  rewrite (@forward_after_core Z_Scalar Z_RotOps
             (toy_layer_at (Some (2 ^ 63)%Z)) zero_pose zero_betas
             rest_rot_blob [rest_item (toy_layer_at (Some (2 ^ 63)%Z))]
             (toy_rotation_ok (Some (2 ^ 63)%Z))
             (toy_core_ok (Some (2 ^ 63)%Z))).
  change [rest_item (toy_layer_at (Some (2 ^ 63)%Z))]
    with (repeat (rest_item (toy_layer_at (Some (2 ^ 63)%Z))) 1).
  rewrite center_shift_rest. reflexivity.
Qed.

Lemma toy_registered (c : option Z) : buffers_registered (toy_layer_at c).
Proof.
  split; [intros H; discriminate H | intros H; discriminate H].
Qed.

Lemma forward_error_kinds_witness :
  (forward toy_far_centered zero_pose zero_betas = Err IndexError /\
   exists c, center_idx toy_far_centered = Some c /\ ~ (-21 <= c <= 20)%Z /\
             IndexError = (if fits_int64 c then IndexError else ValueError)) /\
  (forward (toy_layer_at (Some (2 ^ 63)%Z)) zero_pose zero_betas =
     Err ValueError /\
   exists c, center_idx (toy_layer_at (Some (2 ^ 63)%Z)) = Some c /\
             ~ (-21 <= c <= 20)%Z /\
             ValueError = (if fits_int64 c then IndexError else ValueError)).
Proof.
  split.
  - split; [exact toy_far_fails|].
    destruct (@forward_error_kinds Z_Scalar Z_RotOps toy_far_centered
                zero_pose zero_betas IndexError (toy_fit (Some 21%Z))
                (toy_registered (Some 21%Z)) (cons_not_nil _ _)
                toy_far_fails)
      as [[_ H]|[_ H]]; [discriminate H | exact H].
  - split; [exact toy_overflow_fails|].
    destruct (@forward_error_kinds Z_Scalar Z_RotOps
                (toy_layer_at (Some (2 ^ 63)%Z)) zero_pose zero_betas
                ValueError (toy_fit (Some (2 ^ 63)%Z))
                (toy_registered (Some (2 ^ 63)%Z)) (cons_not_nil _ _)
                toy_overflow_fails)
      as [[_ H]|[_ H]]; [discriminate H | exact H].
Defined.

Lemma forward_output_shapes_witness :
  exists out,
    forward toy_centered toy_pose toy_betas = Ok out /\
    (length (verts out) = 2 /\ length (joints out) = 2 /\
     length (center_joint out) = 2 /\ length (full_poses out) = 2 /\
     length (betas out) = 2 /\ length (transforms_abs out) = 2) /\
    Forall (fun vs => length vs = length (th_v_template toy_centered))
           (verts out) /\
    Forall (fun js => length js = 21) (joints out) /\
    Forall (fun p => length p = 48) (full_poses out) /\
    Forall (fun gs => length gs = 16) (transforms_abs out).
Proof.
  destruct toy_batch_returns as [out Hout].
  exists out. split; [exact Hout|].
  exact (@forward_output_shapes Z_Scalar Z_RotOps toy_centered toy_pose
           toy_betas out (toy_consistent (Some 9%Z)) Hout).
Defined.


Lemma joints_match_transforms_witness :
  exists out,
    forward toy_centered toy_pose toy_betas = Ok out /\
    nth 4 (nth 0 (joints out) []) zero3 =
      nth 745 (nth 0 (verts out) []) zero3 /\
    nth 5 (nth 0 (joints out) []) zero3 =
      tsl_of (nth 1 (nth 0 (transforms_abs out) []) mzero4).
Proof.
  destruct toy_batch_returns as [out Hout].
  exists out. split; [exact Hout|]. split.
  - exact (@joints_match_transforms Z_Scalar Z_RotOps toy_centered toy_pose
             toy_betas out 0 4 Hout (le_S _ _ (le_n 1))
             (proj1 (Nat.leb_le 5 21) eq_refl)).
  - exact (@joints_match_transforms Z_Scalar Z_RotOps toy_centered toy_pose
             toy_betas out 0 5 Hout (le_S _ _ (le_n 1))
             (proj1 (Nat.leb_le 6 21) eq_refl)).
Defined.



Lemma side_is_case_sensitive_witness :
  ManoLayer_init capital_side_args toy_ready_arguments =
    ([], Ok (register_buffers capital_side_args by_axisang 3 toy_data)) /\
  ManoLayer_init default_args toy_ready_arguments = ([], Ok toy_right) /\
  tip_idxs (side (register_buffers capital_side_args by_axisang 3 toy_data)) =
    [745; 317; 445; 556; 673].
Proof.
  assert (Hinit : ManoLayer_init (set_side default_args "RIGHT")
                    toy_ready_arguments =
            ([], Ok (register_buffers capital_side_args by_axisang 3 toy_data)))
    by reflexivity.
  assert (Hne : "RIGHT" <> "right") by (intros H; discriminate H).
  destruct (@side_is_case_sensitive Z_Scalar default_args toy_ready_arguments
              [] _ "RIGHT" eq_refl Hne Hinit) as (Hr & _ & Ht).
  split; [exact Hinit|]. split; [exact Hr | exact Ht].
Defined.

Lemma side_moves_one_joint_witness :
  exists out out',
    forward toy_centered toy_pose toy_betas = Ok out /\
    forward (with_side toy_centered "left") toy_pose toy_betas = Ok out' /\
    verts out' = verts out /\
    transforms_abs out' = transforms_abs out /\
    nth 11 (nth 1 (joints out') []) zero3 =
    nth 11 (nth 1 (joints out) []) zero3.
Proof.
  destruct toy_batch_returns as [out Hout].
  assert (H12 : center_idx toy_centered <> Some 12%Z)
    by (intros H; discriminate H).
  assert (H9 : center_idx toy_centered <> Some (-9)%Z)
    by (intros H; discriminate H).
  destruct (@side_moves_one_joint Z_Scalar Z_RotOps toy_centered "left"
              toy_pose toy_betas out Hout H12 H9)
    as (out' & Hout' & Hv & _ & _ & Ht & Hj).
  exists out, out'. split; [exact Hout|]. split; [exact Hout'|].
  split; [exact Hv|]. split; [exact Ht|].
  apply Hj. intros H. discriminate H.
Defined.
